(** * ingesta: schema-aware mock-data seeding and table export

    A shallow embedding of [ingesta.py] and the properties of its
    mock value generator, seeding policy, statement construction,
    configuration handling and CSV export.

    Strings are Python [str] values restricted to characters of code
    point below 256 (MySQL type descriptors and identifiers as [DESCRIBE]
    returns them); integers are Python's unbounded [int], modelled by
    [Z]; an exception raised by the program or by a library call is an
    explicit [Raise] result.  The library calls are those of CPython 3.11
    with its default settings. *)

From Stdlib Require Import ZArith Strings.String Strings.Ascii Lists.List Bool Lia.
From Stdlib Require Import DecimalString.
From Stdlib Require DecimalZ DecimalPos.
From Stdlib Require Floats.SpecFloat.
From stdpp Require Import base option list gmap strings.

Local Open Scope string_scope.
Local Open Scope Z_scope.
#[local] Arguments String.append !s1 s2 : simpl nomatch.

(** * Part I: the program and the libraries it calls *)

(** ** Python values, exceptions and results *)

(** Exceptions that the modelled code and the library calls it makes
    can raise. *)
Inductive exn : Type :=
| OverflowError
| ValueError
| KeyError (key : string)
| RuntimeError (msg : string)
| MySQLError (msg : string)
| OSError (msg : string)
| CsvError (msg : string).

Inductive result (A : Type) : Type :=
| Ok (a : A)
| Raise (e : exn).

Arguments Ok {A} a.
Arguments Raise {A} e.

Definition bind {A B : Type} (r : result A) (k : A -> result B) : result B :=
  match r with
  | Ok a => k a
  | Raise e => Raise e
  end.

Declare Scope py_scope.
Delimit Scope py_scope with py.
Notation "'let*' x ':=' r 'in' k" := (bind r (fun x => k))
  (at level 10, x name, r at level 100, k at level 200) : py_scope.
Local Open Scope py_scope.

Definition is_ok {A : Type} (r : result A) : bool :=
  match r with Ok _ => true | Raise _ => false end.

(** Scalars that travel between the program and the database driver. *)
Inductive value : Type :=
| VNone
| VInt (z : Z)
| VFloat (f : SpecFloat.spec_float)
| VStr (s : string).

(** ** Python string operations used by the program *)

Module PyStr.

(** The upper-case letters below code point 256: [A] to [Z], and the
    accented capitals from U+00C0 to U+00DE but for the multiplication
    sign U+00D7; the lower-case letter of each is 32 further. *)
Definition is_upper (a : ascii) : bool :=
  let n := nat_of_ascii a in
  ((Nat.leb 65 n && Nat.leb n 90)
   || (Nat.leb 192 n && Nat.leb n 222 && negb (Nat.eqb n 215)))%bool.

Definition lower_char (a : ascii) : ascii :=
  if is_upper a then ascii_of_nat (nat_of_ascii a + 32) else a.

(** [s.lower()] *)
Fixpoint lower (s : string) : string :=
  match s with
  | EmptyString => EmptyString
  | String a s' => String (lower_char a) (lower s')
  end.

(** [s.startswith(p)] *)
Fixpoint startswith (s p : string) {struct p} : bool :=
  match p, s with
  | EmptyString, _ => true
  | String a p', String b s' => if Ascii.eqb a b then startswith s' p' else false
  | String _ _, EmptyString => false
  end.

(** [p in s] *)
Fixpoint contains (p s : string) : bool :=
  startswith s p ||
  match s with
  | EmptyString => false
  | String _ s' => contains p s'
  end.

(** [s.replace(c, r)] for a one-character [c]. *)
Fixpoint replace (c : ascii) (r s : string) : string :=
  match s with
  | EmptyString => EmptyString
  | String a s' =>
      if Ascii.eqb a c then r ++ replace c r s' else String a (replace c r s')
  end.

(** [sep.join(parts)] *)
Fixpoint join (sep : string) (parts : list string) : string :=
  match parts with
  | [] => EmptyString
  | [p] => p
  | p :: rest => p ++ sep ++ join sep rest
  end.

(** The decimal notation of an integer: its digits, with a leading minus
    sign for a negative number. *)
Definition decimal (n : Z) : string := NilZero.string_of_int (Z.to_int n).

(** The most digits an [int] may have when it is converted to or from a
    string ([sys.get_int_max_str_digits()]). *)
Definition MAX_STR_DIGITS : nat := 4300.

(** Zero padding on the left up to [width] characters, as the [%02d] and
    [%04d] conversions do for a non-negative number. *)
Fixpoint zeros (k : nat) : string :=
  match k with
  | O => EmptyString
  | S k' => String "0" (zeros k')
  end.

Definition zfill (width : nat) (n : Z) : string :=
  let s := decimal n in zeros (width - String.length s) ++ s.

End PyStr.

(** [str(n)] for an [int], which is also how an f-string formats it: the
    decimal notation, and [ValueError] when the number has more than
    [MAX_STR_DIGITS] digits, the sign not counted. *)
Definition py_str_int (n : Z) : result string :=
  if Nat.leb (String.length (PyStr.decimal (Z.abs n))) PyStr.MAX_STR_DIGITS
  then Ok (PyStr.decimal n)
  else Raise ValueError.

(** A decimal digit. *)
Definition is_digit (a : ascii) : bool :=
  let n := nat_of_ascii a in (Nat.leb 48 n && Nat.leb n 57)%bool.

(** ** [float(n)] for an [int] *)

(** Python converts an integer to the nearest IEEE-754 binary64 number,
    ties to even, and raises [OverflowError] when that number is not
    finite, which is the case from [2^1024 - 2^970] on: the midpoint
    between the largest finite number and [2^1024]. *)
Definition FLOAT_OVERFLOW : Z := 2 ^ 1024 - 2 ^ 970.

Definition py_float (n : Z) : result SpecFloat.spec_float :=
  if Z.abs n <? FLOAT_OVERFLOW
  then Ok (SpecFloat.binary_normalize 53 1024 n 0 false)
  else Raise OverflowError.

(** ** The part of Python's [datetime] module the generator uses

    Dates are days of the proleptic Gregorian calendar, numbered from
    0001-01-01 (ordinal 1) to 9999-12-31 (ordinal [MAXORDINAL]); the
    definitions follow the reference implementation of the module.  All
    quantities the program builds are whole seconds, so microseconds are
    left out. *)

Module PyDatetime.

Definition is_leap (year : Z) : bool :=
  (year mod 4 =? 0) && (negb (year mod 100 =? 0) || (year mod 400 =? 0)).

Definition days_before_year (year : Z) : Z :=
  let y := year - 1 in
  y * 365 + y / 4 - y / 100 + y / 400.

Definition days_in_month (year month : Z) : Z :=
  match month with
  | 1 => 31 | 2 => if is_leap year then 29 else 28 | 3 => 31 | 4 => 30
  | 5 => 31 | 6 => 30 | 7 => 31 | 8 => 31 | 9 => 30 | 10 => 31
  | 11 => 30 | 12 => 31 | _ => 0
  end.

Definition DAYS_BEFORE_MONTH (month : Z) : Z :=
  match month with
  | 1 => 0 | 2 => 31 | 3 => 59 | 4 => 90 | 5 => 120 | 6 => 151
  | 7 => 181 | 8 => 212 | 9 => 243 | 10 => 273 | 11 => 304 | 12 => 334
  | _ => 0
  end.

Definition days_before_month (year month : Z) : Z :=
  DAYS_BEFORE_MONTH month +
  (if (2 <? month) && is_leap year then 1 else 0).

Definition ymd2ord (year month day : Z) : Z :=
  days_before_year year + days_before_month year month + day.

Definition DI400Y : Z := 146097.

Definition DI100Y : Z := 36524.

Definition DI4Y : Z := 1461.

Definition MAXORDINAL : Z := 3652059.

Definition ord2ymd (n : Z) : Z * Z * Z :=
  let n := n - 1 in
  let n400 := n / DI400Y in
  let n := n mod DI400Y in
  let year := n400 * 400 + 1 in
  let n100 := n / DI100Y in
  let n := n mod DI100Y in
  let n4 := n / DI4Y in
  let n := n mod DI4Y in
  let n1 := n / 365 in
  let n := n mod 365 in
  let year := year + n100 * 100 + n4 * 4 + n1 in
  if (n1 =? 4) || (n100 =? 4) then (year - 1, 12, 31)
  else
    let leapyear := (n1 =? 3) && (negb (n4 =? 24) || (n100 =? 3)) in
    let month := Z.shiftr (n + 50) 5 in
    let preceding :=
      DAYS_BEFORE_MONTH month + (if (2 <? month) && leapyear then 1 else 0) in
    if n <? preceding then
      let month := month - 1 in
      let preceding :=
        preceding -
        (days_in_month 1 month + (if (month =? 2) && leapyear then 1 else 0)) in
      (year, month, n - preceding + 1)
    else (year, month, n - preceding + 1).

(** A calendar date that exists. *)
Definition valid_date (year month day : Z) : Prop :=
  1 <= year <= 9999 /\ 1 <= month <= 12 /\ 1 <= day <= days_in_month year month.

Record timedelta : Type := mk_timedelta { td_days : Z; td_seconds : Z }.

(** [timedelta(days=d, hours=h, seconds=s)]: the value is normalised to
    [0 <= seconds < 86400] and more than 999999999 days in either
    direction are refused. *)
Definition new_timedelta (days hours seconds : Z) : result timedelta :=
  let total := hours * 3600 + seconds in
  let d := days + total / 86400 in
  let s := total mod 86400 in
  if 999999999 <? Z.abs d then Raise OverflowError
  else Ok (mk_timedelta d s).

Record datetime : Type := mk_datetime {
  dt_year : Z; dt_month : Z; dt_day : Z;
  dt_hour : Z; dt_minute : Z; dt_second : Z
}.

(** [self + other] for a [datetime] and a [timedelta]. *)
Definition datetime_add (self : datetime) (other : timedelta) : result datetime :=
  let* delta := new_timedelta
                  (ymd2ord (dt_year self) (dt_month self) (dt_day self))
                  (dt_hour self)
                  (dt_minute self * 60 + dt_second self) in
  let* delta := new_timedelta (td_days delta + td_days other) 0
                  (td_seconds delta + td_seconds other) in
  let hour := td_seconds delta / 3600 in
  let rem := td_seconds delta mod 3600 in
  let minute := rem / 60 in
  let second := rem mod 60 in
  if (0 <? td_days delta) && (td_days delta <=? MAXORDINAL) then
    let '(y, m, d) := ord2ymd (td_days delta) in
    Ok (mk_datetime y m d hour minute second)
  else Raise OverflowError.

(** [d.isoformat()] for the date part: [%04d-%02d-%02d]. *)
Definition date_isoformat (year month day : Z) : string :=
  PyStr.zfill 4 year ++ "-" ++ PyStr.zfill 2 month ++ "-" ++ PyStr.zfill 2 day.

(** [dt.strftime("%Y-%m-%d %H:%M:%S")].  The year is written with four
    digits, as the C library does from the year 1000 on. *)
Definition strftime_ymd_hms (dt : datetime) : string :=
  PyStr.zfill 4 (dt_year dt) ++ "-" ++ PyStr.zfill 2 (dt_month dt) ++ "-" ++
  PyStr.zfill 2 (dt_day dt) ++ " " ++ PyStr.zfill 2 (dt_hour dt) ++ ":" ++
  PyStr.zfill 2 (dt_minute dt) ++ ":" ++ PyStr.zfill 2 (dt_second dt).

End PyDatetime.

(** ** [int(s)] for a string *)

Module PyInt.

(** Characters that [int] skips around a number: tab to carriage return
    and the space, which are the white space of C, and the two characters
    beyond ASCII and below code point 256 that are white space for [str],
    U+0085 and U+00A0, which [int] reads as spaces.  The separators
    U+001C to U+001F are not skipped. *)
Definition is_space (c : ascii) : bool :=
  let n := nat_of_ascii c in
  (Nat.leb 9 n && Nat.leb n 13) || Nat.eqb n 32 || Nat.eqb n 133 || Nat.eqb n 160.

Fixpoint lstrip (s : string) : string :=
  match s with
  | EmptyString => EmptyString
  | String c s' => if is_space c then lstrip s' else s
  end.

Fixpoint rev_onto (s acc : string) : string :=
  match s with
  | EmptyString => acc
  | String c s' => rev_onto s' (String c acc)
  end.

Definition strip (s : string) : string :=
  rev_onto (lstrip (rev_onto (lstrip s) EmptyString)) EmptyString.

Definition digit_value (c : ascii) : Z := Z.of_nat (nat_of_ascii c - 48).

(** Decimal digits, where one underscore may stand between two digits. *)
Fixpoint digits (acc : Z) (after_underscore : bool) (s : string) : option Z :=
  match s with
  | EmptyString => if after_underscore then None else Some acc
  | String c s' =>
      if is_digit c then digits (acc * 10 + digit_value c) false s'
      else if Ascii.eqb c "_" then
        if after_underscore then None else digits acc true s'
      else None
  end.

Definition unsigned (s : string) : option Z :=
  match s with
  | String c _ => if is_digit c then digits 0 false s else None
  | EmptyString => None
  end.

(** The number of digits of a text, leading zeros included and
    underscores not. *)
Fixpoint count_digits (s : string) : nat :=
  match s with
  | EmptyString => O
  | String c s' => ((if is_digit c then 1 else 0) + count_digits s')%nat
  end.

(** [int(s)] for a string: white space around the number is skipped, a
    sign may come first, and a number of more than [MAX_STR_DIGITS]
    digits is refused like a text that is no number. *)
Definition of_string (s : string) : result Z :=
  let body := strip s in
  let parsed :=
    match body with
    | String c rest =>
        if Ascii.eqb c "-" then option_map Z.opp (unsigned rest)
        else if Ascii.eqb c "+" then unsigned rest
        else unsigned body
    | EmptyString => None
    end in
  match parsed with
  | Some n =>
      if Nat.leb (count_digits body) PyStr.MAX_STR_DIGITS then Ok n
      else Raise ValueError
  | None => Raise ValueError
  end.

End PyInt.

(** ** The mock value generator *)

(** The double quote character, as a string. *)
Definition dquote : string := String "034" EmptyString.

(** [generate_mock_value(column_type, column_name, row_index)] *)
Definition generate_mock_value (column_type column_name : string) (row_index : Z)
  : result value :=
  let column_type := PyStr.lower column_type in
  let ordinal := row_index + 1 in
  if PyStr.contains "int" column_type && PyStr.contains "unsigned" column_type then
    Ok (VInt ordinal)
  else if PyStr.startswith column_type "int" || PyStr.contains "bigint" column_type
          || PyStr.contains "smallint" column_type then
    Ok (VInt ordinal)
  else if PyStr.contains "decimal" column_type || PyStr.contains "numeric" column_type
          || PyStr.contains "float" column_type || PyStr.contains "double" column_type then
    let* f := py_float ordinal in Ok (VFloat f)
  else if PyStr.contains "bool" column_type || String.eqb column_type "tinyint(1)" then
    Ok (VInt (row_index mod 2))
  else if PyStr.contains "date" column_type && negb (PyStr.contains "time" column_type) then
    let* delta := PyDatetime.new_timedelta row_index 0 0 in
    let* base_date :=
      PyDatetime.datetime_add (PyDatetime.mk_datetime 2024 1 1 0 0 0) delta in
    Ok (VStr (PyDatetime.date_isoformat (PyDatetime.dt_year base_date)
                (PyDatetime.dt_month base_date) (PyDatetime.dt_day base_date)))
  else if PyStr.contains "datetime" column_type || PyStr.contains "timestamp" column_type
          || PyStr.contains "time" column_type then
    let* delta := PyDatetime.new_timedelta 0 row_index 0 in
    let* base_datetime :=
      PyDatetime.datetime_add (PyDatetime.mk_datetime 2024 1 1 12 0 0) delta in
    Ok (VStr (PyDatetime.strftime_ymd_hms base_datetime))
  else if PyStr.contains "char" column_type || PyStr.contains "text" column_type then
    let* digits := py_str_int ordinal in
    Ok (VStr ("mock_" ++ column_name ++ "_" ++ digits))
  else if PyStr.contains "json" column_type then
    let* digits := py_str_int ordinal in
    Ok (VStr ("{" ++ dquote ++ "mock" ++ dquote ++ ": " ++ dquote ++ column_name ++ "_"
              ++ digits ++ dquote ++ "}"))
  else
    let* digits := py_str_int ordinal in
    Ok (VStr ("mock_" ++ column_name ++ "_" ++ digits)).

(** ** The database server, as the program sees it

    The program talks to the server through statement texts.  The server
    side below covers the four statement shapes the program sends and the
    way MySQL reads a quoted identifier: it starts after a backtick and
    runs to the next backtick that is not doubled; a doubled backtick
    stands for one backtick of the name. *)

(** A row of [DESCRIBE]: the keys the program reads.  [Extra] is read with
    a default, so the key may be absent. *)
Record column : Type := mk_column {
  Field : string;
  Type_ : string;
  Extra : option string
}.

Record table : Type := mk_table {
  tbl_columns : list column;
  tbl_rows : list (list value)
}.

Module MySQL.

(** The name and the rest of the text, read after the opening backtick. *)
Fixpoint lex_quoted (s : string) : option (string * string) :=
  match s with
  | EmptyString => None
  | String a s' =>
      if Ascii.eqb a "`" then
        match s' with
        | String b s'' =>
            if Ascii.eqb b "`" then
              match lex_quoted s'' with
              | Some (name, rest) => Some (String "`" name, rest)
              | None => None
              end
            else Some (EmptyString, s')
        | EmptyString => Some (EmptyString, s')
        end
      else
        match lex_quoted s' with
        | Some (name, rest) => Some (String a name, rest)
        | None => None
        end
  end.

Definition lex_identifier (s : string) : option (string * string) :=
  match s with
  | String a s' => if Ascii.eqb a "`" then lex_quoted s' else None
  | EmptyString => None
  end.

Fixpoint strip_prefix (p s : string) {struct p} : option string :=
  match p, s with
  | EmptyString, _ => Some s
  | String a p', String b s' => if Ascii.eqb a b then strip_prefix p' s' else None
  | String _ _, EmptyString => None
  end.

(** Quoted identifiers separated by [", "] up to a closing parenthesis. *)
Fixpoint lex_identifier_list (fuel : nat) (s : string) : option (list string * string) :=
  match fuel with
  | O => None
  | S fuel' =>
      match lex_identifier s with
      | Some (name, rest) =>
          match strip_prefix ")" rest with
          | Some rest' => Some ([name], rest')
          | None =>
              match strip_prefix ", " rest with
              | Some rest' =>
                  match lex_identifier_list fuel' rest' with
                  | Some (names, rest'') => Some (name :: names, rest'')
                  | None => None
                  end
              | None => None
              end
          end
      | None => None
      end
  end.

(** Parameter markers [%s] separated by [", "] up to a closing
    parenthesis: how many there are. *)
Fixpoint lex_placeholders (fuel : nat) (s : string) : option (nat * string) :=
  match fuel with
  | O => None
  | S fuel' =>
      match strip_prefix "%s" s with
      | Some rest =>
          match strip_prefix ")" rest with
          | Some rest' => Some (1%nat, rest')
          | None =>
              match strip_prefix ", " rest with
              | Some rest' =>
                  match lex_placeholders fuel' rest' with
                  | Some (n, rest'') => Some (S n, rest'')
                  | None => None
                  end
              | None => None
              end
          end
      | None => None
      end
  end.

Inductive statement : Type :=
| SelectCount (table_name : string)
| Describe (table_name : string)
| SelectAll (table_name : string)
| InsertInto (table_name : string) (columns : list string) (markers : nat).

Definition whole_identifier (s : string) : option string :=
  match lex_identifier s with
  | Some (name, EmptyString) => Some name
  | _ => None
  end.

Definition parse_insert (s : string) : option statement :=
  match lex_identifier s with
  | Some (name, rest) =>
      match strip_prefix " (" rest with
      | Some rest =>
          match lex_identifier_list (String.length rest) rest with
          | Some (columns, rest) =>
              match strip_prefix " VALUES (" rest with
              | Some rest =>
                  match lex_placeholders (String.length rest) rest with
                  | Some (markers, EmptyString) => Some (InsertInto name columns markers)
                  | _ => None
                  end
              | None => None
              end
          | None => None
          end
      | None => None
      end
  | None => None
  end.

Definition parse (operation : string) : option statement :=
  match strip_prefix "SELECT COUNT(*) AS count FROM " operation with
  | Some rest => option_map SelectCount (whole_identifier rest)
  | None =>
  match strip_prefix "DESCRIBE " operation with
  | Some rest => option_map Describe (whole_identifier rest)
  | None =>
  match strip_prefix "SELECT * FROM " operation with
  | Some rest => option_map SelectAll (whole_identifier rest)
  | None =>
  match strip_prefix "INSERT INTO " operation with
  | Some rest => parse_insert rest
  | None => None
  end end end end.

(** What a cursor holds after a query. *)
Inductive response : Type :=
| CountRow (count : Z)
| ColumnRows (columns : list column)
| TableRows (names : list string) (rows : list (list value)).

End MySQL.

(** [range(n)] *)
Definition range (n : Z) : list Z := List.map Z.of_nat (List.seq 0 (Z.to_nat n)).

(** A list comprehension whose body can raise: elements are computed from
    the left and the first exception ends the computation. *)
Fixpoint comprehension {A B : Type} (f : A -> result B) (l : list A) : result (list B) :=
  match l with
  | [] => Ok []
  | x :: l' =>
      let* y := f x in
      let* ys := comprehension f l' in
      Ok (y :: ys)
  end.

(** Calls the program makes on the connection and its cursors, in the
    order they are made. *)
Inductive call : Type :=
| Execute (operation : string)
| ExecuteMany (operation : string) (seq_params : list (list value))
| Commit
| Close.

(** A connection: the tables of the database it is bound to and the calls
    made so far. *)
Record connection : Type := mk_connection {
  conn_db : gmap string table;
  conn_calls : list call
}.

(** Computations on a connection that may raise. *)
Definition M (A : Type) : Type := connection -> result A * connection.

Definition ret {A : Type} (a : A) : M A := fun c => (Ok a, c).

Definition lift {A : Type} (r : result A) : M A := fun c => (r, c).

Definition bindM {A B : Type} (m : M A) (k : A -> M B) : M B :=
  fun c =>
    match m c with
    | (Ok a, c') => k a c'
    | (Raise e, c') => (Raise e, c')
    end.

Notation "'let!' x ':=' m 'in' k" := (bindM m (fun x => k))
  (at level 10, x name, m at level 100, k at level 200) : py_scope.

Definition record_call (x : call) (c : connection) : connection :=
  mk_connection (conn_db c) (conn_calls c ++ [x]).

(** ** Seeding and extraction *)

Section Server.

(** How the server builds the stored row of a table from the columns
    named in an [INSERT] and the values given for them (defaults,
    generated keys, conversions), or refuses it. *)
Variable store : table -> list string -> list value -> result (list value).

(** [cursor.execute(operation)] followed by reading the result set. *)
Definition execute (operation : string) : M MySQL.response :=
  fun c =>
    let c := record_call (Execute operation) c in
    match MySQL.parse operation with
    | Some (MySQL.SelectCount name) =>
        match conn_db c !! name with
        | Some t => (Ok (MySQL.CountRow (Z.of_nat (length (tbl_rows t)))), c)
        | None => (Raise (MySQLError "unknown table"), c)
        end
    | Some (MySQL.Describe name) =>
        match conn_db c !! name with
        | Some t => (Ok (MySQL.ColumnRows (tbl_columns t)), c)
        | None => (Raise (MySQLError "unknown table"), c)
        end
    | Some (MySQL.SelectAll name) =>
        match conn_db c !! name with
        | Some t =>
            (Ok (MySQL.TableRows (List.map Field (tbl_columns t)) (tbl_rows t)), c)
        | None => (Raise (MySQLError "unknown table"), c)
        end
    | Some (MySQL.InsertInto _ _ _) => (Raise (MySQLError "syntax error"), c)
    | None => (Raise (MySQLError "syntax error"), c)
    end.

(** [cursor.executemany(operation, seq_params)]: nothing is sent for an
    empty sequence; otherwise the rows of an [INSERT] are sent as one
    statement, which the server applies as a whole or not at all. *)
Definition executemany (operation : string) (seq_params : list (list value)) : M unit :=
  fun c =>
    let c := record_call (ExecuteMany operation seq_params) c in
    match seq_params with
    | [] => (Ok tt, c)
    | _ :: _ =>
        match MySQL.parse operation with
        | Some (MySQL.InsertInto name columns markers) =>
            match conn_db c !! name with
            | Some t =>
                if forallb (fun row => Nat.eqb (length row) markers) seq_params then
                  match comprehension (store t columns) seq_params with
                  | Ok new_rows =>
                      (Ok tt,
                       mk_connection
                         (<[name := mk_table (tbl_columns t) (tbl_rows t ++ new_rows)]>
                            (conn_db c))
                         (conn_calls c))
                  | Raise e => (Raise e, c)
                  end
                else (Raise (MySQLError "wrong number of parameters"), c)
            | None => (Raise (MySQLError "unknown table"), c)
            end
        | _ => (Raise (MySQLError "syntax error"), c)
        end
    end.

(** [connection.commit()] *)
Definition commit : M unit := fun c => (Ok tt, record_call Commit c).

(** [cursor.fetchone()["count"]] *)
Definition fetch_count (r : MySQL.response) : result Z :=
  match r with
  | MySQL.CountRow n => Ok n
  | _ => Raise (KeyError "count")
  end.

(** [cursor.fetchall()] after [DESCRIBE]. *)
Definition fetch_columns (r : MySQL.response) : result (list column) :=
  match r with
  | MySQL.ColumnRows cols => Ok cols
  | _ => Raise (KeyError "Field")
  end.

(** [column.get("Extra", "")] *)
Definition get_Extra (c : column) : string :=
  match Extra c with Some e => e | None => "" end.

(** The identifier between backticks, with its backticks doubled. *)
Definition quote_identifier (name : string) : string :=
  "`" ++ PyStr.replace "`" "``" name ++ "`".

(** The columns that receive a value: those whose [Extra] does not
    mention [auto_increment], in the order of the schema. *)
Definition insertable (column_metadata : list column) : list column :=
  List.filter (fun column => negb (PyStr.contains "auto_increment" (get_Extra column)))
    column_metadata.

(** The rows of one batch: row [row_index] holds one generated value per
    insertable column. *)
Definition build_mock_rows (insertable_columns : list column) (rows_to_insert : Z)
  : result (list (list value)) :=
  comprehension
    (fun row_index =>
       comprehension
         (fun column => generate_mock_value (Type_ column) (Field column) row_index)
         insertable_columns)
    (range rows_to_insert).

(** [seed_mock_data(connection, table_name, rows_to_insert)]; the
    function has no [return] with a value, so its result is [None]. *)
Definition seed_mock_data (table_name : string) (rows_to_insert : Z) : M value :=
  let sanitized_table := PyStr.replace "`" "``" table_name in
  let! counted := execute ("SELECT COUNT(*) AS count FROM `" ++ sanitized_table ++ "`") in
  let! existing_rows := lift (fetch_count counted) in
  if negb (existing_rows =? 0) then ret VNone
  else
    let! described := execute ("DESCRIBE `" ++ sanitized_table ++ "`") in
    let! column_metadata := lift (fetch_columns described) in
    let insertable_columns := insertable column_metadata in
    match insertable_columns with
    | [] => ret VNone
    | _ :: _ =>
        let column_names := List.map Field insertable_columns in
        let placeholders := PyStr.join ", " (List.repeat "%s" (length column_names)) in
        let column_list :=
          PyStr.join ", "
            (List.map (fun name => "`" ++ PyStr.replace "`" "``" name ++ "`") column_names) in
        let insert_query :=
          "INSERT INTO `" ++ sanitized_table ++ "` (" ++ column_list ++ ") VALUES ("
          ++ placeholders ++ ")" in
        let! mock_rows := lift (build_mock_rows insertable_columns rows_to_insert) in
        let! _ := executemany insert_query mock_rows in
        let! _ := commit in
        ret VNone
    end.

(** [cursor.description] names and [cursor.fetchall()] after a select. *)
Definition fetch_rows (r : MySQL.response) : result (list string * list (list value)) :=
  match r with
  | MySQL.TableRows names rows => Ok (names, rows)
  | _ => Raise (KeyError "description")
  end.

(** [fetch_table_data(connection, table_name)] *)
Definition fetch_table_data (table_name : string)
  : M (list string * list (list value)) :=
  let sanitized_table := PyStr.replace "`" "``" table_name in
  let query := "SELECT * FROM `" ++ sanitized_table ++ "`" in
  let! selected := execute query in
  lift (fetch_rows selected).

End Server.

(** ** Python's [csv] module, [excel] dialect

    The writer and the reader as the program and a consumer of its
    artifact use them: comma as delimiter, the double quote as quote
    character, quotes doubled inside a quoted field, minimal quoting, records ended by CR LF.  The
    reader takes the text through a file opened with [newline=""]: lines
    end at LF, at CR LF, or at a CR that no LF follows, and the reader is
    told about the end of each line.  The reader is taken without its
    configurable limit on the size of a field. *)

Module Csv.

Definition comma : ascii := ",".

Definition quote : ascii := "034".

Definition CR : ascii := "013".

Definition LF : ascii := "010".

Definition special (c : ascii) : bool :=
  Ascii.eqb c comma || Ascii.eqb c quote || Ascii.eqb c CR || Ascii.eqb c LF.

Fixpoint needs_quotes (s : string) : bool :=
  match s with
  | EmptyString => false
  | String c s' => special c || needs_quotes s'
  end.

(** One field of a record. *)
Definition write_field (s : string) : string :=
  if needs_quotes s
  then String quote (PyStr.replace quote (String quote (String quote "")) s
                     ++ String quote "")
  else s.

(** [writer.writerow(fields)]: a record made of one empty field is
    written as a pair of quotes, so that it is not an empty line. *)
Definition writerow (fields : list string) : string :=
  (match fields with
   | [EmptyString] => String quote (String quote "")
   | _ => PyStr.join (String comma "") (List.map write_field fields)
   end) ++ String CR (String LF "").

(** [writer.writerows(rows)] *)
Fixpoint writerows (rows : list (list string)) : string :=
  match rows with
  | [] => EmptyString
  | row :: rows' => writerow row ++ writerows rows'
  end.

Inductive state : Type :=
| START_RECORD | START_FIELD | IN_FIELD | IN_QUOTED_FIELD
| QUOTE_IN_QUOTED_FIELD | EAT_CRNL.

Record parser : Type := mk_parser {
  fields : list string;
  field : string;
  st : state
}.

Definition fresh : parser := mk_parser [] "" START_RECORD.

Definition parse_save_field (p : parser) (s : state) : parser :=
  mk_parser (fields p ++ [field p])%list "" s.

Definition parse_add_char (p : parser) (c : ascii) (s : state) : parser :=
  mk_parser (fields p) (field p ++ String c "") s.

Definition set_state (p : parser) (s : state) : parser :=
  mk_parser (fields p) (field p) s.

Definition is_newline (c : ascii) : bool := Ascii.eqb c LF || Ascii.eqb c CR.

Definition start_field (p : parser) (c : option ascii) : parser :=
  match c with
  | None => parse_save_field p START_RECORD
  | Some c =>
      if is_newline c then parse_save_field p EAT_CRNL
      else if Ascii.eqb c quote then set_state p IN_QUOTED_FIELD
      else if Ascii.eqb c comma then parse_save_field p START_FIELD
      else parse_add_char p c IN_FIELD
  end.

(** One character, or the end of a line ([None]), in a given state. *)
Definition parse_process_char (p : parser) (c : option ascii) : result parser :=
  match st p with
  | START_RECORD =>
      match c with
      | None => Ok p
      | Some c' =>
          if is_newline c' then Ok (set_state p EAT_CRNL)
          else Ok (start_field p c)
      end
  | START_FIELD => Ok (start_field p c)
  | IN_FIELD =>
      match c with
      | None => Ok (parse_save_field p START_RECORD)
      | Some c =>
          if is_newline c then Ok (parse_save_field p EAT_CRNL)
          else if Ascii.eqb c comma then Ok (parse_save_field p START_FIELD)
          else Ok (parse_add_char p c IN_FIELD)
      end
  | IN_QUOTED_FIELD =>
      match c with
      | None => Ok p
      | Some c =>
          if Ascii.eqb c quote then Ok (set_state p QUOTE_IN_QUOTED_FIELD)
          else Ok (parse_add_char p c IN_QUOTED_FIELD)
      end
  | QUOTE_IN_QUOTED_FIELD =>
      match c with
      | None => Ok (parse_save_field p START_RECORD)
      | Some c =>
          if Ascii.eqb c quote then Ok (parse_add_char p c IN_QUOTED_FIELD)
          else if Ascii.eqb c comma then Ok (parse_save_field p START_FIELD)
          else if is_newline c then Ok (parse_save_field p EAT_CRNL)
          else Ok (parse_add_char p c IN_FIELD)
      end
  | EAT_CRNL =>
      match c with
      | None => Ok (set_state p START_RECORD)
      | Some c =>
          if is_newline c then Ok p
          else Raise (CsvError "new-line character seen in unquoted field")
      end
  end.

(** The reader at some point of the text: the records returned so far,
    the parser, whether the current line has characters, and whether its
    last character is a CR that may still be followed by a LF. *)
Record reader : Type := mk_reader {
  records : list (list string);
  current : parser;
  in_line : bool;
  pending_cr : bool
}.

Definition start : reader := mk_reader [] fresh false false.

(** The end of a line: the record is returned when the parser is back at
    the start of a record. *)
Definition end_of_line (r : reader) : result reader :=
  let* p := parse_process_char (current r) None in
  match st p with
  | START_RECORD => Ok (mk_reader (records r ++ [fields p])%list fresh false false)
  | _ => Ok (mk_reader (records r) p false false)
  end.

Definition feed_char (r : reader) (c : ascii) : result reader :=
  let* r :=
    (if pending_cr r && negb (Ascii.eqb c LF) then end_of_line r else Ok r) in
  let* p := parse_process_char (current r) (Some c) in
  let r := mk_reader (records r) p true (Ascii.eqb c CR) in
  if Ascii.eqb c LF then end_of_line r else Ok r.

Fixpoint feed (r : reader) (text : string) : result reader :=
  match text with
  | EmptyString => Ok r
  | String c text' => let* r := feed_char r c in feed r text'
  end.

(** The end of the text: a last line without a line end is ended, and a
    record cut inside a quoted field is returned as it stands. *)
Definition finish (r : reader) : result (list (list string)) :=
  let* r := (if in_line r then end_of_line r else Ok r) in
  match st (current r) with
  | IN_QUOTED_FIELD =>
      Ok (records r ++ [fields (current r) ++ [field (current r)]])%list
  | _ => Ok (records r)
  end.

(** [list(csv.reader(f))] for a file [f] that holds [text]. *)
Definition read (text : string) : result (list (list string)) :=
  let* r := feed start text in finish r.

End Csv.

(** ** The export *)

Section CsvExport.

(** The text [str] gives for a floating-point number. *)
Variable float_repr : SpecFloat.spec_float -> string.

(** The field the writer makes of a scalar: [None] is an empty field, a
    string is taken as it is and anything else goes through [str], which
    raises on an integer of too many digits. *)
Definition cell_str (v : value) : result string :=
  match v with
  | VNone => Ok EmptyString
  | VInt z => py_str_int z
  | VFloat f => Ok (float_repr f)
  | VStr s => Ok s
  end.

(** [writer.writerow(row)] for a row of scalars: the fields are made
    first, so nothing is written of a row with a field that raises. *)
Definition row_record (row : list value) : result string :=
  let* fields := comprehension cell_str row in
  Ok (Csv.writerow fields).

(** [writer.writerows(rows)]: the records written, and the exception that
    stopped the writing, if any. *)
Fixpoint rows_records (rows : list (list value)) : string * option exn :=
  match rows with
  | [] => (EmptyString, None)
  | row :: rows' =>
      match row_record row with
      | Ok record =>
          let '(text, stopped) := rows_records rows' in (record ++ text, stopped)
      | Raise e => (EmptyString, Some e)
      end
  end.

(** The text of a scalar in decimal notation, whatever its size. *)
Definition cell_text (v : value) : string :=
  match v with
  | VNone => EmptyString
  | VInt z => PyStr.decimal z
  | VFloat f => float_repr f
  | VStr s => s
  end.

(** The file of a table: the header, then the rows. *)
Definition csv_text (columns : list string) (rows : list (list value)) : string :=
  Csv.writerow columns ++ Csv.writerows (List.map (List.map cell_text) rows).

End CsvExport.

(** ** Configuration from the environment *)

Record db_config : Type := mk_db_config {
  host : string;
  port : Z;
  user : string;
  password : string;
  database : string
}.

(** [os.environ.get(key, default)] *)
Definition environ_get (environ : gmap string string) (key default : string) : string :=
  match environ !! key with
  | Some v => v
  | None => default
  end.

(** [get_db_config()] *)
Definition get_db_config (environ : gmap string string) : result db_config :=
  match environ !! "MYSQL_USER" with
  | None => Raise (RuntimeError "Missing required environment variable: 'MYSQL_USER'")
  | Some user =>
  match environ !! "MYSQL_PASSWORD" with
  | None => Raise (RuntimeError "Missing required environment variable: 'MYSQL_PASSWORD'")
  | Some password =>
  match environ !! "MYSQL_DATABASE" with
  | None => Raise (RuntimeError "Missing required environment variable: 'MYSQL_DATABASE'")
  | Some database =>
      let host := environ_get environ "MYSQL_HOST" "localhost" in
      let* port := PyInt.of_string (environ_get environ "MYSQL_PORT" "3306") in
      Ok (mk_db_config host port user password database)
  end end end.

(** [get_table_name()]: an unset and an empty name are refused alike. *)
Definition get_table_name (environ : gmap string string) : result string :=
  match environ !! "MYSQL_TABLE" with
  | Some (String c name) => Ok (String c name)
  | _ =>
      Raise (RuntimeError
               "Environment variable MYSQL_TABLE must be set with the table to export")
  end.

(** [should_seed_mock_data()] *)
Definition should_seed_mock_data (environ : gmap string string) : bool :=
  let flag := PyStr.lower (environ_get environ "SEED_MOCK_DATA" "true") in
  String.eqb flag "1" || String.eqb flag "true" || String.eqb flag "yes".

(** [os.path.basename(path)]: what follows the last slash. *)
Fixpoint basename_from (acc path : string) : string :=
  match path with
  | EmptyString => acc
  | String c path' =>
      if Ascii.eqb c "/" then basename_from EmptyString path'
      else basename_from (acc ++ String c EmptyString) path'
  end.

Definition basename (path : string) : string := basename_from EmptyString path.

(** ** The run *)

(** What the run does to the outside, in order. *)
Inductive event : Type :=
| Connect (config : db_config)
| Called (c : call)
| WriteFile (file_path content : string)
| Upload (file_path bucket object_key : string).

(** The outside of a run: the environment variables, the database behind
    the server when it accepts the connection, and whether the output
    file can be written and the object store takes the upload. *)
Record world : Type := mk_world {
  environ : gmap string string;
  server : option (gmap string table);
  disk_ok : bool;
  s3_ok : bool
}.

Section Run.

Variable store : table -> list string -> list value -> result (list value).

Variable float_repr : SpecFloat.spec_float -> string.

(** [write_csv(file_path, columns, rows)]: the file is opened, the header
    and the rows are written, and the file is closed with what was
    written when a row stops the writing. *)
Definition write_csv (w : world) (file_path : string) (columns : list string)
    (rows : list (list value)) : result unit * list event :=
  if disk_ok w
  then
    let '(text, stopped) := rows_records float_repr rows in
    (match stopped with
     | None => Ok tt
     | Some e => Raise e
     end,
     [WriteFile file_path (Csv.writerow columns ++ text)])
  else (Raise (OSError "cannot open the output file"), []).

(** [upload_to_s3(file_path, bucket, object_key)] *)
Definition upload_to_s3 (w : world) (file_path bucket object_key : string)
  : result unit * list event :=
  (if s3_ok w then Ok tt else Raise (OSError "upload failed"),
   [Upload file_path bucket object_key]).

(** The body of the [try] block of [main], on an open connection. *)
Definition export (w : world) (output_file s3_bucket s3_key : string) (c : connection)
  : result value * connection * list event :=
  match get_table_name (environ w) with
  | Raise e => (Raise e, c, [])
  | Ok table_name =>
      let '(seeded, c) :=
        if should_seed_mock_data (environ w) then
          let rows_to_insert :=
            match PyInt.of_string (environ_get (environ w) "MOCK_ROWS" "3") with
            | Ok n => n
            | Raise _ => 3
            end in
          seed_mock_data store table_name rows_to_insert c
        else (Ok VNone, c) in
      match seeded with
      | Raise e => (Raise e, c, [])
      | Ok _ =>
          match fetch_table_data table_name c with
          | (Raise e, c) => (Raise e, c, [])
          | (Ok (columns, rows), c) =>
              match write_csv w output_file columns rows with
              | (Raise e, written) => (Raise e, c, written)
              | (Ok _, written) =>
                  match upload_to_s3 w output_file s3_bucket s3_key with
                  | (Raise e, uploaded) => (Raise e, c, written ++ uploaded)%list
                  | (Ok _, uploaded) => (Ok VNone, c, written ++ uploaded)%list
                  end
              end
          end
      end
  end.

(** [main()]: the outcome, what was done to the outside, and the
    database afterwards. *)
Definition main (w : world) : result value * list event * option (gmap string table) :=
  let output_file := environ_get (environ w) "OUTPUT_CSV" "ingesta_mysql.csv" in
  let s3_bucket := environ_get (environ w) "S3_BUCKET" "gcr-output-01" in
  let s3_key := environ_get (environ w) "S3_OBJECT_KEY" (basename output_file) in
  match get_db_config (environ w) with
  | Raise e => (Raise e, [], server w)
  | Ok config =>
      match server w with
      | None =>
          (Raise (RuntimeError "Could not connect to MySQL"), [Connect config], None)
      | Some db =>
          let '(outcome, c, outside) :=
            export w output_file s3_bucket s3_key (mk_connection db []) in
          (outcome,
           (Connect config :: List.map Called (conn_calls c) ++ outside
            ++ [Called Close])%list,
           Some (conn_db c))
      end
  end.

End Run.

(** * Part II: the vocabulary of the properties *)

(** ** Kinds of columns and the values of each kind *)

(** The semantic kinds of the type classifier. *)
Inductive SemanticKind : Type :=
| UnsignedInteger | SignedInteger | Decimal | Boolean
| Date | DateTime | Text | Json | Unknown.

(** [classify] names the branch of [generate_mock_value] that a raw type
    descriptor selects: the conditions are those of the generator, in the
    same order. *)
Definition classify (rawType : string) : SemanticKind :=
  let column_type := PyStr.lower rawType in
  if PyStr.contains "int" column_type && PyStr.contains "unsigned" column_type then
    UnsignedInteger
  else if PyStr.startswith column_type "int" || PyStr.contains "bigint" column_type
          || PyStr.contains "smallint" column_type then
    SignedInteger
  else if PyStr.contains "decimal" column_type || PyStr.contains "numeric" column_type
          || PyStr.contains "float" column_type || PyStr.contains "double" column_type then
    Decimal
  else if PyStr.contains "bool" column_type || String.eqb column_type "tinyint(1)" then
    Boolean
  else if PyStr.contains "date" column_type && negb (PyStr.contains "time" column_type) then
    Date
  else if PyStr.contains "datetime" column_type || PyStr.contains "timestamp" column_type
          || PyStr.contains "time" column_type then
    DateTime
  else if PyStr.contains "char" column_type || PyStr.contains "text" column_type then
    Text
  else if PyStr.contains "json" column_type then
    Json
  else
    Unknown.

(** The string the text and fallback branches build. *)
Definition mock_text (column_name : string) (row_index : Z) : string :=
  "mock_" ++ column_name ++ "_" ++ PyStr.decimal (row_index + 1).

(** The object literal the json branch builds. *)
Definition mock_json (column_name : string) (row_index : Z) : string :=
  "{" ++ dquote ++ "mock" ++ dquote ++ ": " ++ dquote ++ column_name ++ "_"
  ++ PyStr.decimal (row_index + 1) ++ dquote ++ "}".

(** The value of the date branch at a row, as the generator computes it. *)
Definition mock_date (row_index : Z) : result value :=
  let* delta := PyDatetime.new_timedelta row_index 0 0 in
  let* base_date :=
    PyDatetime.datetime_add (PyDatetime.mk_datetime 2024 1 1 0 0 0) delta in
  Ok (VStr (PyDatetime.date_isoformat (PyDatetime.dt_year base_date)
              (PyDatetime.dt_month base_date) (PyDatetime.dt_day base_date))).

(** The value of the date-time branch at a row. *)
Definition mock_datetime (row_index : Z) : result value :=
  let* delta := PyDatetime.new_timedelta 0 row_index 0 in
  let* base_datetime :=
    PyDatetime.datetime_add (PyDatetime.mk_datetime 2024 1 1 12 0 0) delta in
  Ok (VStr (PyDatetime.strftime_ymd_hms base_datetime)).

(** A string occurs in another one in some letter case. *)
Definition occurs_any_case (word s : string) : Prop :=
  exists pre mid post, s = pre ++ mid ++ post /\ PyStr.lower mid = word.

(** [inner] occurs inside [outer] as it is. *)
Definition wraps (inner outer : string) : Prop :=
  exists pre post, outer = pre ++ inner ++ post.

(** A display width: decimal digits only. *)
Fixpoint all_digits (w : string) : bool :=
  match w with
  | EmptyString => true
  | String a w' => is_digit a && all_digits w'
  end.

(** [tinyint] without a display width or with one other than 1, and
    [mediumint] with or without a display width. *)
Inductive narrow_int_type : string -> Prop :=
| tinyint_plain : narrow_int_type "tinyint"
| tinyint_width (w : string) :
    all_digits w = true -> w <> "1" -> narrow_int_type ("tinyint(" ++ w ++ ")")
| mediumint_plain : narrow_int_type "mediumint"
| mediumint_width (w : string) :
    all_digits w = true -> narrow_int_type ("mediumint(" ++ w ++ ")").

(** The characters of a display width and its closing parenthesis. *)
Fixpoint width_tail (s : string) : bool :=
  match s with
  | EmptyString => true
  | String a s' => (is_digit a || Ascii.eqb a ")") && width_tail s'
  end.

(** Last rows the date and date-time branches can reach: 9999-12-31 and
    9999-12-31 23:00:00. *)
Definition DATE_LAST_ROW : Z := 2913173.

Definition DATETIME_LAST_ROW : Z := 69916163.

(** The first integer of more than [MAX_STR_DIGITS] digits, and the last
    row whose ordinal is below it. *)
Definition INT_STR_LIMIT : Z := 10 ^ 4300.

Definition TEXT_LAST_ROW : Z := INT_STR_LIMIT - 2.

(** The last row at which a kind still has a value. *)
Definition last_row (kind : SemanticKind) : option Z :=
  match kind with
  | Date => Some DATE_LAST_ROW
  | DateTime => Some DATETIME_LAST_ROW
  | Decimal => Some (FLOAT_OVERFLOW - 2)
  | Text | Json | Unknown => Some TEXT_LAST_ROW
  | _ => None
  end.

(** The exception a kind raises past its last row. *)
Definition raised_by (kind : SemanticKind) : exn :=
  match kind with
  | Text | Json | Unknown => ValueError
  | _ => OverflowError
  end.

(** The first digit of a number in decimal notation is not zero. *)
Definition leading (u : Decimal.uint) : bool :=
  match u with
  | Decimal.Nil | Decimal.D0 _ => false
  | _ => true
  end.

(** A text without white space. *)
Fixpoint no_space (s : string) : bool :=
  match s with
  | EmptyString => true
  | String c s' => negb (PyInt.is_space c) && no_space s'
  end.

(** A batch of [rows_to_insert] rows stays within reach of every column. *)
Definition within_reach (columns : list column) (rows_to_insert : Z) : Prop :=
  forall col last,
    In col columns -> last_row (classify (Type_ col)) = Some last ->
    rows_to_insert <= last + 1.

(** A property checked on every number below a bound. *)
Fixpoint all_below (k : nat) (f : Z -> bool) : bool :=
  match k with
  | O => true
  | S k' => f (Z.of_nat k') && all_below k' f
  end.

(** ** Statements *)

(** What follows an identifier in a statement must not start with a
    backtick, or the closing backtick would read as a doubled one. *)
Definition starts_with_backtick (s : string) : bool :=
  match s with
  | String a _ => Ascii.eqb a "`"
  | EmptyString => false
  end.

(** The statements of the program, written with [quote_identifier]. *)
Definition count_query (table_name : string) : string :=
  "SELECT COUNT(*) AS count FROM " ++ quote_identifier table_name.

Definition describe_query (table_name : string) : string :=
  "DESCRIBE " ++ quote_identifier table_name.

Definition select_query (table_name : string) : string :=
  "SELECT * FROM " ++ quote_identifier table_name.

Definition insert_query (table_name : string) (column_names : list string) : string :=
  "INSERT INTO " ++ quote_identifier table_name ++ " ("
  ++ PyStr.join ", " (List.map quote_identifier column_names) ++ ") VALUES ("
  ++ PyStr.join ", " (List.repeat "%s" (length column_names)) ++ ")".

(** The table a statement names, as the server reads it. *)
Definition statement_table (st : MySQL.statement) : string :=
  match st with
  | MySQL.SelectCount name | MySQL.Describe name | MySQL.SelectAll name
  | MySQL.InsertInto name _ _ => name
  end.

(** The columns a statement names, as the server reads them. *)
Definition statement_columns (st : MySQL.statement) : list string :=
  match st with
  | MySQL.InsertInto _ columns _ => columns
  | _ => []
  end.

(** The statement text of a call, for the calls that carry one. *)
Definition operation_of (x : call) : option string :=
  match x with
  | Execute operation | ExecuteMany operation _ => Some operation
  | Commit | Close => None
  end.

(** The four statement texts, with every identifier put in through
    [quote_identifier]. *)
Inductive quoted_statement (table_name : string) (fields : list string) : string -> Prop :=
| quoted_count : quoted_statement table_name fields (count_query table_name)
| quoted_describe : quoted_statement table_name fields (describe_query table_name)
| quoted_select : quoted_statement table_name fields (select_query table_name)
| quoted_insert (names : list string) :
    names <> [] -> incl names fields ->
    quoted_statement table_name fields (insert_query table_name names).

(** A call that carries a statement carries one of those four. *)
Definition call_quoted (table_name : string) (fields : list string) (x : call) : Prop :=
  forall operation, operation_of x = Some operation ->
    quoted_statement table_name fields operation.

(** The batch, once the rows are built. *)
Definition insert_batch
    (store : table -> list string -> list value -> result (list value))
    (name : string) (t : table) (mock_rows : list (list value)) (c : connection)
  : result value * connection :=
  match executemany store (insert_query name (List.map Field (insertable (tbl_columns t))))
          mock_rows c with
  | (Ok _, c') => (Ok VNone, record_call Commit c')
  | (Raise e, c') => (Raise e, c')
  end.

(** ** Records of the delimited text *)

(** The end of a record. *)
Definition CRLF : string := String Csv.CR (String Csv.LF EmptyString).

(** The state after a field: a comma starts the next field, a CR ends
    the record. *)
Definition after_field (d : ascii) : Csv.state :=
  if Ascii.eqb d Csv.comma then Csv.START_FIELD else Csv.EAT_CRNL.

(** ** Scalars and their text *)

(** A scalar the writer has a field for: every scalar but an integer of
    more than [MAX_STR_DIGITS] digits. *)
Definition printable_value (v : value) : Prop :=
  match v with
  | VInt z => Z.abs z < INT_STR_LIMIT
  | _ => True
  end.

(** The text [s] is what the export writes for the scalar [v]: nothing
    for [None], the string itself, the decimal notation of an integer,
    which [int] reads back as the integer, and [str] of a float. *)
Definition exported_as (float_repr : SpecFloat.spec_float -> string) (v : value)
    (s : string) : Prop :=
  match v with
  | VNone => s = EmptyString
  | VInt z => s = PyStr.decimal z /\ PyInt.of_string s = Ok z
  | VFloat f => s = float_repr f
  | VStr x => s = x
  end.

(** ** Settings *)

(** A connection setting is missing, or the port is not a number. *)
Definition connection_settings_invalid (environ : gmap string string) : Prop :=
  environ !! "MYSQL_USER" = None \/ environ !! "MYSQL_PASSWORD" = None
  \/ environ !! "MYSQL_DATABASE" = None
  \/ is_ok (PyInt.of_string (environ_get environ "MYSQL_PORT" "3306")) = false.

(** The table name is not set, or set to the empty string. *)
Definition table_name_missing (environ : gmap string string) : Prop :=
  environ !! "MYSQL_TABLE" = None \/ environ !! "MYSQL_TABLE" = Some EmptyString.

(** ** Servers, tables and runs used as examples *)

(** A server that stores, for every column of the table, the value given
    for it in the statement and [NULL] for a column the statement does not
    name. *)
Fixpoint value_for (name : string) (columns : list string) (values : list value) : value :=
  match columns, values with
  | c :: columns', v :: values' =>
      if String.eqb c name then v else value_for name columns' values'
  | _, _ => VNone
  end.

Definition store_named (t : table) (columns : list string) (values : list value)
  : result (list value) :=
  Ok (List.map (fun c => value_for (Field c) columns values) (tbl_columns t)).

(** An empty table with a generated key and two plain columns. *)
Definition demo_table : table :=
  mk_table [mk_column "id" "int" (Some "auto_increment");
            mk_column "name" "varchar(40)" (Some "");
            mk_column "born" "date" (Some "")] [].

Definition demo_connection : connection :=
  mk_connection {[ "people" := demo_table ]} [].

(** A table of five rows. *)
Definition five_rows : table :=
  mk_table [mk_column "id" "int" (Some "auto_increment");
            mk_column "name" "varchar(40)" (Some "")]
    [[VInt 1; VStr "a"]; [VInt 2; VStr "b"]; [VInt 3; VStr "c"];
     [VInt 4; VStr "d"]; [VInt 5; VStr "e"]].

Definition five_rows_connection : connection :=
  mk_connection {[ "people" := five_rows ]} [].

(** A table with a single date column, empty. *)
Definition events_table : table := mk_table [mk_column "day" "date" (Some "")] [].

Definition events_connection : connection :=
  mk_connection {[ "events" := events_table ]} [].

(** A run without the database user. *)
Definition world_without_user : world :=
  mk_world {[ "MYSQL_PASSWORD" := "p"; "MYSQL_DATABASE" := "d"; "MYSQL_TABLE" := "people" ]}
    (Some {[ "people" := demo_table ]}) true true.

(** A run with every connection setting and no table name; the server
    accepts the connection. *)
Definition world_without_table : world :=
  mk_world {[ "MYSQL_USER" := "u"; "MYSQL_PASSWORD" := "p"; "MYSQL_DATABASE" := "d" ]}
    (Some {[ "people" := demo_table ]}) true true.

(** ** Events and steps of a run *)

(** The events that are neither the opening nor the closing of the
    connection. *)
Definition inner_event (x : event) : Prop :=
  match x with
  | Connect _ | Called Close => False
  | _ => True
  end.

(** The events that touch neither the output file nor the object store. *)
Definition database_event (x : event) : Prop :=
  match x with
  | WriteFile _ _ | Upload _ _ _ => False
  | _ => True
  end.

(** The events on the output file and the object store. *)
Definition sink_event (x : event) : Prop :=
  match x with
  | WriteFile _ _ | Upload _ _ _ => True
  | _ => False
  end.

(** The environment with one more setting. *)
Definition with_setting (key text : string) (w : world) : world :=
  mk_world (<[ key := text ]> (environ w)) (server w) (disk_ok w) (s3_ok w).

(** The seeding step of the run, by itself. *)
Definition seeding_step
    (store : table -> list string -> list value -> result (list value))
    (w : world) (table_name : string) (c : connection)
  : result value * connection :=
  if should_seed_mock_data (environ w) then
    seed_mock_data store table_name
      match PyInt.of_string (environ_get (environ w) "MOCK_ROWS" "3") with
      | Ok n => n
      | Raise _ => 3
      end c
  else (Ok VNone, c).

(** ** More tables and runs used as examples *)

(** A table whose only column is generated by the server. *)
Definition counter_table : table :=
  mk_table [mk_column "id" "bigint unsigned" (Some "auto_increment")] [].

Definition counter_connection : connection :=
  mk_connection {[ "counter" := counter_table ]} [].

(** A run with every setting, on the example table. *)
Definition demo_world : world :=
  mk_world {[ "MYSQL_USER" := "u"; "MYSQL_PASSWORD" := "p"; "MYSQL_DATABASE" := "d";
              "MYSQL_TABLE" := "people" ]}
    (Some {[ "people" := demo_table ]}) true true.

(** The example run on a disk that refuses the output file. *)
Definition demo_world_full_disk : world :=
  mk_world (environ demo_world) (server demo_world) false true.

(** The example run with seeding switched off. *)
Definition demo_world_no_seeding : world := with_setting "SEED_MOCK_DATA" "No" demo_world.

(** The example run asked for a number of rows that is no number. *)
Definition demo_world_many : world := with_setting "MOCK_ROWS" "many" demo_world.

(** * Part III: the properties *)

(** ** The conversion to floating point *)

(** [FLOAT_OVERFLOW] is the first integer that rounds to an infinite
    number. *)
Example float_below_overflow :
  SpecFloat.binary_normalize 53 1024 (FLOAT_OVERFLOW - 1) 0 false =
    SpecFloat.S754_finite false (2 ^ 53 - 1) 971.
Proof. vm_compute. reflexivity. Qed.

Example float_at_overflow :
  SpecFloat.binary_normalize 53 1024 FLOAT_OVERFLOW 0 false =
    SpecFloat.S754_infinity false.
Proof. vm_compute. reflexivity. Qed.

(** [float(3)] is [3 * 2^51 * 2^-51]. *)
Example float_of_three :
  py_float 3 = Ok (SpecFloat.S754_finite false (3 * 2 ^ 51) (-51)).
Proof. vm_compute. reflexivity. Qed.

(** ** Facts about the string operations *)

Section StringFacts.

Lemma append_assoc (a b c : string) : (a ++ b) ++ c = a ++ (b ++ c).
Proof. induction a as [|x a IH]; simpl; [reflexivity | now rewrite IH]. Qed.

Lemma append_nil_r (a : string) : a ++ "" = a.
Proof. induction a as [|x a IH]; simpl; [reflexivity | now rewrite IH]. Qed.

Lemma lower_app (a b : string) :
  PyStr.lower (a ++ b) = PyStr.lower a ++ PyStr.lower b.
Proof. induction a as [|x a IH]; simpl; [reflexivity | now rewrite IH]. Qed.

Lemma startswith_app (p s : string) : PyStr.startswith (p ++ s) p = true.
Proof.
  induction p as [|x p IH]; simpl; [reflexivity |].
  now rewrite Ascii.eqb_refl.
Qed.

Lemma contains_here (p s : string) :
  PyStr.startswith s p = true -> PyStr.contains p s = true.
Proof. intros H. destruct s; simpl in *; rewrite H; reflexivity. Qed.

Lemma contains_skip (p pre s : string) :
  PyStr.contains p s = true -> PyStr.contains p (pre ++ s) = true.
Proof.
  intros H. induction pre as [|x pre IH]; simpl; [exact H |].
  rewrite IH. apply orb_true_r.
Qed.

Lemma contains_app (p pre post : string) :
  PyStr.contains p (pre ++ p ++ post) = true.
Proof. apply contains_skip, contains_here, startswith_app. Qed.

(** The converse: a successful test exhibits the occurrence. *)
Lemma startswith_split (p s : string) :
  PyStr.startswith s p = true -> exists post, s = p ++ post.
Proof.
  revert s. induction p as [|x p IH]; intros s H.
  - exists s. reflexivity.
  - destruct s as [|y s]; simpl in H; [discriminate |].
    destruct (Ascii.eqb x y) eqn:E; [| discriminate].
    apply Ascii.eqb_eq in E. subst y.
    destruct (IH _ H) as [post ->]. exists post. reflexivity.
Qed.

Lemma contains_split (p s : string) :
  PyStr.contains p s = true -> exists pre post, s = pre ++ p ++ post.
Proof.
  induction s as [|y s IH]; simpl; intros H.
  - rewrite orb_false_r in H. destruct (startswith_split _ _ H) as [post E].
    exists "", post. exact E.
  - apply orb_true_iff in H. destruct H as [H | H].
    + destruct (startswith_split _ _ H) as [post E]. exists "", post. exact E.
    + destruct (IH H) as (pre & post & ->). exists (String y pre), post. reflexivity.
Qed.

End StringFacts.

Lemma occurs_any_case_contains (word s : string) :
  occurs_any_case word s -> PyStr.contains word (PyStr.lower s) = true.
Proof.
  intros (pre & mid & post & -> & <-).
  rewrite !lower_app. apply contains_app.
Qed.

(** ** Integers and their decimal notation *)

Module DigitFacts.

Import Decimal.

Lemma length_nilempty (u : uint) :
  N.of_nat (String.length (NilEmpty.string_of_uint u)) = DecimalPos.Unsigned.usize u.
Proof.
  induction u; cbn [NilEmpty.string_of_uint String.length DecimalPos.Unsigned.usize];
    [reflexivity | ..]; rewrite Nat2N.inj_succ, IHu; reflexivity.
Qed.

Lemma of_lu_rev_lt (u : uint) :
  (DecimalPos.Unsigned.of_lu (rev u) < 10 ^ DecimalPos.Unsigned.usize u)%N.
Proof.
  induction u; cbn [DecimalPos.Unsigned.usize];
    [reflexivity | ..];
    unfold rev; cbn [revapp]; rewrite DecimalPos.Unsigned.of_lu_revapp;
    cbn [DecimalPos.Unsigned.of_lu]; rewrite N.pow_succ_r'; lia.
Qed.

Lemma of_lu_rev_ge (u : uint) :
  leading u = true ->
  (10 ^ N.pred (DecimalPos.Unsigned.usize u) <= DecimalPos.Unsigned.of_lu (rev u))%N.
Proof.
  destruct u; cbn [leading]; try discriminate; intros _;
    cbn [DecimalPos.Unsigned.usize]; rewrite N.pred_succ;
    unfold rev; cbn [revapp]; rewrite DecimalPos.Unsigned.of_lu_revapp;
    cbn [DecimalPos.Unsigned.of_lu]; lia.
Qed.

Lemma to_uint_leading (p : positive) : leading (Pos.to_uint p) = true.
Proof.
  pose proof (DecimalPos.Unsigned.to_of (Pos.to_uint p)) as H.
  rewrite DecimalPos.Unsigned.of_to in H. cbn [N.to_uint] in H.
  pose proof (DecimalPos.Unsigned.to_uint_nonzero p) as Hz.
  destruct (Pos.to_uint p) as [|u| | | | | | | | |] eqn:E; try reflexivity.
  - exfalso. exact (DecimalPos.Unsigned.to_uint_nonnil p E).
  - exfalso. rewrite DecimalFacts.unorm_D0 in H.
    assert (u = Nil \/ u <> Nil) as [-> | Hn]
      by (destruct u; [left; reflexivity | right; discriminate ..]).
    + apply Hz. reflexivity.
    + pose proof (DecimalFacts.nb_digits_unorm _ Hn) as Hle.
      rewrite <- H in Hle. cbn [nb_digits] in Hle. lia.
Qed.

Lemma value_to_uint (p : positive) :
  DecimalPos.Unsigned.of_lu (rev (Pos.to_uint p)) = N.pos p.
Proof.
  rewrite <- DecimalPos.Unsigned.of_uint_alt. apply DecimalPos.Unsigned.of_to.
Qed.

Lemma usize_bound (p : positive) (k : N) :
  (N.pos p < 10 ^ k)%N <-> (DecimalPos.Unsigned.usize (Pos.to_uint p) <= k)%N.
Proof.
  pose proof (of_lu_rev_ge _ (to_uint_leading p)) as Lo.
  pose proof (of_lu_rev_lt (Pos.to_uint p)) as Hi.
  rewrite value_to_uint in Lo, Hi.
  set (L := DecimalPos.Unsigned.usize (Pos.to_uint p)) in *.
  split; intros H.
  - assert (10 ^ N.pred L < 10 ^ k)%N as Hlt by lia.
    apply N.pow_lt_mono_r_iff in Hlt; lia.
  - apply (N.lt_le_trans _ _ _ Hi). apply N.pow_le_mono_r; lia.
Qed.

Lemma decimal_pos (p : positive) :
  PyStr.decimal (Z.pos p) = NilEmpty.string_of_uint (Pos.to_uint p).
Proof.
  unfold PyStr.decimal. cbn [Z.to_int NilZero.string_of_int].
  pose proof (DecimalPos.Unsigned.to_uint_nonnil p) as Hn.
  destruct (Pos.to_uint p); [congruence | reflexivity ..].
Qed.

Lemma decimal_neg (p : positive) :
  PyStr.decimal (Z.neg p) = String "-" (PyStr.decimal (Z.pos p)).
Proof. reflexivity. Qed.

Lemma limit_of_N : INT_STR_LIMIT = Z.of_N (10 ^ 4300)%N.
Proof. unfold INT_STR_LIMIT. rewrite N2Z.inj_pow. reflexivity. Qed.

Lemma limit_pos : 0 < INT_STR_LIMIT.
Proof. unfold INT_STR_LIMIT. apply Z.pow_pos_nonneg; lia. Qed.

Lemma limit_large : 2 ^ 64 <= INT_STR_LIMIT.
Proof.
  unfold INT_STR_LIMIT.
  apply (Z.le_trans _ (10 ^ 64)); [vm_compute; discriminate |].
  apply Z.pow_le_mono_r; lia.
Qed.

(** A number has at most [MAX_STR_DIGITS] digits exactly when it is below
    [INT_STR_LIMIT]. *)
Lemma decimal_length (n : Z) :
  Nat.leb (String.length (PyStr.decimal (Z.abs n))) PyStr.MAX_STR_DIGITS = true
  <-> Z.abs n < INT_STR_LIMIT.
Proof.
  assert (forall p,
            Nat.leb (String.length (PyStr.decimal (Z.pos p))) PyStr.MAX_STR_DIGITS = true
            <-> Z.pos p < INT_STR_LIMIT) as Hpos.
  { intros p. rewrite decimal_pos, limit_of_N, Nat.leb_le.
    change (Z.pos p) with (Z.of_N (N.pos p)). rewrite <- N2Z.inj_lt.
    rewrite (usize_bound p 4300), <- length_nilempty.
    change 4300%N with (N.of_nat PyStr.MAX_STR_DIGITS).
    lia. }
  destruct n as [|p|p]; cbn [Z.abs]; [| apply Hpos | apply Hpos].
  split; intros _; [apply limit_pos | reflexivity].
Qed.

End DigitFacts.

Lemma py_str_int_ok (n : Z) :
  Z.abs n < INT_STR_LIMIT -> py_str_int n = Ok (PyStr.decimal n).
Proof.
  intros H. apply DigitFacts.decimal_length in H. unfold py_str_int. rewrite H. reflexivity.
Qed.

Lemma py_str_int_raises (n : Z) :
  INT_STR_LIMIT <= Z.abs n -> py_str_int n = Raise ValueError.
Proof.
  intros H. unfold py_str_int.
  destruct (Nat.leb _ _) eqn:E; [| reflexivity].
  apply DigitFacts.decimal_length in E. lia.
Qed.

Module ParseFacts.

Import Decimal.

Lemma rev_onto_twice (s acc acc' : string) :
  PyInt.rev_onto (PyInt.rev_onto s acc) acc' = PyInt.rev_onto acc (s ++ acc').
Proof.
  revert acc acc'. induction s as [|c s IH]; intros acc acc'; simpl; [reflexivity |].
  rewrite IH. reflexivity.
Qed.

Lemma lstrip_no_space (s : string) : no_space s = true -> PyInt.lstrip s = s.
Proof.
  destruct s as [|c s]; simpl; [reflexivity |].
  destruct (PyInt.is_space c); [discriminate | reflexivity].
Qed.

Lemma no_space_rev_onto (s acc : string) :
  no_space s = true -> no_space acc = true -> no_space (PyInt.rev_onto s acc) = true.
Proof.
  revert acc. induction s as [|c s IH]; intros acc Hs Hacc; simpl in *; [exact Hacc |].
  apply andb_true_iff in Hs as [Hc Hs]. apply IH; [exact Hs |].
  simpl. rewrite Hc, Hacc. reflexivity.
Qed.

Lemma strip_no_space (s : string) : no_space s = true -> PyInt.strip s = s.
Proof.
  intros H. unfold PyInt.strip.
  rewrite (lstrip_no_space s H).
  rewrite (lstrip_no_space _ (no_space_rev_onto s "" H eq_refl)).
  rewrite rev_onto_twice. simpl. apply append_nil_r.
Qed.

(** The digits of a number: no white space, each a digit, and their value
    read from the left. *)
Lemma nilempty_digits (u : uint) :
  no_space (NilEmpty.string_of_uint u) = true
  /\ PyInt.count_digits (NilEmpty.string_of_uint u)
     = String.length (NilEmpty.string_of_uint u)
  /\ forall acc,
       PyInt.digits acc false (NilEmpty.string_of_uint u) =
         Some (acc * Z.of_N (10 ^ DecimalPos.Unsigned.usize u)
               + Z.of_N (DecimalPos.Unsigned.of_lu (rev u))).
Proof.
  induction u as [|u [IH1 [IH2 IH3]]|u [IH1 [IH2 IH3]]|u [IH1 [IH2 IH3]]
                   |u [IH1 [IH2 IH3]]|u [IH1 [IH2 IH3]]|u [IH1 [IH2 IH3]]
                   |u [IH1 [IH2 IH3]]|u [IH1 [IH2 IH3]]|u [IH1 [IH2 IH3]]
                   |u [IH1 [IH2 IH3]]];
    [split; [reflexivity | split; [reflexivity | intros acc; simpl; f_equal; lia]] | ..];
    (split; [exact IH1 | split; [cbn [NilEmpty.string_of_uint PyInt.count_digits
                                       String.length]; rewrite IH2; reflexivity |]];
     intros acc;
     cbn [NilEmpty.string_of_uint PyInt.digits DecimalPos.Unsigned.usize];
     change (is_digit _) with true; cbv iota;
     rewrite IH3; f_equal;
     match goal with
     | |- context [PyInt.digit_value ?c] =>
         let v := eval vm_compute in (PyInt.digit_value c) in
         change (PyInt.digit_value c) with v
     end;
     set (V := DecimalPos.Unsigned.of_lu (rev u));
     unfold rev; cbn [revapp]; rewrite (DecimalPos.Unsigned.of_lu_revapp u);
     fold V;
     cbn [DecimalPos.Unsigned.of_lu]; rewrite N.pow_succ_r';
     rewrite ?N2Z.inj_add, ?N2Z.inj_mul;
     change (Z.of_N (_ + 10 * 0)) with (Z.of_N 0 + 0) || idtac;
     lia).
Qed.

Lemma of_string_pos (p : positive) :
  Z.pos p < INT_STR_LIMIT -> PyInt.of_string (PyStr.decimal (Z.pos p)) = Ok (Z.pos p)
  /\ PyInt.of_string (PyStr.decimal (Z.neg p)) = Ok (Z.neg p).
Proof.
  intros Hlt.
  pose proof (proj2 (DigitFacts.decimal_length (Z.pos p)) Hlt) as Hlen.
  change (Z.abs (Z.pos p)) with (Z.pos p) in Hlen.
  rewrite DigitFacts.decimal_neg, DigitFacts.decimal_pos in *.
  destruct (nilempty_digits (Pos.to_uint p)) as (Hns & Hcount & Hdigits).
  pose proof (DigitFacts.to_uint_leading p) as Hlead.
  pose proof (DigitFacts.value_to_uint p) as Hvalue.
  assert (PyInt.unsigned (NilEmpty.string_of_uint (Pos.to_uint p)) = Some (Z.pos p)) as Hu.
  { unfold PyInt.unsigned.
    assert (forall s, PyInt.digits 0 false s = Some (Z.pos p) ->
              match s with
              | String c _ => is_digit c = true
              | EmptyString => False
              end ->
              match s with
              | String c _ => if is_digit c then PyInt.digits 0 false s else None
              | EmptyString => None
              end = Some (Z.pos p)) as Hcase.
    { intros [|c s] Hd Hc; [destruct Hc | rewrite Hc; exact Hd]. }
    apply Hcase.
    - rewrite Hdigits, Hvalue. reflexivity.
    - destruct (Pos.to_uint p); try discriminate Hlead; reflexivity. }
  split.
  - unfold PyInt.of_string. cbv zeta. rewrite (strip_no_space _ Hns).
    destruct (NilEmpty.string_of_uint (Pos.to_uint p)) as [|c s] eqn:Es;
      [discriminate Hu |].
    assert (is_digit c = true) as Hc.
    { destruct (Pos.to_uint p); try discriminate Hlead; injection Es as <- _;
        reflexivity. }
    assert (Ascii.eqb c "-" = false /\ Ascii.eqb c "+" = false) as [-> ->].
    { destruct c as [[] [] [] [] [] [] [] []]; try discriminate Hc; split; reflexivity. }
    rewrite Hu, Hcount, Hlen. reflexivity.
  - unfold PyInt.of_string. cbv zeta.
    rewrite strip_no_space by (cbn [no_space]; rewrite Hns; reflexivity).
    cbn [Ascii.eqb Bool.eqb]. cbv iota.
    rewrite Hu. cbn [option_map PyInt.count_digits].
    change (is_digit "-") with false. cbv iota. cbn [Nat.add].
    rewrite Hcount, Hlen. reflexivity.
Qed.

(** [int(str(n))] is [n] for a number [str] returns on. *)
Lemma of_string_decimal (n : Z) :
  Z.abs n < INT_STR_LIMIT -> PyInt.of_string (PyStr.decimal n) = Ok n.
Proof.
  destruct n as [|p|p]; cbn [Z.abs]; intros H.
  - reflexivity.
  - apply (of_string_pos p H).
  - apply (of_string_pos p H).
Qed.

End ParseFacts.

(** ** The generator, kind by kind *)

(** The generator is the classifier followed by a value per kind. *)
Lemma generate_by_kind (rawType column_name : string) (row_index : Z) :
  generate_mock_value rawType column_name row_index =
    match classify rawType with
    | UnsignedInteger | SignedInteger => Ok (VInt (row_index + 1))
    | Decimal => let* f := py_float (row_index + 1) in Ok (VFloat f)
    | Boolean => Ok (VInt (row_index mod 2))
    | Date => mock_date row_index
    | DateTime => mock_datetime row_index
    | Text | Unknown =>
        let* digits := py_str_int (row_index + 1) in
        Ok (VStr (mock_text column_name row_index))
    | Json =>
        let* digits := py_str_int (row_index + 1) in
        Ok (VStr (mock_json column_name row_index))
    end.
Proof.
  unfold classify, generate_mock_value, mock_text, mock_json, py_str_int; cbv zeta.
  repeat match goal with
    | |- context [if ?b then _ else _] => destruct b
    end; reflexivity.
Qed.

(** The text kinds: the value while the ordinal has at most
    [MAX_STR_DIGITS] digits, and [ValueError] from then on. *)
Lemma generate_text_value (rawType column_name : string) (row_index : Z) :
  0 <= row_index ->
  classify rawType = Text \/ classify rawType = Json \/ classify rawType = Unknown ->
  (row_index + 1 < INT_STR_LIMIT ->
   generate_mock_value rawType column_name row_index =
     Ok (VStr match classify rawType with
              | Json => mock_json column_name row_index
              | _ => mock_text column_name row_index
              end))
  /\ (INT_STR_LIMIT <= row_index + 1 ->
      generate_mock_value rawType column_name row_index = Raise ValueError).
Proof.
  intros Hrow Hkind. rewrite generate_by_kind. split; intros H.
  - rewrite (py_str_int_ok (row_index + 1)) by lia.
    destruct Hkind as [K | [K | K]]; rewrite K; reflexivity.
  - rewrite (py_str_int_raises (row_index + 1)) by lia.
    destruct Hkind as [K | [K | K]]; rewrite K; reflexivity.
Qed.

(** C3, as amended: the integer kinds give the ordinal [row_index + 1];
    the decimal kind gives the binary64 number nearest to the ordinal
    while the ordinal is below [FLOAT_OVERFLOW], and raises
    [OverflowError] from there on; the boolean kind gives the row index
    modulo 2, which is 0 at row 0 and flips from each row to the next. *)
Theorem generate_numeric_kinds (rawType column_name : string) (row_index : Z)
    (nonneg : 0 <= row_index)
    (kind_is : classify rawType = UnsignedInteger \/ classify rawType = SignedInteger
               \/ classify rawType = Decimal \/ classify rawType = Boolean) :
  match classify rawType with
  | UnsignedInteger | SignedInteger =>
      generate_mock_value rawType column_name row_index = Ok (VInt (row_index + 1))
  | Decimal =>
      (row_index + 1 < FLOAT_OVERFLOW ->
       generate_mock_value rawType column_name row_index =
         Ok (VFloat (SpecFloat.binary_normalize 53 1024 (row_index + 1) 0 false)))
      /\ (FLOAT_OVERFLOW <= row_index + 1 ->
          generate_mock_value rawType column_name row_index = Raise OverflowError)
  | Boolean =>
      generate_mock_value rawType column_name row_index = Ok (VInt (row_index mod 2))
      /\ 0 mod 2 = 0
      /\ (row_index + 1) mod 2 = 1 - row_index mod 2
  | _ => False
  end.
Proof.
  rewrite generate_by_kind.
  destruct kind_is as [K | [K | [K | K]]]; rewrite K; try reflexivity.
  - unfold py_float. split; intros H.
    + destruct (Z.ltb_spec (Z.abs (row_index + 1)) FLOAT_OVERFLOW); [reflexivity | lia].
    + destruct (Z.ltb_spec (Z.abs (row_index + 1)) FLOAT_OVERFLOW); [lia | reflexivity].
  - split; [reflexivity | split; [reflexivity |]].
    rewrite Z.add_mod by lia.
    pose proof (Z.mod_pos_bound row_index 2 ltac:(lia)) as B.
    assert (row_index mod 2 = 0 \/ row_index mod 2 = 1) as [-> | ->] by lia; reflexivity.
Qed.

(** C5, as amended: while the ordinal has at most [MAX_STR_DIGITS]
    digits, the text and fallback kinds give [mock_<c>_<n+1>] and the json
    kind gives the text [mock_json], made of the key [mock] and of
    [<c>_<n+1>] between braces and quotes; in each case the result is a
    non-empty string.  From the first ordinal of more digits on,
    generation raises [ValueError]. *)
Theorem generate_text_kinds (rawType column_name : string) (row_index : Z)
    (nonneg : 0 <= row_index)
    (kind_is : classify rawType = Text \/ classify rawType = Json
               \/ classify rawType = Unknown) :
  (row_index + 1 < INT_STR_LIMIT ->
   exists s,
     generate_mock_value rawType column_name row_index = Ok (VStr s)
     /\ s <> ""
     /\ s = match classify rawType with
            | Json =>
                "{" ++ dquote ++ "mock" ++ dquote ++ ": " ++ dquote ++ column_name
                ++ "_" ++ PyStr.decimal (row_index + 1) ++ dquote ++ "}"
            | _ => "mock_" ++ column_name ++ "_" ++ PyStr.decimal (row_index + 1)
            end)
  /\ (INT_STR_LIMIT <= row_index + 1 ->
      generate_mock_value rawType column_name row_index = Raise ValueError).
Proof.
  destruct (generate_text_value rawType column_name row_index nonneg kind_is)
    as [Hvalue Hraise].
  split; [| exact Hraise].
  intros H. eexists. split; [exact (Hvalue H) |].
  destruct (classify rawType); split; solve [discriminate | reflexivity].
Qed.

Lemma generate_text_kinds_witness :
  exists s,
    generate_mock_value "varchar(255)" "name" 0 = Ok (VStr s)
    /\ s <> ""
    /\ s = "mock_name_1".
Proof.
  destruct (generate_text_kinds "varchar(255)" "name" 0) as [Hvalue _];
    [lia | left; reflexivity |].
  apply Hvalue. pose proof DigitFacts.limit_large. lia.
Defined.

(** C5, as stated, fails for the json kind: the literal for column [c] at
    row 0 does not contain the string [mock_c_1]; and it fails at the
    first ordinal of more than [MAX_STR_DIGITS] digits, where generation
    raises [ValueError]. *)
Lemma json_does_not_wrap_mock_text :
  classify "json" = Json
  /\ generate_mock_value "json" "c" 0 =
       Ok (VStr ("{" ++ dquote ++ "mock" ++ dquote ++ ": " ++ dquote ++ "c_1" ++ dquote ++ "}"))
  /\ mock_text "c" 0 = "mock_c_1"
  /\ ~ wraps "mock_c_1"
         ("{" ++ dquote ++ "mock" ++ dquote ++ ": " ++ dquote ++ "c_1" ++ dquote ++ "}")
  /\ classify "blob" = Unknown
  /\ generate_mock_value "blob" "c" (INT_STR_LIMIT - 1) = Raise ValueError.
Proof.
  split; [reflexivity | split; [reflexivity | split; [reflexivity | split]]].
  - intros (pre & post & E).
    pose proof (contains_app "mock_c_1" pre post) as C.
    rewrite <- E in C. vm_compute in C. discriminate C.
  - split; [reflexivity |].
    pose proof DigitFacts.limit_pos.
    apply (generate_text_value "blob" "c" (INT_STR_LIMIT - 1)); [lia | | lia].
    right. right. reflexivity.
Qed.

Lemma generate_numeric_kinds_witness :
  generate_mock_value "decimal(10,2)" "price" 2 =
    Ok (VFloat (SpecFloat.binary_normalize 53 1024 3 0 false))
  /\ generate_mock_value "tinyint(1)" "flag" 3 = Ok (VInt 1).
Proof.
  pose proof (generate_numeric_kinds "decimal(10,2)" "price" 2 ltac:(lia)
                (or_intror (or_intror (or_introl eq_refl)))) as Hdecimal.
  pose proof (generate_numeric_kinds "tinyint(1)" "flag" 3 ltac:(lia)
                (or_intror (or_intror (or_intror eq_refl)))) as Hboolean.
  change (classify "decimal(10,2)") with Decimal in Hdecimal.
  change (classify "tinyint(1)") with Boolean in Hboolean.
  cbv iota in Hdecimal, Hboolean.
  split; [apply (proj1 Hdecimal); vm_compute; reflexivity | exact (proj1 Hboolean)].
Defined.

(** C3, as stated, fails for the decimal kind: at the row whose ordinal is
    [FLOAT_OVERFLOW] no float is returned, [OverflowError] is raised. *)
Lemma decimal_past_float_range_raises :
  classify "decimal(10,2)" = Decimal
  /\ 0 <= FLOAT_OVERFLOW - 1
  /\ generate_mock_value "decimal(10,2)" "price" (FLOAT_OVERFLOW - 1) =
       Raise OverflowError.
Proof.
  split; [reflexivity |]. split; [vm_compute; discriminate |].
  vm_compute. reflexivity.
Qed.

(** C6: a raw type that contains [int] and [unsigned], in any letter case,
    is an unsigned integer, and its value at row [n] is [n + 1]. *)
Theorem unsigned_int_classification (rawType column_name : string) (row_index : Z)
    (has_int : occurs_any_case "int" rawType)
    (has_unsigned : occurs_any_case "unsigned" rawType) :
  classify rawType = UnsignedInteger
  /\ generate_mock_value rawType column_name row_index = Ok (VInt (row_index + 1)).
Proof.
  apply occurs_any_case_contains in has_int, has_unsigned.
  unfold classify, generate_mock_value; cbv zeta.
  rewrite has_int, has_unsigned. split; reflexivity.
Qed.

Lemma unsigned_int_classification_witness :
  classify "BigInt(20) Unsigned" = UnsignedInteger
  /\ generate_mock_value "BigInt(20) Unsigned" "id" 4 = Ok (VInt (4 + 1)).
Proof.
  apply unsigned_int_classification.
  - exists "Big", "Int", "(20) Unsigned". split; reflexivity.
  - exists "BigInt(20) ", "Unsigned", "". split; reflexivity.
Defined.

Lemma width_tail_digits (w : string) :
  all_digits w = true -> width_tail (w ++ ")") = true.
Proof.
  induction w as [|a w IH]; simpl; [reflexivity |].
  intros H. apply andb_true_iff in H as [Ha Hw].
  rewrite Ha, IH by assumption. reflexivity.
Qed.

Lemma contains_width_tail (a : ascii) (p s : string) :
  is_digit a = false -> Ascii.eqb a ")" = false ->
  width_tail s = true -> PyStr.contains (String a p) s = false.
Proof.
  intros Hd Hp. induction s as [|b s IH]; simpl; [reflexivity |].
  intros H. apply andb_true_iff in H as [Hb Hs].
  rewrite (IH Hs), orb_false_r.
  destruct (Ascii.eqb a b) eqn:E; [| reflexivity].
  apply Ascii.eqb_eq in E. subst b. rewrite Hd, Hp in Hb. discriminate Hb.
Qed.

Ltac tail_free :=
  repeat rewrite contains_width_tail
    by (first [reflexivity | apply width_tail_digits; assumption]).

Lemma narrow_int_unknown (rawType : string) :
  narrow_int_type (PyStr.lower rawType) -> classify rawType = Unknown.
Proof.
  intros narrow. unfold classify; cbv zeta.
  destruct narrow as [| w Hw Hne | | w Hw].
  - reflexivity.
  - assert (String.eqb ("tinyint(" ++ w ++ ")") "tinyint(1)" = false) as Eq.
    { apply String.eqb_neq. intros E. apply Hne.
      change "tinyint(1)" with ("tinyint(" ++ "1)") in E.
      apply String.app_inj in E.
      destruct w as [|a [|b w]]; simpl in E; try discriminate E.
      - injection E as ->. reflexivity.
      - injection E as _ _ E. destruct w; discriminate E. }
    rewrite Eq. simpl. tail_free. simpl. reflexivity.
  - reflexivity.
  - simpl. tail_free. simpl. reflexivity.
Qed.

(** C10, as amended: [tinyint] without a width or with a width other than
    1, and [mediumint], reach the fallback of the cascade: while the
    ordinal has at most [MAX_STR_DIGITS] digits the value is the string
    [mock_<c>_<n+1>], not a number, and from the first ordinal of more
    digits on generation raises [ValueError]. *)
Theorem narrow_int_falls_through (rawType column_name : string) (row_index : Z)
    (nonneg : 0 <= row_index)
    (narrow : narrow_int_type (PyStr.lower rawType)) :
  classify rawType = Unknown
  /\ (row_index + 1 < INT_STR_LIMIT ->
      generate_mock_value rawType column_name row_index =
        Ok (VStr ("mock_" ++ column_name ++ "_" ++ PyStr.decimal (row_index + 1))))
  /\ (INT_STR_LIMIT <= row_index + 1 ->
      generate_mock_value rawType column_name row_index = Raise ValueError).
Proof.
  pose proof (narrow_int_unknown rawType narrow) as K.
  split; [exact K |].
  destruct (generate_text_value rawType column_name row_index nonneg
              (or_intror (or_intror K))) as [Hvalue Hraise].
  rewrite K in Hvalue. split; [exact Hvalue | exact Hraise].
Qed.

Lemma narrow_int_falls_through_witness :
  classify "TINYINT" = Unknown
  /\ generate_mock_value "TINYINT" "flag" 0 = Ok (VStr "mock_flag_1")
  /\ classify "mediumint(8)" = Unknown
  /\ generate_mock_value "mediumint(8)" "size" 6 = Ok (VStr "mock_size_7").
Proof.
  pose proof DigitFacts.limit_large as Hlarge.
  destruct (narrow_int_falls_through "TINYINT" "flag" 0) as (K1 & V1 & _);
    [lia | apply tinyint_plain |].
  destruct (narrow_int_falls_through "mediumint(8)" "size" 6) as (K2 & V2 & _);
    [lia | apply (mediumint_width "8"); reflexivity |].
  split; [exact K1 |]. split; [apply V1; lia |].
  split; [exact K2 |]. apply V2; lia.
Defined.

(** C10, as stated, fails at the first ordinal of more than
    [MAX_STR_DIGITS] digits: no string is returned for a [tinyint(4)]
    column there, [ValueError] is raised. *)
Lemma narrow_int_past_digit_limit :
  narrow_int_type (PyStr.lower "tinyint(4)")
  /\ 0 <= INT_STR_LIMIT - 1
  /\ generate_mock_value "tinyint(4)" "flag" (INT_STR_LIMIT - 1) = Raise ValueError.
Proof.
  pose proof DigitFacts.limit_pos.
  split; [apply (tinyint_width "4"); [reflexivity | discriminate] |].
  split; [lia |].
  apply (generate_text_value "tinyint(4)" "flag" (INT_STR_LIMIT - 1)); [lia | | lia].
  right. right. reflexivity.
Qed.

(** ** The calendar arithmetic of [datetime]

    [ord2ymd] inverts the day count [ymd2ord] over the whole range of
    ordinals, and the day count is injective on existing dates, so the
    date a given number of days after another one is well defined. *)

Module DatetimeFacts.

Import PyDatetime.

Lemma is_leap_iff y : is_leap y = true <-> (y mod 4 = 0 /\ (y mod 100 <> 0 \/ y mod 400 = 0)).
Proof.
unfold is_leap. rewrite andb_true_iff, orb_true_iff, negb_true_iff, !Z.eqb_eq, Z.eqb_neq. tauto.
Qed.

Lemma is_leap_cycle (n400 n100 n4 n1 : Z) :
0 <= n400 -> 0 <= n100 < 4 -> 0 <= n4 < 25 -> 0 <= n1 < 4 ->
is_leap (n400 * 400 + 1 + n100 * 100 + n4 * 4 + n1) =
(n1 =? 3) && (negb (n4 =? 24) || (n100 =? 3)).
Proof.
intros H400 H100 H4 H1.
apply eq_true_iff_eq.
rewrite is_leap_iff, andb_true_iff, orb_true_iff, negb_true_iff, !Z.eqb_eq, Z.eqb_neq.
Z.to_euclidean_division_equations. lia.
Qed.

Ltac calendar_simpl :=
repeat match goal with
  | |- context [Z.pos ?p - 1] =>
      let v := eval vm_compute in (Z.pos p - 1) in change (Z.pos p - 1) with v
  end;
change (is_leap 1) with false;
cbn [DAYS_BEFORE_MONTH days_in_month Z.ltb Z.eqb Z.compare Pos.compare
     Pos.compare_cont Pos.eqb andb orb negb].

Ltac months m :=
let H := fresh in
assert (m = 1 \/ m = 2 \/ m = 3 \/ m = 4 \/ m = 5 \/ m = 6 \/ m = 7 \/ m = 8
        \/ m = 9 \/ m = 10 \/ m = 11 \/ m = 12) as H by lia;
repeat (destruct H as [H | H]); subst m.

Lemma ord2ymd_correct (n : Z) :
1 <= n <= MAXORDINAL ->
let '(y, m, d) := ord2ymd n in
valid_date y m d /\ ymd2ord y m d = n.
Proof.
intros Hn. unfold ord2ymd, MAXORDINAL, DI400Y, DI100Y, DI4Y in *. cbv zeta.
remember ((n - 1) / 146097) as n400 eqn:E400.
remember ((n - 1) mod 146097) as r1 eqn:Er1.
remember (r1 / 36524) as n100 eqn:E100.
remember (r1 mod 36524) as r2 eqn:Er2.
remember (r2 / 1461) as n4 eqn:E4.
remember (r2 mod 1461) as r3 eqn:Er3.
remember (r3 / 365) as n1 eqn:E1.
remember (r3 mod 365) as r eqn:Er.
assert (0 <= n400 < 25 /\ 0 <= r1 < 146097 /\ n - 1 = 146097 * n400 + r1) as (B400 & Br1 & D1)
  by (subst n400 r1; Z.to_euclidean_division_equations; lia).
assert (0 <= n100 <= 4 /\ 0 <= r2 < 36524 /\ r1 = 36524 * n100 + r2) as (B100 & Br2 & D2)
  by (subst n100 r2; Z.to_euclidean_division_equations; lia).
assert (0 <= n4 <= 24 /\ 0 <= r3 < 1461 /\ r2 = 1461 * n4 + r3) as (B4 & Br3 & D3)
  by (subst n4 r3; Z.to_euclidean_division_equations; lia).
assert (0 <= n1 <= 4 /\ 0 <= r < 365 /\ r3 = 365 * n1 + r) as (B1 & Br & D4)
  by (subst n1 r; Z.to_euclidean_division_equations; lia).
clear E400 Er1 E100 Er2 E4 Er3 E1 Er.
destruct ((n1 =? 4) || (n100 =? 4)) eqn:Elast.
- apply orb_true_iff in Elast. rewrite !Z.eqb_eq in Elast.
  assert (r = 0) by lia.
  unfold valid_date, ymd2ord, days_before_year, days_before_month, days_in_month.
  change (2 <? 12) with true. change (DAYS_BEFORE_MONTH 12) with 334.
  destruct (is_leap _) eqn:L.
  + apply is_leap_iff in L. cbn [andb]. Z.to_euclidean_division_equations. lia.
  + assert (~ (_ /\ _)) as L' by (rewrite <- is_leap_iff, L; discriminate).
    cbn [andb]. Z.to_euclidean_division_equations. lia.
- apply orb_false_iff in Elast. rewrite !Z.eqb_neq in Elast.
  pose proof (is_leap_cycle n400 n100 n4 n1 ltac:(lia) ltac:(lia) ltac:(lia) ltac:(lia)) as L.
  remember ((n1 =? 3) && (negb (n4 =? 24) || (n100 =? 3))) as leapyear eqn:Eleap.
  rewrite Z.shiftr_div_pow2 by lia. change (2 ^ 5) with 32.
  remember ((r + 50) / 32) as m0 eqn:Em0.
  assert (1 <= m0 <= 12 /\ 32 * m0 <= r + 50 < 32 * m0 + 32) as (Bm & Dm)
    by (subst m0; Z.to_euclidean_division_equations; lia).
  clear Em0 Eleap.
  assert (days_before_year (n400 * 400 + 1 + n100 * 100 + n4 * 4 + n1) + r + 1 = n) as Hy.
  { unfold days_before_year. Z.to_euclidean_division_equations. lia. }
  months m0; destruct leapyear; calendar_simpl;
    match goal with |- context [if ?c then _ else _] => destruct c eqn:Ec end;
    try (apply Z.ltb_lt in Ec); try (apply Z.ltb_ge in Ec);
    unfold valid_date, ymd2ord, days_before_month;
    rewrite ?L; calendar_simpl; rewrite ?L; lia.
Qed.

Lemma day_of_year_bounds y m d :
1 <= m <= 12 -> 1 <= d <= days_in_month y m ->
1 <= days_before_month y m + d <= 365 + (if is_leap y then 1 else 0).
Proof.
intros Hm. unfold days_before_month, days_in_month.
months m; destruct (is_leap y); calendar_simpl; lia.
Qed.

Lemma nested_div y : y / 100 = y / 4 / 25 /\ y / 400 = y / 4 / 25 / 4.
Proof. rewrite !Z.div_div by lia. split; reflexivity. Qed.

Lemma nested_mod y :
(y mod 100 = 0 <-> y mod 4 = 0 /\ (y / 4) mod 25 = 0) /\
(y mod 400 = 0 <-> y mod 4 = 0 /\ (y / 4) mod 25 = 0 /\ (y / 4 / 25) mod 4 = 0).
Proof.
pose proof (nested_div y) as [A B].
Z.to_euclidean_division_equations. lia.
Qed.

Lemma days_before_year_succ y :
days_before_year (y + 1) = days_before_year y + 365 + (if is_leap y then 1 else 0).
Proof.
unfold days_before_year.
replace (y + 1 - 1) with y by lia.
destruct (nested_div y) as [-> ->].
destruct (nested_div (y - 1)) as [-> ->].
destruct (is_leap y) eqn:L.
- apply is_leap_iff in L. destruct (nested_mod y) as [A B].
  rewrite A, B in L. clear A B.
  Z.to_euclidean_division_equations. lia.
- assert (~ (y mod 4 = 0 /\ (y mod 100 <> 0 \/ y mod 400 = 0))) as L'
    by (rewrite <- is_leap_iff, L; discriminate).
  destruct (nested_mod y) as [A B].
  rewrite A, B in L'. clear A B.
  Z.to_euclidean_division_equations. lia.
Qed.

Lemma days_before_year_mono y y' : y <= y' -> days_before_year y <= days_before_year y'.
Proof.
intros H. unfold days_before_year.
destruct (nested_div (y - 1)) as [-> ->].
destruct (nested_div (y' - 1)) as [-> ->].
assert ((y - 1) / 4 <= (y' - 1) / 4) as A by (apply Z.div_le_mono; lia).
remember ((y - 1) / 4) as a. remember ((y' - 1) / 4) as a'.
assert (a - a / 25 <= a' - a' / 25) as B
  by (Z.to_euclidean_division_equations; lia).
assert (a / 25 / 4 <= a' / 25 / 4) as C
  by (apply Z.div_le_mono; [lia |]; apply Z.div_le_mono; lia).
lia.
Qed.

Lemma days_before_year_step y y' :
y < y' ->
days_before_year y + 365 + (if is_leap y then 1 else 0) <= days_before_year y'.
Proof.
intros H. rewrite <- days_before_year_succ. apply days_before_year_mono. lia.
Qed.

Lemma ymd2ord_inj y m d y' m' d' :
valid_date y m d -> valid_date y' m' d' ->
ymd2ord y m d = ymd2ord y' m' d' -> (y, m, d) = (y', m', d').
Proof.
intros (Hy & Hm & Hd) (Hy' & Hm' & Hd') E. unfold ymd2ord in E.
pose proof (day_of_year_bounds y m d Hm Hd) as B.
pose proof (day_of_year_bounds y' m' d' Hm' Hd') as B'.
assert (y = y') as <-.
{ destruct (Z.lt_trichotomy y y') as [Lt | [Eq | Gt]]; [| exact Eq |].
  - pose proof (days_before_year_step y y' Lt). lia.
  - pose proof (days_before_year_step y' y Gt). lia. }
assert (days_before_month y m + d = days_before_month y m' + d') as E' by lia.
clear E B B'. revert Hd Hd' E'. unfold days_before_month, days_in_month.
months m; months m'; destruct (is_leap y); calendar_simpl; intros; f_equal; lia.
Qed.

End DatetimeFacts.

(** ** The date and time branches *)

Section BoundedCheck.

Lemma all_below_spec (k : nat) (f : Z -> bool) :
  all_below k f = true -> forall v, 0 <= v < Z.of_nat k -> f v = true.
Proof.
  induction k as [|k IH]; intros H v Hv; [lia |].
  simpl in H. apply andb_true_iff in H as [Hk Hrest].
  destruct (Z.eq_dec v (Z.of_nat k)) as [-> | Hne]; [exact Hk |].
  apply IH; [exact Hrest | lia].
Qed.

End BoundedCheck.

Lemma zfill4_length (v : Z) :
  0 <= v <= 9999 -> String.length (PyStr.zfill 4 v) = 4%nat.
Proof.
  intros Hv.
  apply Nat.eqb_eq.
  apply (all_below_spec (Z.to_nat 10000)
           (fun v => Nat.eqb (String.length (PyStr.zfill 4 v)) 4)); [| lia].
  vm_compute. reflexivity.
Qed.

Lemma zfill2_length (v : Z) :
  0 <= v <= 99 -> String.length (PyStr.zfill 2 v) = 2%nat.
Proof.
  intros Hv.
  apply Nat.eqb_eq.
  apply (all_below_spec (Z.to_nat 100)
           (fun v => Nat.eqb (String.length (PyStr.zfill 2 v)) 2)); [| lia].
  vm_compute. reflexivity.
Qed.

Lemma length_append (a b : string) :
  String.length (a ++ b) = (String.length a + String.length b)%nat.
Proof. induction a as [|x a IH]; simpl; [reflexivity | now rewrite IH]. Qed.

Lemma days_in_month_le (y m : Z) : PyDatetime.days_in_month y m <= 31.
Proof.
  unfold PyDatetime.days_in_month.
  repeat match goal with
    | |- context [match ?x with _ => _ end] => destruct x
    end; lia.
Qed.

Lemma date_isoformat_length (y m d : Z) :
  PyDatetime.valid_date y m d ->
  String.length (PyDatetime.date_isoformat y m d) = 10%nat.
Proof.
  intros (Hy & Hm & Hd). pose proof (days_in_month_le y m).
  unfold PyDatetime.date_isoformat.
  rewrite !length_append, zfill4_length, !zfill2_length by lia.
  reflexivity.
Qed.

Section DateBranches.

Import PyDatetime.

Lemma new_timedelta_ok (days hours seconds : Z) :
  Z.abs (days + (hours * 3600 + seconds) / 86400) <= 999999999 ->
  new_timedelta days hours seconds =
    Ok (mk_timedelta (days + (hours * 3600 + seconds) / 86400)
          ((hours * 3600 + seconds) mod 86400)).
Proof.
  intros H. unfold new_timedelta. cbv zeta.
  destruct (Z.ltb_spec 999999999 (Z.abs (days + (hours * 3600 + seconds) / 86400)));
    [lia | reflexivity].
Qed.

Lemma new_timedelta_overflow (days hours seconds : Z) :
  999999999 < Z.abs (days + (hours * 3600 + seconds) / 86400) ->
  new_timedelta days hours seconds = Raise OverflowError.
Proof.
  intros H. unfold new_timedelta. cbv zeta.
  destruct (Z.ltb_spec 999999999 (Z.abs (days + (hours * 3600 + seconds) / 86400)));
    [reflexivity | lia].
Qed.

(** Adding whole days and seconds to a date-time: the sum is taken on
    the day count and the seconds of the day, and has to stay within
    the calendar. *)
Lemma datetime_add_value (y m d hh mm ss days secs : Z) :
  0 <= hh < 24 -> 0 <= mm < 60 -> 0 <= ss < 60 -> 0 <= secs < 86400 ->
  1 <= ymd2ord y m d <= MAXORDINAL ->
  let total := hh * 3600 + mm * 60 + ss + secs in
  let day := ymd2ord y m d + days + total / 86400 in
  datetime_add (mk_datetime y m d hh mm ss) (mk_timedelta days secs) =
    if (0 <? day) && (day <=? MAXORDINAL) then
      let '(y', m', d') := ord2ymd day in
      Ok (mk_datetime y' m' d' ((total mod 86400) / 3600)
            (((total mod 86400) mod 3600) / 60) (((total mod 86400) mod 3600) mod 60))
    else Raise OverflowError.
Proof.
  intros Hh Hm Hs Hsecs Hord total day.
  unfold datetime_add. cbn [dt_year dt_month dt_day dt_hour dt_minute dt_second].
  unfold MAXORDINAL in *.
  assert ((hh * 3600 + (mm * 60 + ss)) / 86400 = 0) as Q1
    by (apply Z.div_small; lia).
  assert ((hh * 3600 + (mm * 60 + ss)) mod 86400 = hh * 3600 + mm * 60 + ss) as R1
    by (rewrite Z.mod_small; lia).
  rewrite new_timedelta_ok by (rewrite Q1; lia).
  rewrite Q1, R1. cbn [bind td_days td_seconds].
  replace (0 * 3600 + (hh * 3600 + mm * 60 + ss + secs)) with total by (unfold total; lia).
  replace (ymd2ord y m d + 0 + days + total / 86400) with day by (unfold day; lia).
  destruct (Z.ltb_spec 999999999 (Z.abs day)) as [Big | Small].
  - rewrite new_timedelta_overflow
      by (replace (0 * 3600 + _) with total by (unfold total; lia);
          replace (_ + _ + _ + _) with day by (unfold day; lia); exact Big).
    cbn [bind].
    destruct (Z.ltb_spec 0 day), (Z.leb_spec day 3652059); cbn [andb];
      try reflexivity; lia.
  - rewrite new_timedelta_ok
      by (replace (0 * 3600 + _) with total by (unfold total; lia);
          replace (_ + _ + _ + _) with day by (unfold day; lia); exact Small).
    cbn [bind td_days td_seconds].
    replace (0 * 3600 + (hh * 3600 + mm * 60 + ss + secs)) with total
      by (unfold total; lia).
    replace (ymd2ord y m d + 0 + days + total / 86400) with day by (unfold day; lia).
    reflexivity.
Qed.

End DateBranches.

Section MockDates.

Import PyDatetime.

Lemma anchor_ordinal : ymd2ord 2024 1 1 = 738886.
Proof. reflexivity. Qed.

Lemma mock_date_value (row_index : Z) :
  0 <= row_index <= DATE_LAST_ROW ->
  mock_date row_index =
    let '(y, m, d) := ord2ymd (ymd2ord 2024 1 1 + row_index) in
    Ok (VStr (date_isoformat y m d)).
Proof.
  unfold DATE_LAST_ROW. intros H. unfold mock_date.
  rewrite new_timedelta_ok by (change ((0 * 3600 + 0) / 86400) with 0; lia).
  cbn [bind].
  change ((0 * 3600 + 0) / 86400) with 0. change ((0 * 3600 + 0) mod 86400) with 0.
  rewrite datetime_add_value by (rewrite ?anchor_ordinal; unfold MAXORDINAL; lia).
  cbv zeta. change (0 * 3600 + 0 * 60 + 0 + 0) with 0.
  change (0 / 86400) with 0. rewrite anchor_ordinal.
  replace (738886 + (row_index + 0) + 0) with (738886 + row_index) by lia.
  unfold MAXORDINAL.
  destruct (Z.ltb_spec 0 (738886 + row_index)); [| lia].
  destruct (Z.leb_spec (738886 + row_index) 3652059); [| lia].
  cbn [andb]. destruct (ord2ymd (738886 + row_index)) as [[y m] d].
  reflexivity.
Qed.

Lemma mock_date_overflow (row_index : Z) :
  DATE_LAST_ROW < row_index -> mock_date row_index = Raise OverflowError.
Proof.
  unfold DATE_LAST_ROW. intros H. unfold mock_date.
  destruct (Z.ltb_spec 999999999 row_index) as [Big | Small].
  - rewrite new_timedelta_overflow
      by (change ((0 * 3600 + 0) / 86400) with 0; lia). reflexivity.
  - rewrite new_timedelta_ok by (change ((0 * 3600 + 0) / 86400) with 0; lia).
    cbn [bind].
    change ((0 * 3600 + 0) / 86400) with 0. change ((0 * 3600 + 0) mod 86400) with 0.
    rewrite datetime_add_value by (rewrite ?anchor_ordinal; unfold MAXORDINAL; lia).
    cbv zeta. change (0 * 3600 + 0 * 60 + 0 + 0) with 0.
    change (0 / 86400) with 0. rewrite anchor_ordinal. unfold MAXORDINAL.
    destruct (Z.leb_spec (738886 + (row_index + 0) + 0) 3652059); [lia |].
    rewrite andb_false_r. reflexivity.
Qed.

(** The hour of the day and the day reached [row_index] hours after
    noon of the anchor day. *)
Lemma mock_datetime_value (row_index : Z) :
  0 <= row_index <= DATETIME_LAST_ROW ->
  mock_datetime row_index =
    let '(y, m, d) := ord2ymd (ymd2ord 2024 1 1 + (12 + row_index) / 24) in
    Ok (VStr (date_isoformat y m d ++ " " ++ PyStr.zfill 2 ((12 + row_index) mod 24)
              ++ ":" ++ PyStr.zfill 2 0 ++ ":" ++ PyStr.zfill 2 0)).
Proof.
  unfold DATETIME_LAST_ROW. intros H. unfold mock_datetime.
  rewrite new_timedelta_ok by (Z.to_euclidean_division_equations; lia).
  cbn [bind].
  rewrite datetime_add_value
    by (rewrite ?anchor_ordinal; unfold MAXORDINAL;
        Z.to_euclidean_division_equations; lia).
  cbv zeta. rewrite anchor_ordinal. unfold MAXORDINAL.
  set (total := 12 * 3600 + 0 * 60 + 0 + (row_index * 3600 + 0) mod 86400).
  assert (738886 + (0 + (row_index * 3600 + 0) / 86400) + total / 86400
          = 738886 + (12 + row_index) / 24) as ->
    by (unfold total; Z.to_euclidean_division_equations; lia).
  assert ((total mod 86400) / 3600 = (12 + row_index) mod 24) as ->
    by (unfold total; Z.to_euclidean_division_equations; lia).
  assert (((total mod 86400) mod 3600) / 60 = 0) as ->
    by (unfold total; Z.to_euclidean_division_equations; lia).
  assert (((total mod 86400) mod 3600) mod 60 = 0) as ->
    by (unfold total; Z.to_euclidean_division_equations; lia).
  destruct (Z.ltb_spec 0 (738886 + (12 + row_index) / 24));
    [| Z.to_euclidean_division_equations; lia].
  destruct (Z.leb_spec (738886 + (12 + row_index) / 24) 3652059);
    [| Z.to_euclidean_division_equations; lia].
  cbn [andb]. destruct (ord2ymd _) as [[y m] d].
  unfold strftime_ymd_hms, date_isoformat.
  cbn [dt_year dt_month dt_day dt_hour dt_minute dt_second].
  rewrite !append_assoc. reflexivity.
Qed.

End MockDates.

(** C4, as amended: up to the last row the calendar of [datetime] can
    reach, the date kind gives the existing calendar day [row_index] days
    after 2024-01-01, as [YYYY-MM-DD] (ten characters), and the date-time
    kind gives the day and hour [row_index] hours after 2024-01-01 12:00:00,
    as [YYYY-MM-DD HH:00:00]. *)
Theorem generate_date_kinds (rawType column_name : string) (row_index : Z)
    (kind_is : classify rawType = Date \/ classify rawType = DateTime)
    (in_range : 0 <= row_index <=
                match classify rawType with
                | Date => DATE_LAST_ROW
                | _ => DATETIME_LAST_ROW
                end) :
  match classify rawType with
  | Date =>
      exists y m d,
        PyDatetime.valid_date y m d
        /\ PyDatetime.ymd2ord y m d = PyDatetime.ymd2ord 2024 1 1 + row_index
        /\ generate_mock_value rawType column_name row_index =
             Ok (VStr (PyDatetime.date_isoformat y m d))
        /\ String.length (PyDatetime.date_isoformat y m d) = 10%nat
  | _ =>
      exists y m d h,
        PyDatetime.valid_date y m d /\ 0 <= h < 24
        /\ 24 * PyDatetime.ymd2ord y m d + h =
             24 * PyDatetime.ymd2ord 2024 1 1 + 12 + row_index
        /\ generate_mock_value rawType column_name row_index =
             Ok (VStr (PyDatetime.date_isoformat y m d ++ " " ++ PyStr.zfill 2 h
                       ++ ":00:00"))
        /\ String.length (PyDatetime.date_isoformat y m d) = 10%nat
        /\ String.length (PyStr.zfill 2 h) = 2%nat
  end.
Proof.
  rewrite generate_by_kind.
  destruct kind_is as [K | K]; rewrite K in *.
  - rewrite (mock_date_value _ in_range).
    pose proof (DatetimeFacts.ord2ymd_correct (PyDatetime.ymd2ord 2024 1 1 + row_index)) as C.
    destruct (PyDatetime.ord2ymd _) as [[y m] d].
    destruct C as [V O].
    { rewrite anchor_ordinal. unfold PyDatetime.MAXORDINAL, DATE_LAST_ROW in *. lia. }
    exists y, m, d. repeat split; try apply V; try exact O.
    apply date_isoformat_length, V.
  - rewrite (mock_datetime_value _ in_range).
    pose proof (DatetimeFacts.ord2ymd_correct
                  (PyDatetime.ymd2ord 2024 1 1 + (12 + row_index) / 24)) as C.
    destruct (PyDatetime.ord2ymd _) as [[y m] d].
    destruct C as [V O].
    { rewrite anchor_ordinal. unfold PyDatetime.MAXORDINAL, DATETIME_LAST_ROW in *.
      Z.to_euclidean_division_equations. lia. }
    exists y, m, d, ((12 + row_index) mod 24).
    split; [exact V |]. split; [apply Z.mod_pos_bound; lia |].
    split; [rewrite O; Z.to_euclidean_division_equations; lia |].
    split; [reflexivity |].
    split; [apply date_isoformat_length, V |].
    apply zfill2_length. pose proof (Z.mod_pos_bound (12 + row_index) 24). lia.
Qed.

Lemma generate_date_kinds_witness :
  exists y m d,
    PyDatetime.valid_date y m d
    /\ PyDatetime.ymd2ord y m d = PyDatetime.ymd2ord 2024 1 1 + 31
    /\ generate_mock_value "date" "born" 31 = Ok (VStr (PyDatetime.date_isoformat y m d))
    /\ String.length (PyDatetime.date_isoformat y m d) = 10%nat.
Proof.
  apply (generate_date_kinds "date" "born" 31).
  - left. reflexivity.
  - vm_compute. split; discriminate.
Defined.

(** C4, as stated, fails past the last day of the calendar: at row
    2913174 of a date column, and at row 69916164 of a date-time column,
    the generator raises [OverflowError] and returns no string. *)
Lemma date_past_calendar_raises :
  classify "date" = Date /\ 0 <= 2913174
  /\ generate_mock_value "date" "d" 2913174 = Raise OverflowError
  /\ classify "datetime" = DateTime /\ 0 <= 69916164
  /\ generate_mock_value "datetime" "d" 69916164 = Raise OverflowError.
Proof. vm_compute. repeat split; discriminate. Qed.

(** The rows the specification lists. *)
Example date_row_0 : generate_mock_value "date" "c" 0 = Ok (VStr "2024-01-01").
Proof. reflexivity. Qed.

Example date_row_31 : generate_mock_value "date" "c" 31 = Ok (VStr "2024-02-01").
Proof. reflexivity. Qed.

Example datetime_row_0 :
  generate_mock_value "datetime" "c" 0 = Ok (VStr "2024-01-01 12:00:00").
Proof. reflexivity. Qed.

Example datetime_row_1 :
  generate_mock_value "datetime" "c" 1 = Ok (VStr "2024-01-01 13:00:00").
Proof. reflexivity. Qed.

(** ** Statements and their reading by the server *)

Section Quoting.

Lemma lex_quoted_doubled (name rest : string) :
  starts_with_backtick rest = false ->
  MySQL.lex_quoted (PyStr.replace "`" "``" name ++ "`" ++ rest) = Some (name, rest).
Proof.
  intros Hrest. change ("`" ++ rest) with (String "`" rest).
  induction name as [|a name IH].
  - simpl. destruct rest as [|b rest]; [reflexivity |].
    simpl in Hrest. rewrite Hrest. reflexivity.
  - simpl. destruct (Ascii.eqb a "`") eqn:E.
    + apply Ascii.eqb_eq in E. subst a. simpl. rewrite IH. reflexivity.
    + simpl. rewrite E, IH. reflexivity.
Qed.

Lemma lex_identifier_quoted (name rest : string) :
  starts_with_backtick rest = false ->
  MySQL.lex_identifier (quote_identifier name ++ rest) = Some (name, rest).
Proof.
  intros Hrest. unfold quote_identifier.
  rewrite !append_assoc. simpl.
  rewrite <- (lex_quoted_doubled name rest Hrest). reflexivity.
Qed.

Lemma whole_identifier_quoted (name : string) :
  MySQL.whole_identifier (quote_identifier name) = Some name.
Proof.
  unfold MySQL.whole_identifier.
  rewrite <- (append_nil_r (quote_identifier name)).
  rewrite lex_identifier_quoted by reflexivity. reflexivity.
Qed.

Lemma strip_prefix_app (p s : string) : MySQL.strip_prefix p (p ++ s) = Some s.
Proof.
  induction p as [|a p IH]; simpl; [reflexivity |].
  rewrite Ascii.eqb_refl. exact IH.
Qed.

Lemma lex_identifier_list_step (fuel : nat) (name rest : string) :
  starts_with_backtick rest = false ->
  MySQL.lex_identifier_list (S fuel) (quote_identifier name ++ rest) =
    match MySQL.strip_prefix ")" rest with
    | Some rest' => Some ([name], rest')
    | None =>
        match MySQL.strip_prefix ", " rest with
        | Some rest' =>
            match MySQL.lex_identifier_list fuel rest' with
            | Some (names, rest'') => Some (name :: names, rest'')
            | None => None
            end
        | None => None
        end
    end.
Proof.
  intros H. cbn [MySQL.lex_identifier_list].
  rewrite lex_identifier_quoted by exact H. reflexivity.
Qed.

Lemma lex_identifier_list_quoted (names : list string) (rest : string) (fuel : nat) :
  names <> [] -> (length names <= fuel)%nat ->
  MySQL.lex_identifier_list fuel
    (PyStr.join ", " (List.map quote_identifier names) ++ ")" ++ rest)
  = Some (names, rest).
Proof.
  revert fuel. induction names as [|n names IH]; intros fuel Hne Hfuel; [congruence |].
  destruct fuel as [|fuel]; [simpl in Hfuel; lia |].
  destruct names as [|n' names].
  - cbn [List.map PyStr.join].
    rewrite lex_identifier_list_step by reflexivity. reflexivity.
  - change (PyStr.join ", " (List.map quote_identifier (n :: n' :: names)))
      with (quote_identifier n ++ ", "
            ++ PyStr.join ", " (List.map quote_identifier (n' :: names))).
    rewrite !append_assoc.
    rewrite lex_identifier_list_step by reflexivity.
    change (MySQL.strip_prefix ")" (", " ++ ?x)) with (@None string).
    rewrite strip_prefix_app.
    rewrite IH; [reflexivity | discriminate | simpl in *; lia].
Qed.

Lemma lex_placeholders_step (fuel : nat) (rest : string) :
  MySQL.lex_placeholders (S fuel) ("%s" ++ rest) =
    match MySQL.strip_prefix ")" rest with
    | Some rest' => Some (1%nat, rest')
    | None =>
        match MySQL.strip_prefix ", " rest with
        | Some rest' =>
            match MySQL.lex_placeholders fuel rest' with
            | Some (n, rest'') => Some (S n, rest'')
            | None => None
            end
        | None => None
        end
    end.
Proof. reflexivity. Qed.

Lemma lex_placeholders_repeat (n : nat) (rest : string) (fuel : nat) :
  (n < fuel)%nat ->
  MySQL.lex_placeholders fuel (PyStr.join ", " (List.repeat "%s" (S n)) ++ ")" ++ rest)
  = Some (S n, rest).
Proof.
  revert fuel. induction n as [|n IH]; intros fuel Hfuel;
    (destruct fuel as [|fuel]; [lia |]).
  - reflexivity.
  - change (PyStr.join ", " (List.repeat "%s" (S (S n))))
      with ("%s" ++ ", " ++ PyStr.join ", " (List.repeat "%s" (S n))).
    rewrite !append_assoc.
    rewrite lex_placeholders_step.
    change (MySQL.strip_prefix ")" (", " ++ ?x)) with (@None string).
    rewrite strip_prefix_app.
    rewrite IH by lia. reflexivity.
Qed.

End Quoting.

Section Statements.

Lemma parse_count_query (name : string) :
  MySQL.parse (count_query name) = Some (MySQL.SelectCount name).
Proof.
  unfold MySQL.parse, count_query.
  rewrite strip_prefix_app, whole_identifier_quoted. reflexivity.
Qed.

Lemma parse_describe_query (name : string) :
  MySQL.parse (describe_query name) = Some (MySQL.Describe name).
Proof.
  unfold MySQL.parse, describe_query.
  change (MySQL.strip_prefix "SELECT COUNT(*) AS count FROM " ("DESCRIBE " ++ ?x))
    with (@None string).
  rewrite strip_prefix_app, whole_identifier_quoted. reflexivity.
Qed.

Lemma parse_select_query (name : string) :
  MySQL.parse (select_query name) = Some (MySQL.SelectAll name).
Proof.
  unfold MySQL.parse, select_query.
  change (MySQL.strip_prefix "SELECT COUNT(*) AS count FROM " ("SELECT * FROM " ++ ?x))
    with (@None string).
  change (MySQL.strip_prefix "DESCRIBE " ("SELECT * FROM " ++ ?x)) with (@None string).
  rewrite strip_prefix_app, whole_identifier_quoted. reflexivity.
Qed.

Lemma length_join_quoted (names : list string) (rest : string) :
  (length names <=
     String.length (PyStr.join ", " (List.map quote_identifier names) ++ rest))%nat.
Proof.
  induction names as [|n [|n' names] IH].
  - simpl. lia.
  - cbn [List.map PyStr.join]. unfold quote_identifier.
    rewrite !length_append. simpl. lia.
  - change (PyStr.join ", " (List.map quote_identifier (n :: n' :: names)))
      with (quote_identifier n ++ ", "
            ++ PyStr.join ", " (List.map quote_identifier (n' :: names))).
    rewrite !append_assoc, length_append, length_append.
    unfold quote_identifier at 1. simpl length in *. simpl String.length at 1. lia.
Qed.

Lemma length_join_markers (n : nat) (rest : string) :
  (n < String.length (PyStr.join ", " (List.repeat "%s" (S n)) ++ rest))%nat.
Proof.
  induction n as [|n IH].
  - simpl. lia.
  - change (PyStr.join ", " (List.repeat "%s" (S (S n))))
      with ("%s" ++ ", " ++ PyStr.join ", " (List.repeat "%s" (S n))).
    rewrite !append_assoc, length_append, length_append.
    simpl String.length at 1 2. lia.
Qed.

Lemma parse_insert_query (name : string) (column_names : list string) :
  column_names <> [] ->
  MySQL.parse (insert_query name column_names)
  = Some (MySQL.InsertInto name column_names (length column_names)).
Proof.
  intros Hne. unfold MySQL.parse, insert_query.
  change (MySQL.strip_prefix "SELECT COUNT(*) AS count FROM " ("INSERT INTO " ++ ?x))
    with (@None string).
  change (MySQL.strip_prefix "DESCRIBE " ("INSERT INTO " ++ ?x)) with (@None string).
  change (MySQL.strip_prefix "SELECT * FROM " ("INSERT INTO " ++ ?x)) with (@None string).
  rewrite strip_prefix_app. unfold MySQL.parse_insert.
  rewrite lex_identifier_quoted by reflexivity.
  rewrite strip_prefix_app.
  change (") VALUES (" ++ ?x) with (")" ++ " VALUES (" ++ x).
  rewrite lex_identifier_list_quoted by (auto using length_join_quoted).
  rewrite strip_prefix_app.
  destruct column_names as [|c column_names]; [congruence |].
  cbn [length].
  rewrite <- (append_nil_r ")") at 2.
  rewrite lex_placeholders_repeat by apply length_join_markers.
  reflexivity.
Qed.

End Statements.

(** ** Seeding, path by path *)

Section Seeding.

Variable store : table -> list string -> list value -> result (list value).

Lemma count_text (name : string) :
  "SELECT COUNT(*) AS count FROM `" ++ PyStr.replace "`" "``" name ++ "`"
  = count_query name.
Proof. reflexivity. Qed.

Lemma describe_text (name : string) :
  "DESCRIBE `" ++ PyStr.replace "`" "``" name ++ "`" = describe_query name.
Proof. reflexivity. Qed.

Lemma select_text (name : string) :
  "SELECT * FROM `" ++ PyStr.replace "`" "``" name ++ "`" = select_query name.
Proof. reflexivity. Qed.

Lemma insert_text (name : string) (column_names : list string) :
  "INSERT INTO `" ++ PyStr.replace "`" "``" name ++ "` ("
  ++ PyStr.join ", "
       (List.map (fun n => "`" ++ PyStr.replace "`" "``" n ++ "`") column_names)
  ++ ") VALUES (" ++ PyStr.join ", " (List.repeat "%s" (length column_names)) ++ ")"
  = insert_query name column_names.
Proof.
  unfold insert_query, quote_identifier.
  rewrite !append_assoc. reflexivity.
Qed.

Lemma execute_count (name : string) (c : connection) :
  execute (count_query name) c =
    (match conn_db c !! name with
     | Some t => Ok (MySQL.CountRow (Z.of_nat (length (tbl_rows t))))
     | None => Raise (MySQLError "unknown table")
     end, record_call (Execute (count_query name)) c).
Proof.
  unfold execute. rewrite parse_count_query.
  cbn [record_call conn_db]. destruct (conn_db c !! name); reflexivity.
Qed.

Lemma execute_describe (name : string) (c : connection) :
  execute (describe_query name) c =
    (match conn_db c !! name with
     | Some t => Ok (MySQL.ColumnRows (tbl_columns t))
     | None => Raise (MySQLError "unknown table")
     end, record_call (Execute (describe_query name)) c).
Proof.
  unfold execute. rewrite parse_describe_query.
  cbn [record_call conn_db]. destruct (conn_db c !! name); reflexivity.
Qed.

Lemma execute_select (name : string) (c : connection) :
  execute (select_query name) c =
    (match conn_db c !! name with
     | Some t => Ok (MySQL.TableRows (List.map Field (tbl_columns t)) (tbl_rows t))
     | None => Raise (MySQLError "unknown table")
     end, record_call (Execute (select_query name)) c).
Proof.
  unfold execute. rewrite parse_select_query.
  cbn [record_call conn_db]. destruct (conn_db c !! name); reflexivity.
Qed.

(** What [seed_mock_data] does on each of its paths. *)
Lemma seed_mock_data_paths (name : string) (rows_to_insert : Z) (c : connection) :
  seed_mock_data store name rows_to_insert c =
    let c1 := record_call (Execute (count_query name)) c in
    match conn_db c !! name with
    | None => (Raise (MySQLError "unknown table"), c1)
    | Some t =>
        match tbl_rows t with
        | _ :: _ => (Ok VNone, c1)
        | [] =>
            let c2 := record_call (Execute (describe_query name)) c1 in
            match insertable (tbl_columns t) with
            | [] => (Ok VNone, c2)
            | _ :: _ =>
                match build_mock_rows (insertable (tbl_columns t)) rows_to_insert with
                | Ok mock_rows => insert_batch store name t mock_rows c2
                | Raise e => (Raise e, c2)
                end
            end
        end
    end.
Proof.
  unfold seed_mock_data. cbv zeta.
  rewrite count_text, describe_text.
  unfold bindM at 1. rewrite execute_count.
  destruct (conn_db c !! name) as [t |] eqn:Ht; [| reflexivity].
  unfold bindM at 1. unfold lift at 1. cbn [fetch_count].
  destruct (tbl_rows t) as [|r rows] eqn:Hrows; [| reflexivity].
  cbn [length]. change (negb (Z.of_nat 0 =? 0)) with false. cbv iota.
  unfold bindM at 1. rewrite execute_describe.
  cbn [record_call conn_db]. rewrite Ht.
  unfold bindM at 1. unfold lift at 1. cbn [fetch_columns].
  destruct (insertable (tbl_columns t)) as [|col cols] eqn:Hins; [reflexivity |].
  rewrite insert_text.
  unfold bindM at 1. unfold lift at 1.
  destruct (build_mock_rows (col :: cols) rows_to_insert) as [mock_rows | e];
    [| reflexivity].
  unfold insert_batch. rewrite Hins.
  unfold bindM at 1.
  destruct (executemany store _ mock_rows _) as [[u | e] c3]; reflexivity.
Qed.

End Seeding.

(** ** Comprehensions and the rows of a batch *)

Section Comprehensions.

Context {A B : Type}.

Implicit Types (f : A -> result B) (l : list A).

Lemma comprehension_ok f l ys :
  comprehension f l = Ok ys -> Forall2 (fun x y => f x = Ok y) l ys.
Proof.
  revert ys. induction l as [|x l IH]; simpl; intros ys H.
  - injection H as <-. constructor.
  - destruct (f x) as [y | e] eqn:Hx; simpl in H; [| discriminate].
    destruct (comprehension f l) as [ys' | e] eqn:Hl; simpl in H; [| discriminate].
    injection H as <-. constructor; [exact Hx | apply IH; reflexivity].
Qed.

Lemma comprehension_total f l :
  (forall x, In x l -> exists y, f x = Ok y) -> exists ys, comprehension f l = Ok ys.
Proof.
  induction l as [|x l IH]; simpl; intros H.
  - eexists; reflexivity.
  - destruct (H x (or_introl eq_refl)) as [y ->].
    destruct IH as [ys ->]; [intros z Hz; apply H; right; exact Hz |].
    eexists; reflexivity.
Qed.

(** The first element that raises ends the comprehension. *)
Lemma comprehension_raise f l1 x l2 e :
  (forall z, In z l1 -> exists y, f z = Ok y) -> f x = Raise e ->
  comprehension f (l1 ++ x :: l2)%list = Raise e.
Proof.
  intros Hl1 Hx. induction l1 as [|z l1 IH]; simpl.
  - rewrite Hx. reflexivity.
  - destruct (Hl1 z (or_introl eq_refl)) as [y ->]. simpl.
    rewrite IH; [reflexivity |]. intros w Hw. apply Hl1. right. exact Hw.
Qed.

Lemma Forall2_length_eq {C D : Type} (R : C -> D -> Prop) (xs : list C) (ys : list D) :
  Forall2 R xs ys -> length xs = length ys.
Proof. induction 1; simpl; congruence. Qed.

End Comprehensions.

Lemma range_length (n : Z) : length (range n) = Z.to_nat n.
Proof. unfold range. rewrite length_map, length_seq. reflexivity. Qed.

Lemma range_lookup (n : Z) (i : nat) (x : Z) :
  range n !! i = Some x -> x = Z.of_nat i /\ (i < Z.to_nat n)%nat.
Proof.
  unfold range. intros H.
  rewrite list_lookup_fmap in H.
  destruct (seq 0 (Z.to_nat n) !! i) as [j |] eqn:Hj; [| discriminate].
  apply lookup_seq in Hj as [-> Hlt]. simpl in H. injection H as <-.
  split; [reflexivity | exact Hlt].
Qed.

Lemma range_In (n x : Z) : In x (range n) <-> 0 <= x < n.
Proof.
  unfold range. rewrite in_map_iff. split.
  - intros (j & <- & Hj). apply in_seq in Hj. lia.
  - intros H. exists (Z.to_nat x). split; [lia |]. apply in_seq. lia.
Qed.

Lemma range_succ (n : Z) : 0 <= n -> range (n + 1) = (range n ++ [n])%list.
Proof.
  intros H. unfold range.
  replace (Z.to_nat (n + 1)) with (S (Z.to_nat n)) by lia.
  rewrite seq_S, map_app. simpl. rewrite Z2Nat.id by lia. reflexivity.
Qed.

(** ** Rows the generator can reach *)

Lemma py_float_ok (n : Z) :
  Z.abs n < FLOAT_OVERFLOW -> exists f, py_float n = Ok f.
Proof.
  intros H. unfold py_float.
  destruct (Z.ltb_spec (Z.abs n) FLOAT_OVERFLOW); [eexists; reflexivity | lia].
Qed.

Lemma generate_within_reach (rawType column_name : string) (row_index : Z) :
  0 <= row_index ->
  (forall last, last_row (classify rawType) = Some last -> row_index <= last) ->
  exists v, generate_mock_value rawType column_name row_index = Ok v.
Proof.
  intros Hpos Hlast. rewrite generate_by_kind.
  destruct (classify rawType); cbn [last_row] in Hlast;
    try (eexists; reflexivity).
  - destruct (py_float_ok (row_index + 1)) as [f ->]; [| eexists; reflexivity].
    specialize (Hlast _ eq_refl). lia.
  - rewrite mock_date_value by (specialize (Hlast _ eq_refl); lia).
    destruct (PyDatetime.ord2ymd _) as [[y m] d]. eexists; reflexivity.
  - rewrite mock_datetime_value by (specialize (Hlast _ eq_refl); lia).
    destruct (PyDatetime.ord2ymd _) as [[y m] d]. eexists; reflexivity.
  - specialize (Hlast _ eq_refl). unfold TEXT_LAST_ROW in Hlast.
    rewrite py_str_int_ok by lia. eexists; reflexivity.
  - specialize (Hlast _ eq_refl). unfold TEXT_LAST_ROW in Hlast.
    rewrite py_str_int_ok by lia. eexists; reflexivity.
  - specialize (Hlast _ eq_refl). unfold TEXT_LAST_ROW in Hlast.
    rewrite py_str_int_ok by lia. eexists; reflexivity.
Qed.

Lemma build_mock_rows_within_reach (columns : list column) (rows_to_insert : Z) :
  within_reach columns rows_to_insert ->
  exists mock_rows, build_mock_rows columns rows_to_insert = Ok mock_rows.
Proof.
  intros Hreach. unfold build_mock_rows.
  apply comprehension_total. intros i Hi. apply range_In in Hi.
  apply comprehension_total. intros col Hcol.
  apply generate_within_reach; [lia |].
  intros last Hlast. specialize (Hreach col last Hcol Hlast). lia.
Qed.

Lemma build_mock_rows_rows (columns : list column) (rows_to_insert : Z)
    (mock_rows : list (list value)) :
  build_mock_rows columns rows_to_insert = Ok mock_rows ->
  length mock_rows = Z.to_nat rows_to_insert
  /\ forall (i : nat) (row : list value),
       mock_rows !! i = Some row ->
       Forall2 (fun col v =>
                  generate_mock_value (Type_ col) (Field col) (Z.of_nat i) = Ok v)
         columns row.
Proof.
  intros H. apply comprehension_ok in H.
  split.
  - rewrite <- (Forall2_length_eq _ _ _ H). apply range_length.
  - intros i row Hrow.
    destruct (Forall2_lookup_r _ _ _ _ _ H Hrow) as (x & Hx & Hgen).
    apply range_lookup in Hx as [-> _].
    apply comprehension_ok in Hgen. exact Hgen.
Qed.

(** ** The seeding policy *)

(** C2, as amended: on a table that has rows, whatever the number of rows
    asked for, seeding sends the count query and nothing else (no insert,
    no commit), leaves every table as it was, and returns [None]. *)
Theorem seed_nonempty_table
    (store : table -> list string -> list value -> result (list value))
    (table_name : string) (rows_to_insert : Z) (c : connection) (t : table)
    (found : conn_db c !! table_name = Some t)
    (has_rows : (0 < length (tbl_rows t))%nat) :
  seed_mock_data store table_name rows_to_insert c =
    (Ok VNone,
     mk_connection (conn_db c) (conn_calls c ++ [Execute (count_query table_name)]))
  /\ MySQL.parse (count_query table_name) = Some (MySQL.SelectCount table_name).
Proof.
  split; [| apply parse_count_query].
  rewrite seed_mock_data_paths. cbv zeta. rewrite found.
  destruct (tbl_rows t); [simpl in has_rows; lia | reflexivity].
Qed.

Lemma seed_nonempty_table_witness :
  seed_mock_data store_named "people" 7 five_rows_connection =
    (Ok VNone,
     mk_connection (conn_db five_rows_connection)
       (conn_calls five_rows_connection ++ [Execute (count_query "people")]))
  /\ MySQL.parse (count_query "people") = Some (MySQL.SelectCount "people").
Proof.
  apply (seed_nonempty_table store_named "people" 7 five_rows_connection five_rows).
  - reflexivity.
  - simpl. lia.
Defined.

(** C2, as stated, fails on the returned value: seeding a table of five
    rows returns [None], not 0. *)
Lemma seed_returns_none_not_zero :
  (0 < length (tbl_rows five_rows))%nat
  /\ fst (seed_mock_data store_named "people" 7 five_rows_connection) = Ok VNone
  /\ fst (seed_mock_data store_named "people" 7 five_rows_connection) <> Ok (VInt 0).
Proof.
  assert (fst (seed_mock_data store_named "people" 7 five_rows_connection) = Ok VNone) as E.
  { rewrite seed_mock_data_paths. reflexivity. }
  split; [simpl; lia |]. split; [exact E |]. rewrite E. discriminate.
Qed.

Lemma executemany_accepted
    (store : table -> list string -> list value -> result (list value))
    (name : string) (t : table) (column_names : list string)
    (mock_rows stored : list (list value)) (c : connection) :
  column_names <> [] ->
  conn_db c !! name = Some t ->
  Forall (fun row => length row = length column_names) mock_rows ->
  comprehension (store t column_names) mock_rows = Ok stored ->
  exists c',
    executemany store (insert_query name column_names) mock_rows c = (Ok tt, c')
    /\ conn_calls c' =
         (conn_calls c ++ [ExecuteMany (insert_query name column_names) mock_rows])%list
    /\ conn_db c' !! name = Some (mk_table (tbl_columns t) (tbl_rows t ++ stored)%list)
    /\ forall other, other <> name -> conn_db c' !! other = conn_db c !! other.
Proof.
  intros Hne Hfound Hwidth Hstore. unfold executemany. cbv zeta.
  destruct mock_rows as [|row rows].
  - simpl in Hstore. injection Hstore as <-.
    eexists. split; [reflexivity |]. cbn [record_call conn_calls conn_db].
    rewrite app_nil_r. destruct t. auto.
  - rewrite parse_insert_query by exact Hne.
    cbn [record_call conn_db]. rewrite Hfound.
    assert (forallb (fun r => Nat.eqb (length r) (length column_names)) (row :: rows) = true)
      as ->.
    { apply forallb_forall. intros r Hr. apply Nat.eqb_eq.
      rewrite List.Forall_forall in Hwidth. apply Hwidth, Hr. }
    rewrite Hstore.
    eexists. split; [reflexivity |]. cbn [conn_calls conn_db].
    split; [reflexivity |]. split.
    + apply lookup_insert_eq.
    + intros other Hother. apply lookup_insert_ne. congruence.
Qed.

Lemma executemany_calls
    (store : table -> list string -> list value -> result (list value))
    (operation : string) (seq_params : list (list value)) (c : connection) :
  conn_calls (snd (executemany store operation seq_params c)) =
    (conn_calls c ++ [ExecuteMany operation seq_params])%list.
Proof.
  unfold executemany. cbv zeta.
  repeat match goal with
    | |- context [match ?x with _ => _ end] => destruct x
    end; reflexivity.
Qed.

(** C1, as amended: on an empty table with an insertable column, for a
    number [k >= 0] of rows within reach of the generator on every
    insertable column, seeding sends the count and describe queries and
    one batch for the insertable columns in schema order, with [k] rows of
    generated values ([mock_<col>_<i+1>] at row [i] of a text column); the
    batch is committed when the server takes it, and the table then has
    exactly [k] rows. *)
Theorem seed_empty_table
    (store : table -> list string -> list value -> result (list value))
    (table_name : string) (rows_to_insert : Z) (c : connection) (t : table)
    (found : conn_db c !! table_name = Some t)
    (empty : tbl_rows t = [])
    (some_insertable : insertable (tbl_columns t) <> [])
    (nonneg : 0 <= rows_to_insert)
    (reach : within_reach (insertable (tbl_columns t)) rows_to_insert) :
  let columns := insertable (tbl_columns t) in
  let outcome := fst (seed_mock_data store table_name rows_to_insert c) in
  let c' := snd (seed_mock_data store table_name rows_to_insert c) in
  exists mock_rows : list (list value),
    conn_calls c' =
      (conn_calls c
       ++ [Execute (count_query table_name); Execute (describe_query table_name);
           ExecuteMany (insert_query table_name (List.map Field columns)) mock_rows]
       ++ (if is_ok outcome then [Commit] else []))%list
    /\ MySQL.parse (insert_query table_name (List.map Field columns)) =
         Some (MySQL.InsertInto table_name (List.map Field columns) (length columns))
    /\ length mock_rows = Z.to_nat rows_to_insert
    /\ (forall (i : nat) (row : list value),
          mock_rows !! i = Some row ->
          Forall2 (fun col v =>
                     generate_mock_value (Type_ col) (Field col) (Z.of_nat i) = Ok v)
            columns row)
    /\ (forall (i j : nat) (row : list value) (col : column),
          mock_rows !! i = Some row -> columns !! j = Some col ->
          classify (Type_ col) = Text ->
          row !! j = Some (VStr (mock_text (Field col) (Z.of_nat i))))
    /\ (forall stored,
          comprehension (store t (List.map Field columns)) mock_rows = Ok stored ->
          outcome = Ok VNone
          /\ conn_db c' !! table_name = Some (mk_table (tbl_columns t) stored)
          /\ length stored = Z.to_nat rows_to_insert
          /\ forall other, other <> table_name -> conn_db c' !! other = conn_db c !! other).
Proof.
  cbv zeta.
  rewrite seed_mock_data_paths. cbv zeta. rewrite found, empty.
  remember (insertable (tbl_columns t)) as columns eqn:Hdef.
  destruct columns as [|col0 cols0] eqn:Hcols; [congruence |]. rewrite <- Hcols in *.
  destruct (build_mock_rows_within_reach columns rows_to_insert reach) as [mock_rows Hbuild].
  rewrite Hbuild.
  destruct (build_mock_rows_rows _ _ _ Hbuild) as [Hlen Hrows].
  assert (List.map Field columns <> []) as Hnames by (rewrite Hcols; discriminate).
  exists mock_rows.
  set (c2 := record_call (Execute (describe_query table_name))
               (record_call (Execute (count_query table_name)) c)).
  assert (conn_calls c2 =
            (conn_calls c ++ [Execute (count_query table_name);
                              Execute (describe_query table_name)])%list) as Hc2.
  { unfold c2. cbn [record_call conn_calls]. rewrite <- app_assoc. reflexivity. }
  assert (Forall (fun row : list value => length row = length (List.map Field columns))
            mock_rows) as Hwidth.
  { apply List.Forall_forall. intros row Hrow.
    apply list_elem_of_In, list_elem_of_lookup in Hrow as [i Hi].
    rewrite length_map. symmetry. apply (Forall2_length_eq _ _ _ (Hrows i row Hi)). }
  split; [| split; [| split; [| split; [| split]]]].
  - unfold insert_batch. rewrite <- Hdef.
    pose proof (executemany_calls store (insert_query table_name (List.map Field columns))
                  mock_rows c2) as Hcalls.
    destruct (executemany store _ mock_rows c2) as [[u | e] c3]; cbn [fst snd is_ok] in *.
    + cbn [record_call conn_calls]. rewrite Hcalls, Hc2.
      rewrite <- !app_assoc. reflexivity.
    + rewrite Hcalls, Hc2. rewrite <- !app_assoc. reflexivity.
  - rewrite parse_insert_query by exact Hnames. rewrite length_map. reflexivity.
  - exact Hlen.
  - exact Hrows.
  - intros i j row col Hrow Hcol Htext.
    destruct (Forall2_lookup_l _ _ _ _ _ (Hrows i row Hrow) Hcol) as (v & Hv & Hgen).
    rewrite generate_by_kind, Htext in Hgen.
    destruct (py_str_int _); [| discriminate Hgen]. injection Hgen as <-. exact Hv.
  - intros stored Hstored. unfold insert_batch. rewrite <- Hdef.
    destruct (executemany_accepted store table_name t (List.map Field columns)
                mock_rows stored c2 Hnames) as (c3 & Hexec & _ & Hdb & Hothers);
      [exact found | exact Hwidth | exact Hstored |].
    rewrite Hexec. cbn [fst snd record_call conn_db].
    split; [reflexivity |]. rewrite empty in Hdb. split; [exact Hdb |].
    split; [| exact Hothers].
    rewrite <- (Forall2_length_eq _ _ _ (comprehension_ok _ _ _ Hstored)). exact Hlen.
Qed.

Lemma demo_within_reach : within_reach (insertable (tbl_columns demo_table)) 3.
Proof.
  intros col last Hcol Hlast.
  pose proof DigitFacts.limit_large as Hlarge.
  destruct Hcol as [<- | [<- | []]].
  - change (last_row (classify (Type_ (mk_column "name" "varchar(40)" (Some EmptyString)))))
      with (Some TEXT_LAST_ROW) in Hlast.
    injection Hlast as <-. unfold TEXT_LAST_ROW. lia.
  - vm_compute in Hlast. injection Hlast as <-. lia.
Defined.

Lemma seed_empty_table_witness :
  exists mock_rows : list (list value),
    length mock_rows = 3%nat
    /\ conn_calls (snd (seed_mock_data store_named "people" 3 demo_connection)) =
         ([Execute (count_query "people"); Execute (describe_query "people");
           ExecuteMany (insert_query "people" ["name"; "born"]) mock_rows]
          ++ (if is_ok (fst (seed_mock_data store_named "people" 3 demo_connection))
              then [Commit] else []))%list.
Proof.
  destruct (seed_empty_table store_named "people" 3 demo_connection demo_table)
    as (mock_rows & Hcalls & _ & Hlen & _);
    [reflexivity | reflexivity | discriminate | lia | exact demo_within_reach |].
  exists mock_rows. split; [exact Hlen | exact Hcalls].
Defined.

Lemma build_mock_rows_past_calendar :
  build_mock_rows (insertable (tbl_columns events_table)) 2913175 = Raise OverflowError.
Proof.
  unfold build_mock_rows.
  change 2913175 with (2913174 + 1). rewrite range_succ by lia.
  apply comprehension_raise.
  - intros i Hi. apply range_In in Hi.
    apply comprehension_total. intros col [<- | []].
    apply generate_within_reach; [lia |].
    intros last Hlast. vm_compute in Hlast. injection Hlast as <-. lia.
  - vm_compute. reflexivity.
Qed.

Lemma seed_mock_data_raises
    (store : table -> list string -> list value -> result (list value))
    (name : string) (rows_to_insert : Z) (c : connection) (t : table) (e : exn) :
  conn_db c !! name = Some t ->
  tbl_rows t = [] ->
  insertable (tbl_columns t) <> [] ->
  build_mock_rows (insertable (tbl_columns t)) rows_to_insert = Raise e ->
  seed_mock_data store name rows_to_insert c =
    (Raise e,
     mk_connection (conn_db c)
       (conn_calls c ++ [Execute (count_query name); Execute (describe_query name)])%list).
Proof.
  intros Hfound Hempty Hins Hbuild.
  rewrite seed_mock_data_paths. cbv zeta. rewrite Hfound, Hempty, Hbuild.
  destruct (insertable (tbl_columns t)); [congruence |].
  unfold record_call. cbn [conn_db conn_calls]. rewrite <- app_assoc. reflexivity.
Qed.

(** C1, as stated, fails when the batch runs past the calendar: asked for
    2913175 rows on an empty table with a date column, seeding raises
    [OverflowError] after the two queries and sends no batch. *)
Lemma seed_past_calendar_raises :
  conn_db events_connection !! "events" = Some events_table
  /\ tbl_rows events_table = []
  /\ insertable (tbl_columns events_table) <> []
  /\ seed_mock_data store_named "events" 2913175 events_connection =
       (Raise OverflowError,
        mk_connection (conn_db events_connection)
          (conn_calls events_connection
           ++ [Execute (count_query "events"); Execute (describe_query "events")])%list).
Proof.
  split; [reflexivity |]. split; [reflexivity |]. split; [discriminate |].
  apply (seed_mock_data_raises store_named "events" 2913175 events_connection events_table).
  - reflexivity.
  - reflexivity.
  - discriminate.
  - exact build_mock_rows_past_calendar.
Qed.

(** ** Identifiers in the statements sent *)

Lemma quoted_statement_parse (table_name : string) (fields : list string)
    (operation : string) :
  quoted_statement table_name fields operation ->
  exists st, MySQL.parse operation = Some st
             /\ statement_table st = table_name
             /\ incl (statement_columns st) fields.
Proof.
  intros [ | | | names Hne Hincl].
  - eexists. split; [apply parse_count_query |]. split; [reflexivity | intros x []].
  - eexists. split; [apply parse_describe_query |]. split; [reflexivity | intros x []].
  - eexists. split; [apply parse_select_query |]. split; [reflexivity | intros x []].
  - eexists. split; [apply parse_insert_query; exact Hne |].
    split; [reflexivity | exact Hincl].
Qed.

Lemma insertable_fields (columns : list column) :
  incl (List.map Field (insertable columns)) (List.map Field columns).
Proof.
  intros name Hname. apply in_map_iff in Hname as (col & <- & Hcol).
  apply in_map. unfold insertable in Hcol. apply filter_In in Hcol. apply Hcol.
Qed.

Lemma seed_calls_quoted
    (store : table -> list string -> list value -> result (list value))
    (table_name : string) (rows_to_insert : Z) (c : connection) :
  let fields := match conn_db c !! table_name with
                | Some t => List.map Field (tbl_columns t)
                | None => []
                end in
  exists new_calls,
    conn_calls (snd (seed_mock_data store table_name rows_to_insert c)) =
      (conn_calls c ++ new_calls)%list
    /\ Forall (call_quoted table_name fields) new_calls.
Proof.
  cbv zeta. rewrite seed_mock_data_paths. cbv zeta.
  assert (forall fields, call_quoted table_name fields (Execute (count_query table_name)))
    as Qc by (intros fields op [= <-]; constructor).
  assert (forall fields, call_quoted table_name fields (Execute (describe_query table_name)))
    as Qd by (intros fields op [= <-]; constructor).
  assert (forall fields, call_quoted table_name fields Commit) as Qm
    by (intros fields op [=]).
  destruct (conn_db c !! table_name) as [t |].
  2: { exists [Execute (count_query table_name)]. split; [reflexivity | auto]. }
  destruct (tbl_rows t).
  2: { exists [Execute (count_query table_name)]. split; [reflexivity | auto]. }
  pose proof (insertable_fields (tbl_columns t)) as Hincl.
  destruct (insertable (tbl_columns t)) as [|col cols] eqn:Hins.
  { exists [Execute (count_query table_name); Execute (describe_query table_name)].
    split; [| auto]. unfold record_call. cbn [snd conn_calls]. rewrite <- app_assoc.
    reflexivity. }
  destruct (build_mock_rows (col :: cols) rows_to_insert) as [mock_rows | e].
  2: { exists [Execute (count_query table_name); Execute (describe_query table_name)].
       split; [| auto]. unfold record_call. cbn [snd conn_calls]. rewrite <- app_assoc.
       reflexivity. }
  unfold insert_batch. rewrite Hins.
  set (q := insert_query table_name (List.map Field (col :: cols))).
  assert (call_quoted table_name (List.map Field (tbl_columns t)) (ExecuteMany q mock_rows))
    as Qi.
  { intros op [= <-]. apply quoted_insert; [discriminate | exact Hincl]. }
  match goal with
  | |- context [executemany store q mock_rows ?c2] =>
      pose proof (executemany_calls store q mock_rows c2) as Hcalls;
      destruct (executemany store q mock_rows c2) as [[u | e] c3]
  end; cbn [snd] in Hcalls.
  - exists [Execute (count_query table_name); Execute (describe_query table_name);
            ExecuteMany q mock_rows; Commit].
    split; [| auto 6]. unfold record_call in *. cbn [snd conn_calls] in *.
    rewrite Hcalls, <- !app_assoc. reflexivity.
  - exists [Execute (count_query table_name); Execute (describe_query table_name);
            ExecuteMany q mock_rows].
    split; [| auto 6]. unfold record_call in *. cbn [snd conn_calls] in *.
    rewrite Hcalls, <- !app_assoc. reflexivity.
Qed.

Lemma fetch_table_data_calls (table_name : string) (c : connection) :
  conn_calls (snd (fetch_table_data table_name c)) =
    (conn_calls c ++ [Execute (select_query table_name)])%list.
Proof.
  unfold fetch_table_data. cbv zeta. rewrite select_text.
  unfold bindM. rewrite execute_select.
  destruct (conn_db c !! table_name); reflexivity.
Qed.

(** C8: every statement that seeding and extraction send is one of the
    four texts built with [quote_identifier], which puts the name between
    backticks with its own backticks doubled; the server reads such an
    identifier back as the name itself, whatever follows it, so the
    statement names the given table and only columns of that table. *)
Theorem statements_quote_identifiers
    (store : table -> list string -> list value -> result (list value))
    (table_name : string) (rows_to_insert : Z) (c : connection) :
  let c1 := snd (seed_mock_data store table_name rows_to_insert c) in
  let c2 := snd (fetch_table_data table_name c1) in
  let fields := match conn_db c !! table_name with
                | Some t => List.map Field (tbl_columns t)
                | None => []
                end in
  (forall name rest,
      starts_with_backtick rest = false ->
      quote_identifier name = "`" ++ PyStr.replace "`" "``" name ++ "`"
      /\ MySQL.lex_identifier (quote_identifier name ++ rest) = Some (name, rest))
  /\ exists new_calls,
       conn_calls c2 = (conn_calls c ++ new_calls)%list
       /\ forall x operation,
            In x new_calls -> operation_of x = Some operation ->
            quoted_statement table_name fields operation
            /\ exists st, MySQL.parse operation = Some st
                          /\ statement_table st = table_name
                          /\ incl (statement_columns st) fields.
Proof.
  cbv zeta. split.
  - intros name rest Hrest. split; [reflexivity | apply lex_identifier_quoted, Hrest].
  - destruct (seed_calls_quoted store table_name rows_to_insert c)
      as (calls & Hcalls & Hquoted). cbv zeta in Hquoted.
    exists (calls ++ [Execute (select_query table_name)])%list.
    split.
    + rewrite fetch_table_data_calls, Hcalls, <- app_assoc. reflexivity.
    + intros x op Hx Hop.
      assert (quoted_statement table_name
                match conn_db c !! table_name with
                | Some t => List.map Field (tbl_columns t)
                | None => []
                end op) as Q.
      { apply in_app_or in Hx as [Hx | [<- | []]].
        - rewrite List.Forall_forall in Hquoted. exact (Hquoted x Hx op Hop).
        - injection Hop as <-. constructor. }
      split; [exact Q | apply quoted_statement_parse, Q].
Qed.

(** ** Reading back what the writer wrote *)

Module CsvFacts.

Import Csv.

Local Abbreviation RD recs done acc s il pd :=
  (mk_reader recs (mk_parser done acc s) il pd).

Lemma feed_app (text1 text2 : string) (r : reader) :
  feed r (text1 ++ text2) = let* r' := feed r text1 in feed r' text2.
Proof.
  revert r. induction text1 as [|c text1 IH]; intros r; simpl; [reflexivity |].
  destruct (feed_char r c) as [r' | e]; simpl; [apply IH | reflexivity].
Qed.

Lemma special_false (c : ascii) :
  special c = false ->
  Ascii.eqb c comma = false /\ Ascii.eqb c quote = false
  /\ Ascii.eqb c CR = false /\ Ascii.eqb c LF = false.
Proof.
  unfold special. intros H.
  repeat (apply orb_false_iff in H as [H ?]). auto.
Qed.

(** *** Inside a quoted field *)

Lemma feed_char_quoted (recs : list (list string)) (done : list string) (acc : string)
    (il pd : bool) (c : ascii) :
  Ascii.eqb c quote = false ->
  exists il' pd',
    feed_char (RD recs done acc IN_QUOTED_FIELD il pd) c =
      Ok (RD recs done (acc ++ String c "") IN_QUOTED_FIELD il' pd').
Proof.
  intros Hq. unfold feed_char. cbn [pending_cr].
  destruct (pd && negb (Ascii.eqb c LF))%bool;
    cbn [end_of_line parse_process_char current st bind records];
    rewrite ?Hq; cbn [bind parse_add_char fields field st];
    destruct (Ascii.eqb c LF);
    cbn [end_of_line parse_process_char current st bind records];
    eauto.
Qed.

Lemma feed_char_quote_opens (recs : list (list string)) (done : list string)
    (acc : string) (il pd : bool) :
  feed_char (RD recs done acc IN_QUOTED_FIELD il pd) quote =
    Ok (RD recs done acc QUOTE_IN_QUOTED_FIELD true false).
Proof. destruct pd; reflexivity. Qed.

Lemma feed_char_quote_doubled (recs : list (list string)) (done : list string)
    (acc : string) (il : bool) :
  feed_char (RD recs done acc QUOTE_IN_QUOTED_FIELD il false) quote =
    Ok (RD recs done (acc ++ String quote "") IN_QUOTED_FIELD true false).
Proof. reflexivity. Qed.

Lemma feed_quoted_content (recs : list (list string)) (done : list string) (s : string) :
  forall (acc : string) (il pd : bool),
  exists il' pd',
    feed (RD recs done acc IN_QUOTED_FIELD il pd)
      (PyStr.replace quote (String quote (String quote "")) s) =
      Ok (RD recs done (acc ++ s) IN_QUOTED_FIELD il' pd').
Proof.
  induction s as [|c s IH]; intros acc il pd.
  - exists il, pd. simpl. rewrite append_nil_r. reflexivity.
  - cbn [PyStr.replace]. destruct (Ascii.eqb c quote) eqn:Hq.
    + apply Ascii.eqb_eq in Hq. subst c.
      cbn [String.append feed].
      rewrite feed_char_quote_opens. cbn [bind].
      rewrite feed_char_quote_doubled. cbn [bind].
      destruct (IH (acc ++ String quote "") true false) as (il' & pd' & ->).
      exists il', pd'. rewrite append_assoc. reflexivity.
    + cbn [feed].
      destruct (feed_char_quoted recs done acc il pd c Hq) as (il1 & pd1 & ->).
      cbn [bind].
      destruct (IH (acc ++ String c "") il1 pd1) as (il' & pd' & ->).
      exists il', pd'. rewrite append_assoc. reflexivity.
Qed.

(** *** Inside a field without quotes *)

Lemma feed_char_in_field (recs : list (list string)) (done : list string) (acc : string)
    (il : bool) (c : ascii) :
  special c = false ->
  feed_char (RD recs done acc IN_FIELD il false) c =
    Ok (RD recs done (acc ++ String c "") IN_FIELD true false).
Proof.
  intros H. apply special_false in H as (Hc & Hq & Hr & Hl).
  unfold feed_char.
  cbn [pending_cr andb bind parse_process_char current st records].
  unfold is_newline. rewrite Hl, Hr, Hc. reflexivity.
Qed.

Lemma feed_char_starts_field (recs : list (list string)) (done : list string)
    (il : bool) (c : ascii) :
  special c = false ->
  feed_char (RD recs done "" START_FIELD il false) c =
    Ok (RD recs done (String c "") IN_FIELD true false).
Proof.
  intros H. apply special_false in H as (Hc & Hq & Hr & Hl).
  unfold feed_char.
  cbn [pending_cr andb bind parse_process_char current st records start_field].
  unfold is_newline. rewrite Hl, Hr, Hq, Hc. reflexivity.
Qed.

Lemma feed_in_field (recs : list (list string)) (done : list string) (s : string) :
  needs_quotes s = false ->
  forall (acc : string) (il : bool),
  exists il',
    feed (RD recs done acc IN_FIELD il false) s =
      Ok (RD recs done (acc ++ s) IN_FIELD il' false).
Proof.
  induction s as [|c s IH]; intros Hs acc il.
  - exists il. simpl. rewrite append_nil_r. reflexivity.
  - simpl in Hs. apply orb_false_iff in Hs as [Hc Hs].
    cbn [feed]. rewrite feed_char_in_field by exact Hc. cbn [bind].
    destruct (IH Hs (acc ++ String c "") true) as (il' & ->).
    exists il'. rewrite append_assoc. reflexivity.
Qed.

(** *** A field and what ends it *)

Lemma feed_field (recs : list (list string)) (done : list string) (f : string)
    (il : bool) (d : ascii) :
  d = comma \/ d = CR ->
  feed (RD recs done "" START_FIELD il false) (write_field f ++ String d "") =
    Ok (RD recs (done ++ [f])%list "" (after_field d) true (Ascii.eqb d CR)).
Proof.
  intros Hd. unfold write_field. destruct (needs_quotes f) eqn:Hq.
  - cbn [String.append feed].
    change (feed_char (RD recs done "" START_FIELD il false) quote)
      with (Ok (RD recs done "" IN_QUOTED_FIELD true false)).
    cbn [bind]. rewrite append_assoc, feed_app.
    destruct (feed_quoted_content recs done f "" true false) as (il' & pd' & ->).
    cbn [bind String.append feed].
    rewrite feed_char_quote_opens. cbn [bind].
    destruct Hd as [-> | ->]; reflexivity.
  - destruct f as [|c f].
    + destruct Hd as [-> | ->]; reflexivity.
    + simpl in Hq. apply orb_false_iff in Hq as [Hc Hf].
      cbn [String.append feed].
      rewrite feed_char_starts_field by exact Hc. cbn [bind].
      rewrite feed_app.
      destruct (feed_in_field recs done f Hf (String c "") true) as (il' & ->).
      cbn [bind String.append feed].
      destruct Hd as [-> | ->]; reflexivity.
Qed.

Lemma feed_record_end (recs : list (list string)) (fs : list string) :
  feed (RD recs fs "" EAT_CRNL true true) (String LF "") =
    Ok (mk_reader (recs ++ [fs])%list fresh false false).
Proof. reflexivity. Qed.

Lemma feed_fields (recs : list (list string)) (row : list string) :
  row <> [] ->
  forall (done : list string) (il : bool),
  feed (RD recs done "" START_FIELD il false)
    (PyStr.join (String comma "") (List.map write_field row) ++ CRLF) =
    Ok (mk_reader (recs ++ [(done ++ row)%list])%list fresh false false).
Proof.
  induction row as [|f row IH]; intros Hne done il; [congruence |].
  destruct row as [|f' row].
  - cbn [List.map PyStr.join]. unfold CRLF.
    change (String CR (String LF "")) with (String CR "" ++ String LF "").
    rewrite <- append_assoc, feed_app.
    rewrite feed_field by (right; reflexivity).
    cbn [bind]. apply feed_record_end.
  - change (PyStr.join (String comma "") (List.map write_field (f :: f' :: row)))
      with (write_field f ++ String comma ""
            ++ PyStr.join (String comma "") (List.map write_field (f' :: row))).
    rewrite !append_assoc.
    rewrite <- (append_assoc (write_field f) (String comma "")), feed_app.
    rewrite feed_field by (left; reflexivity).
    cbn [bind]. change (after_field comma) with START_FIELD.
    rewrite IH by discriminate.
    rewrite <- app_assoc. reflexivity.
Qed.

(** *** A whole record, from the start of a line *)

(** At the start of a record a character that is not a line end is
    handled as at the start of a field. *)
Lemma feed_from_record_start (recs : list (list string)) (c : ascii) (text : string) :
  is_newline c = false ->
  feed (mk_reader recs fresh false false) (String c text) =
  feed (RD recs [] "" START_FIELD false false) (String c text).
Proof.
  intros H. cbn [feed]. f_equal. unfold feed_char.
  cbn [pending_cr andb bind parse_process_char current st fresh records].
  rewrite H. reflexivity.
Qed.

Lemma special_newline (c : ascii) : special c = false -> is_newline c = false.
Proof.
  intros H. apply special_false in H as (_ & _ & Hr & Hl).
  unfold is_newline. rewrite Hr, Hl. reflexivity.
Qed.

(** The text of a record that is neither empty nor a single empty field
    starts with a character that is not a line end. *)
Lemma record_text_starts (row : list string) :
  row <> [] -> row <> [EmptyString] ->
  exists c text,
    PyStr.join (String comma "") (List.map write_field row) ++ CRLF = String c text
    /\ is_newline c = false.
Proof.
  intros Hne Hne'. destruct row as [|f row]; [congruence |].
  assert (exists c text, write_field f = String c text /\ is_newline c = false
          \/ f = EmptyString) as Hf.
  { unfold write_field. destruct (needs_quotes f) eqn:Hq.
    - exists quote. eexists. left. split; reflexivity.
    - destruct f as [|c f]; [exists quote, EmptyString; right; reflexivity |].
      simpl in Hq. apply orb_false_iff in Hq as [Hc _].
      exists c, f. left. split; [reflexivity | apply special_newline, Hc]. }
  destruct Hf as (c & text & [[Hw Hc] | ->]).
  - destruct row as [|f' row].
    + cbn [List.map PyStr.join]. rewrite Hw. exists c. eexists. split; [reflexivity | exact Hc].
    + change (PyStr.join (String comma "") (List.map write_field (f :: f' :: row)))
        with (write_field f ++ String comma ""
              ++ PyStr.join (String comma "") (List.map write_field (f' :: row))).
      rewrite Hw. exists c. eexists. split; [reflexivity | exact Hc].
  - destruct row as [|f' row]; [congruence |].
    exists comma. eexists. split; reflexivity.
Qed.

Lemma writerow_join (row : list string) :
  row <> [EmptyString] ->
  writerow row = PyStr.join (String comma "") (List.map write_field row) ++ CRLF.
Proof.
  intros H. unfold writerow.
  destruct row as [|[|c f] [|f' row]]; try reflexivity. congruence.
Qed.

Lemma feed_writerow (recs : list (list string)) (row : list string) :
  feed (mk_reader recs fresh false false) (writerow row) =
    Ok (mk_reader (recs ++ [row])%list fresh false false).
Proof.
  destruct (decide (row = [])) as [-> | Hne]; [reflexivity |].
  destruct (decide (row = [EmptyString])) as [-> | Hne']; [reflexivity |].
  rewrite writerow_join by exact Hne'.
  destruct (record_text_starts row Hne Hne') as (c & text & E & Hc).
  rewrite E, feed_from_record_start by exact Hc. rewrite <- E.
  rewrite feed_fields by exact Hne. reflexivity.
Qed.

Lemma feed_writerows (rows : list (list string)) :
  forall recs : list (list string),
  feed (mk_reader recs fresh false false) (writerows rows) =
    Ok (mk_reader (recs ++ rows)%list fresh false false).
Proof.
  induction rows as [|row rows IH]; intros recs.
  - simpl. rewrite app_nil_r. reflexivity.
  - cbn [writerows]. rewrite feed_app, feed_writerow. cbn [bind].
    rewrite IH, <- app_assoc. reflexivity.
Qed.

(** Reading what [writerows] wrote gives the rows back. *)
Lemma read_writerows (rows : list (list string)) : read (writerows rows) = Ok rows.
Proof. unfold read, start. rewrite feed_writerows. reflexivity. Qed.

End CsvFacts.

Section CsvRoundTrip.

Variable float_repr : SpecFloat.spec_float -> string.

(** The writer has a field for every scalar but an integer of too many
    digits. *)
Lemma cell_str_printable (v : value) :
  printable_value v -> cell_str float_repr v = Ok (cell_text float_repr v).
Proof.
  destruct v as [|z|f|x]; cbn [printable_value cell_str cell_text]; try reflexivity.
  apply py_str_int_ok.
Qed.

Lemma rows_records_printable (rows : list (list value)) :
  Forall (Forall printable_value) rows ->
  rows_records float_repr rows =
    (Csv.writerows (List.map (List.map (cell_text float_repr)) rows), None).
Proof.
  assert (forall row, Forall printable_value row ->
            comprehension (cell_str float_repr) row =
              Ok (List.map (cell_text float_repr) row)) as Hrow.
  { induction row as [|v row IH]; intros H; [reflexivity |].
    apply Forall_cons in H as [Hv Hrest].
    simpl. rewrite (cell_str_printable v Hv), (IH Hrest). reflexivity. }
  induction rows as [|row rows IH]; intros H; [reflexivity |].
  apply Forall_cons in H as [Hfirst Hrest].
  cbn [rows_records List.map Csv.writerows]. unfold row_record.
  rewrite (Hrow row Hfirst), (IH Hrest). reflexivity.
Qed.

Lemma exported_as_cell_text (v : value) :
  printable_value v -> exported_as float_repr v (cell_text float_repr v).
Proof.
  destruct v as [|z|f|x]; cbn [printable_value exported_as cell_text]; try reflexivity.
  intros H. split; [reflexivity | exact (ParseFacts.of_string_decimal z H)].
Qed.

(** C9: for a table whose integers have at most [MAX_STR_DIGITS] digits,
    as every integer of the server has, the export writes one file: the
    header record of the column names followed by one record per row;
    reading the file back gives the column names and, for each row, the
    text of each scalar: nothing for [None], the string itself, and for an
    integer its decimal notation, which [int] reads back as the integer. *)
Theorem csv_round_trip (w : world) (file_path : string) (columns : list string)
    (rows : list (list value))
    (writable : disk_ok w = true)
    (printable : Forall (Forall printable_value) rows) :
  exists records,
    write_csv float_repr w file_path columns rows =
      (Ok tt, [WriteFile file_path (Csv.writerows (columns :: records))])
    /\ length records = length rows
    /\ Csv.read (Csv.writerows (columns :: records)) = Ok (columns :: records)
    /\ Forall2 (Forall2 (exported_as float_repr)) rows records.
Proof.
  exists (List.map (List.map (cell_text float_repr)) rows).
  split; [| split; [| split]].
  - unfold write_csv. rewrite writable, (rows_records_printable rows printable).
    reflexivity.
  - apply length_map.
  - apply CsvFacts.read_writerows.
  - induction printable as [|row rows Hrow Hrows IH]; [constructor |].
    cbn [List.map]. constructor; [| exact IH].
    induction Hrow as [|v row Hv Hrow IHrow]; [constructor |].
    cbn [List.map]. constructor; [exact (exported_as_cell_text v Hv) | exact IHrow].
Qed.

End CsvRoundTrip.

(** The round trip of the specification: the file and what is read back. *)
Lemma csv_round_trip_witness :
  exists records,
    write_csv (fun _ => EmptyString) demo_world "ingesta_mysql.csv" ["id"; "name"]
      [[VInt 1; VStr "a"]; [VInt 2; VStr "b"]] =
      (Ok tt, [WriteFile "ingesta_mysql.csv" (Csv.writerows (["id"; "name"] :: records))])
    /\ Csv.read (Csv.writerows (["id"; "name"] :: records)) =
         Ok (["id"; "name"] :: records)
    /\ Forall2 (Forall2 (exported_as (fun _ => EmptyString)))
         [[VInt 1; VStr "a"]; [VInt 2; VStr "b"]] records
    /\ records = [["1"; "a"]; ["2"; "b"]]
    /\ Csv.writerows (["id"; "name"] :: records) =
         "id,name" ++ CRLF ++ "1,a" ++ CRLF ++ "2,b" ++ CRLF.
Proof.
  pose proof DigitFacts.limit_large as Hlarge.
  destruct (csv_round_trip (fun _ => EmptyString) demo_world "ingesta_mysql.csv"
              ["id"; "name"] [[VInt 1; VStr "a"]; [VInt 2; VStr "b"]])
    as (records & Hwrite & _ & Hread & Hcells).
  - reflexivity.
  - repeat constructor; cbn [printable_value Z.abs]; lia.
  - exists records. split; [exact Hwrite |]. split; [exact Hread |].
    split; [exact Hcells |].
    assert (records = [["1"; "a"]; ["2"; "b"]]) as ->.
    { repeat match goal with
        | H : Forall2 _ (_ :: _) _ |- _ => apply Forall2_cons_inv_l in H as (? & ? & ? & ? & ->)
        | H : Forall2 _ [] _ |- _ => apply Forall2_nil_inv_l in H as ->
        | H : exported_as _ (VInt _) _ |- _ => destruct H as [-> _]
        | H : exported_as _ (VStr _) _ |- _ => cbn [exported_as] in H; subst
        end. reflexivity. }
    split; reflexivity.
Defined.

(** ** Configuration errors and the connection *)

Lemma get_db_config_invalid (environ : gmap string string) :
  connection_settings_invalid environ -> is_ok (get_db_config environ) = false.
Proof.
  unfold connection_settings_invalid, get_db_config.
  intros [H | [H | [H | H]]].
  - rewrite H. reflexivity.
  - destruct (environ !! "MYSQL_USER"); [| reflexivity]. rewrite H. reflexivity.
  - destruct (environ !! "MYSQL_USER"); [| reflexivity].
    destruct (environ !! "MYSQL_PASSWORD"); [| reflexivity]. rewrite H. reflexivity.
  - destruct (environ !! "MYSQL_USER"); [| reflexivity].
    destruct (environ !! "MYSQL_PASSWORD"); [| reflexivity].
    destruct (environ !! "MYSQL_DATABASE"); [| reflexivity].
    cbv zeta. destruct (PyInt.of_string _); [discriminate H | reflexivity].
Qed.

Lemma get_table_name_missing (environ : gmap string string) :
  table_name_missing environ ->
  get_table_name environ =
    Raise (RuntimeError
             "Environment variable MYSQL_TABLE must be set with the table to export").
Proof. unfold get_table_name. intros [-> | ->]; reflexivity. Qed.

(** C7, as amended: a missing connection setting (user, password or
    database) and a port that is not a number end the run before any
    connection is attempted, with nothing done to the outside; a missing
    or empty table name ends the run too, but only once the connection
    has been attempted: when the server accepts it, the run opens the
    connection, sends no statement, and closes it. *)
Theorem configuration_errors_are_fatal
    (store : table -> list string -> list value -> result (list value))
    (float_repr : SpecFloat.spec_float -> string) (w : world)
    (bad : connection_settings_invalid (environ w) \/ table_name_missing (environ w)) :
  is_ok (fst (fst (main store float_repr w))) = false
  /\ (connection_settings_invalid (environ w) ->
      exists e, main store float_repr w = (Raise e, [], server w))
  /\ (table_name_missing (environ w) ->
      forall config, get_db_config (environ w) = Ok config ->
        main store float_repr w =
          match server w with
          | None =>
              (Raise (RuntimeError "Could not connect to MySQL"), [Connect config], None)
          | Some db =>
              (Raise (RuntimeError
                        "Environment variable MYSQL_TABLE must be set with the table to export"),
               [Connect config; Called Close], Some db)
          end).
Proof.
  assert (connection_settings_invalid (environ w) ->
          exists e, main store float_repr w = (Raise e, [], server w)) as Hconfig.
  { intros H. apply get_db_config_invalid in H. unfold main. cbv zeta.
    destruct (get_db_config (environ w)) as [config | e]; [discriminate H |].
    exists e. reflexivity. }
  assert (table_name_missing (environ w) ->
          forall config, get_db_config (environ w) = Ok config ->
            main store float_repr w =
              match server w with
              | None =>
                  (Raise (RuntimeError "Could not connect to MySQL"), [Connect config], None)
              | Some db =>
                  (Raise (RuntimeError
                            "Environment variable MYSQL_TABLE must be set with the table to export"),
                   [Connect config; Called Close], Some db)
              end) as Htable.
  { intros H config Hc. unfold main. cbv zeta. rewrite Hc.
    destruct (server w) as [db |]; [| reflexivity].
    unfold export. rewrite (get_table_name_missing _ H). reflexivity. }
  split; [| split; [exact Hconfig | exact Htable]].
  destruct (get_db_config (environ w)) as [config | e] eqn:Hc.
  - destruct bad as [H | H].
    + apply get_db_config_invalid in H. rewrite Hc in H. discriminate H.
    + rewrite (Htable H config eq_refl). destruct (server w); reflexivity.
  - unfold main. cbv zeta. rewrite Hc. reflexivity.
Qed.

Lemma configuration_errors_are_fatal_witness :
  is_ok (fst (fst (main store_named (fun _ => EmptyString) world_without_user))) = false
  /\ exists e,
       main store_named (fun _ => EmptyString) world_without_user =
         (Raise e, [], server world_without_user).
Proof.
  assert (connection_settings_invalid (environ world_without_user)) as H
    by (left; reflexivity).
  destruct (configuration_errors_are_fatal store_named (fun _ => EmptyString)
              world_without_user (or_introl H)) as (Hfatal & Hconfig & _).
  split; [exact Hfatal | exact (Hconfig H)].
Defined.

(** C7, as stated, fails for the table name: without it the run still
    opens a connection to the server before it reports the error. *)
Lemma missing_table_name_opens_connection :
  environ world_without_table !! "MYSQL_TABLE" = None
  /\ main store_named (fun _ => EmptyString) world_without_table =
       (Raise (RuntimeError
                 "Environment variable MYSQL_TABLE must be set with the table to export"),
        [Connect (mk_db_config "localhost" 3306 "u" "p" "d"); Called Close],
        server world_without_table)
  /\ In (Connect (mk_db_config "localhost" 3306 "u" "p" "d"))
       (snd (fst (main store_named (fun _ => EmptyString) world_without_table))).
Proof.
  assert (main store_named (fun _ => EmptyString) world_without_table =
            (Raise (RuntimeError
                      "Environment variable MYSQL_TABLE must be set with the table to export"),
             [Connect (mk_db_config "localhost" 3306 "u" "p" "d"); Called Close],
             server world_without_table)) as E by (vm_compute; reflexivity).
  split; [reflexivity |]. split; [exact E |].
  rewrite E. left. reflexivity.
Qed.

(** * Part IV: further properties of the program *)

(** ** The reach of the generator *)

Section GeneratorReach.
Import PyDatetime.

Lemma new_timedelta_raises (days hours seconds : Z) (e : exn) :
  new_timedelta days hours seconds = Raise e -> e = OverflowError.
Proof.
  unfold new_timedelta. cbv zeta.
  destruct (_ <? _); intros H; [injection H as <-; reflexivity | discriminate H].
Qed.

Lemma datetime_add_raises (self : datetime) (other : timedelta) (e : exn) :
  datetime_add self other = Raise e -> e = OverflowError.
Proof.
  unfold datetime_add.
  destruct (new_timedelta _ _ _) as [d1 | e1] eqn:H1; cbn [bind].
  - destruct (new_timedelta _ 0 _) as [d2 | e2] eqn:H2; cbn [bind].
    + destruct (_ && _)%bool.
      * destruct (ord2ymd _) as [[y m] d]. discriminate.
      * intros H. injection H as <-. reflexivity.
    + intros H. injection H as <-. exact (new_timedelta_raises _ _ _ _ H2).
  - intros H. injection H as <-. exact (new_timedelta_raises _ _ _ _ H1).
Qed.

Lemma mock_datetime_overflow (row_index : Z) :
  DATETIME_LAST_ROW < row_index -> mock_datetime row_index = Raise OverflowError.
Proof.
  unfold DATETIME_LAST_ROW. intros H. unfold mock_datetime.
  destruct (Z.ltb_spec 999999999 (Z.abs (0 + (row_index * 3600 + 0) / 86400)))
    as [Big | Small].
  - rewrite new_timedelta_overflow by exact Big. reflexivity.
  - rewrite new_timedelta_ok by exact Small. cbn [bind].
    rewrite datetime_add_value
      by (rewrite ?anchor_ordinal; unfold MAXORDINAL;
          Z.to_euclidean_division_equations; lia).
    cbv zeta. rewrite anchor_ordinal. unfold MAXORDINAL.
    match goal with
    | |- context [?d <=? 3652059] =>
        destruct (Z.leb_spec d 3652059) as [Le | Gt];
        [exfalso; Z.to_euclidean_division_equations; lia |]
    end.
    rewrite andb_false_r. reflexivity.
Qed.

End GeneratorReach.

Lemma py_float_overflow (n : Z) :
  FLOAT_OVERFLOW <= Z.abs n -> py_float n = Raise OverflowError.
Proof.
  intros H. unfold py_float.
  destruct (Z.ltb_spec (Z.abs n) FLOAT_OVERFLOW); [lia | reflexivity].
Qed.

(** The generator raises nothing but the exception of the kind. *)
Lemma generate_raises (rawType column_name : string) (any_row : Z) (e : exn) :
  generate_mock_value rawType column_name any_row = Raise e ->
  e = raised_by (classify rawType).
Proof.
  rewrite generate_by_kind.
  assert (forall r : result string, forall s : string,
            (let* digits := r in Ok (VStr s)) = Raise e ->
            r = py_str_int (any_row + 1) -> e = ValueError) as Htext.
  { intros r s H ->. unfold py_str_int in H. destruct (Nat.leb _ _); [discriminate H |].
    injection H as <-. reflexivity. }
  destruct (classify rawType); cbn [raised_by]; try discriminate.
  - unfold py_float. destruct (_ <? _); cbn [bind]; [discriminate |].
    intros H. injection H as <-. reflexivity.
  - unfold mock_date.
    destruct (PyDatetime.new_timedelta _ _ _) as [d | e1] eqn:H1; cbn [bind].
    + destruct (PyDatetime.datetime_add _ _) as [dt | e2] eqn:H2; cbn [bind];
        [discriminate |].
      intros H. injection H as <-. exact (datetime_add_raises _ _ _ H2).
    + intros H. injection H as <-. exact (new_timedelta_raises _ _ _ _ H1).
  - unfold mock_datetime.
    destruct (PyDatetime.new_timedelta _ _ _) as [d | e1] eqn:H1; cbn [bind].
    + destruct (PyDatetime.datetime_add _ _) as [dt | e2] eqn:H2; cbn [bind];
        [discriminate |].
      intros H. injection H as <-. exact (datetime_add_raises _ _ _ H2).
    + intros H. injection H as <-. exact (new_timedelta_raises _ _ _ _ H1).
  - intros H. exact (Htext _ _ H eq_refl).
  - intros H. exact (Htext _ _ H eq_refl).
  - intros H. exact (Htext _ _ H eq_refl).
Qed.

(** X1: at a row [n >= 0] the generator has a value exactly when [n] is
    at most the last row of the column's kind: 2913173 for a date,
    69916163 for a date-time, [2^1024 - 2^970 - 2] for a decimal,
    [10^4300 - 2] for the text, json and fallback kinds, whose ordinal
    must have at most [MAX_STR_DIGITS] digits, and no limit for the
    integer and boolean kinds.  At any row whatsoever the only exception
    it raises is the one of the kind: [ValueError] for the text, json and
    fallback kinds, [OverflowError] for the others. *)
Theorem generate_reach (rawType column_name : string) (row_index : Z)
    (nonneg : 0 <= row_index) :
  (is_ok (generate_mock_value rawType column_name row_index) = true <->
   forall last, last_row (classify rawType) = Some last -> row_index <= last)
  /\ forall (any_row : Z) (e : exn),
       generate_mock_value rawType column_name any_row = Raise e ->
       e = raised_by (classify rawType).
Proof.
  split.
  - split.
    + intros Hok last Hlast.
      destruct (Z.le_gt_cases row_index last) as [Le | Gt]; [exact Le | exfalso].
      rewrite generate_by_kind in Hok.
      destruct (classify rawType); cbn [last_row] in Hlast; try discriminate Hlast;
        injection Hlast as <-.
      * rewrite py_float_overflow in Hok by lia. discriminate Hok.
      * rewrite mock_date_overflow in Hok by lia. discriminate Hok.
      * rewrite mock_datetime_overflow in Hok by lia. discriminate Hok.
      * unfold TEXT_LAST_ROW in Gt. rewrite py_str_int_raises in Hok by lia.
        discriminate Hok.
      * unfold TEXT_LAST_ROW in Gt. rewrite py_str_int_raises in Hok by lia.
        discriminate Hok.
      * unfold TEXT_LAST_ROW in Gt. rewrite py_str_int_raises in Hok by lia.
        discriminate Hok.
    + intros Hlast.
      destruct (generate_within_reach rawType column_name row_index nonneg Hlast)
        as [v ->]. reflexivity.
  - apply generate_raises.
Qed.

Lemma generate_reach_witness :
  (is_ok (generate_mock_value "timestamp" "seen" 100) = true <->
   forall last, last_row (classify "timestamp") = Some last -> 100 <= last)
  /\ forall (any_row : Z) (e : exn),
       generate_mock_value "timestamp" "seen" any_row = Raise e ->
       e = raised_by (classify "timestamp").
Proof. apply (generate_reach "timestamp" "seen" 100). lia. Defined.

(** ** Values of different rows *)

Lemma decimal_inj (n m : Z) : PyStr.decimal n = PyStr.decimal m -> n = m.
Proof.
  unfold PyStr.decimal. intros H.
  assert (forall z, NilZero.int_of_string (NilZero.string_of_int (Z.to_int z))
                    = Some (Z.to_int z)) as R.
  { intros z. apply NilZero.isi; destruct z; simpl; try discriminate;
      intros E; injection E as E; exact (DecimalPos.Unsigned.to_uint_nonnil _ E). }
  apply DecimalZ.to_int_inj.
  pose proof (R n) as Rn. rewrite H, R in Rn. injection Rn as Rn. symmetry. exact Rn.
Qed.

Lemma append_inj_r (a b x : string) : a ++ x = b ++ x -> a = b.
Proof.
  revert b. induction a as [|c a IH]; intros [|d b] H.
  - reflexivity.
  - apply (f_equal String.length) in H. simpl in H. rewrite length_append in H. lia.
  - apply (f_equal String.length) in H. simpl in H. rewrite length_append in H. lia.
  - simpl in H. injection H as -> H. f_equal. apply IH, H.
Qed.

Lemma mock_text_inj (column_name : string) (n m : Z) :
  mock_text column_name n = mock_text column_name m -> n = m.
Proof.
  unfold mock_text. intros H.
  do 3 apply String.app_inj in H. apply decimal_inj in H. lia.
Qed.

Lemma mock_json_inj (column_name : string) (n m : Z) :
  mock_json column_name n = mock_json column_name m -> n = m.
Proof.
  unfold mock_json. intros H.
  do 8 apply String.app_inj in H.
  apply append_inj_r, decimal_inj in H. lia.
Qed.

Lemma Ok_VStr_inj (a b : string) : Ok (VStr a) = Ok (VStr b) -> a = b.
Proof. intros H. congruence. Qed.

(** X2: for the integer, text, json and fallback kinds two different rows
    never get the same value, so a column that must hold distinct values
    can be seeded with any number of rows the generator has values for;
    the boolean kind has only two values and gives row [n + 2] the value
    of row [n]. *)
Theorem generate_distinct_rows (rawType column_name : string) (n m : Z) (v : value)
    (value_n : generate_mock_value rawType column_name n = Ok v)
    (value_m : generate_mock_value rawType column_name m = Ok v) :
  match classify rawType with
  | UnsignedInteger | SignedInteger | Text | Json | Unknown => n = m
  | Boolean =>
      generate_mock_value rawType column_name (n + 2) =
        generate_mock_value rawType column_name n
      /\ exists b, (b = 0 \/ b = 1)
                   /\ generate_mock_value rawType column_name n = Ok (VInt b)
  | Decimal | Date | DateTime => True
  end.
Proof.
  assert (forall (r : result string) (s : string) (u : value),
            (let* digits := r in Ok (VStr s)) = Ok u -> u = VStr s) as Htext.
  { intros [d | e] s u H; [injection H as <-; reflexivity | discriminate H]. }
  rewrite !generate_by_kind in *.
  destruct (classify rawType); try exact I.
  - injection value_n as <-. injection value_m as E. lia.
  - injection value_n as <-. injection value_m as E. lia.
  - split.
    + replace ((n + 2) mod 2) with (n mod 2)
        by (Z.to_euclidean_division_equations; lia).
      reflexivity.
    + exists (n mod 2). split; [| reflexivity].
      pose proof (Z.mod_pos_bound n 2). lia.
  - apply Htext in value_n, value_m.
    apply (mock_text_inj column_name). congruence.
  - apply Htext in value_n, value_m.
    apply (mock_json_inj column_name). congruence.
  - apply Htext in value_n, value_m.
    apply (mock_text_inj column_name). congruence.
Qed.

Lemma generate_distinct_rows_witness :
  generate_mock_value "tinyint(1)" "flag" (1 + 2) = generate_mock_value "tinyint(1)" "flag" 1
  /\ exists b, (b = 0 \/ b = 1) /\ generate_mock_value "tinyint(1)" "flag" 1 = Ok (VInt b).
Proof.
  exact (generate_distinct_rows "tinyint(1)" "flag" 1 3 (VInt 1) eq_refl eq_refl).
Defined.

(** ** What seeding does to the database *)

Section SeedingEffects.

Variable store : table -> list string -> list value -> result (list value).

(** The batch either adds the stored rows to the named table or, when the
    server refuses it, changes nothing. *)
Lemma executemany_effect (name : string) (t : table) (column_names : list string)
    (mock_rows : list (list value)) (c : connection) :
  column_names <> [] ->
  conn_db c !! name = Some t ->
  let '(outcome, c') := executemany store (insert_query name column_names) mock_rows c in
  conn_calls c' =
    (conn_calls c ++ [ExecuteMany (insert_query name column_names) mock_rows])%list
  /\ match outcome with
     | Ok _ =>
         exists stored,
           (mock_rows = [] \/
            (Forall (fun row => length row = length column_names) mock_rows
             /\ comprehension (store t column_names) mock_rows = Ok stored))
           /\ length stored = length mock_rows
           /\ conn_db c' !! name = Some (mk_table (tbl_columns t) (tbl_rows t ++ stored)%list)
           /\ forall other, other <> name -> conn_db c' !! other = conn_db c !! other
     | Raise _ => mock_rows <> [] /\ conn_db c' = conn_db c
     end.
Proof.
  intros Hne Hfound. unfold executemany. cbv zeta.
  destruct mock_rows as [|row rows].
  - split; [reflexivity |]. exists []. cbn [record_call conn_db length].
    split; [left; reflexivity |]. split; [reflexivity |].
    rewrite app_nil_r. destruct t. auto.
  - rewrite parse_insert_query by exact Hne.
    cbn [record_call conn_db]. rewrite Hfound.
    destruct (forallb _ (row :: rows)) eqn:Hwidth.
    + destruct (comprehension (store t column_names) (row :: rows)) as [stored | e] eqn:Hs.
      * split; [reflexivity |]. exists stored. cbn [conn_db].
        split.
        { right. split; [| reflexivity].
          apply List.Forall_forall. intros r Hr.
          rewrite forallb_forall in Hwidth. apply Nat.eqb_eq, Hwidth, Hr. }
        split; [symmetry; exact (Forall2_length_eq _ _ _ (comprehension_ok _ _ _ Hs)) |].
        split; [apply lookup_insert_eq |].
        intros other Hother. apply lookup_insert_ne. congruence.
      * split; [reflexivity |]. split; [discriminate | reflexivity].
    + split; [reflexivity |]. split; [discriminate | reflexivity].
Qed.

(** X3: whatever it is asked and however it ends, seeding leaves every
    other table as it was and never removes or alters what the named table
    holds: the table keeps its columns and its rows, with the new rows
    after them; a table that had rows gets none, and a seeding that raises
    leaves the database as it found it. *)
Theorem seed_only_appends (table_name : string) (rows_to_insert : Z) (c : connection) :
  let outcome := fst (seed_mock_data store table_name rows_to_insert c) in
  let c' := snd (seed_mock_data store table_name rows_to_insert c) in
  (forall other, other <> table_name -> conn_db c' !! other = conn_db c !! other)
  /\ match conn_db c !! table_name with
     | None => conn_db c' !! table_name = None
     | Some t =>
         exists added,
           conn_db c' !! table_name =
             Some (mk_table (tbl_columns t) (tbl_rows t ++ added)%list)
           /\ (tbl_rows t <> [] -> added = [])
     end
  /\ (is_ok outcome = false -> conn_db c' = conn_db c).
Proof.
  cbv zeta. rewrite seed_mock_data_paths. cbv zeta.
  destruct (conn_db c !! table_name) as [t |] eqn:Hfound.
  2: { cbn [fst snd record_call conn_db]. rewrite Hfound. auto. }
  assert (conn_db c !! table_name = Some (mk_table (tbl_columns t) (tbl_rows t ++ []))) as Hsame
    by (rewrite app_nil_r; destruct t; exact Hfound).
  destruct (tbl_rows t) as [|r rows] eqn:Hrows.
  2: { cbn [fst snd record_call conn_db]. split; [auto |]. split; [| auto].
       exists []. split; [exact Hsame | auto]. }
  destruct (insertable (tbl_columns t)) as [|col cols] eqn:Hins.
  { cbn [fst snd record_call conn_db]. split; [auto |]. split; [| auto].
    exists []. split; [exact Hsame | auto]. }
  destruct (build_mock_rows (col :: cols) rows_to_insert) as [mock_rows | e].
  2: { cbn [fst snd record_call conn_db]. split; [auto |]. split; [| auto].
       exists []. split; [exact Hsame | auto]. }
  unfold insert_batch. rewrite Hins.
  set (c2 := record_call (Execute (describe_query table_name))
               (record_call (Execute (count_query table_name)) c)).
  pose proof (executemany_effect table_name t (List.map Field (col :: cols)) mock_rows c2
                ltac:(discriminate) Hfound) as Heff.
  destruct (executemany store _ mock_rows c2) as [[u | e] c3].
  - destruct Heff as (_ & stored & _ & _ & Hdb & Hothers).
    cbn [fst snd record_call conn_db is_ok].
    split; [exact Hothers |]. split; [| discriminate].
    exists stored. rewrite Hrows in Hdb. split; [exact Hdb | congruence].
  - destruct Heff as (_ & _ & Hdb). cbn [fst snd is_ok]. rewrite Hdb.
    cbn [c2 record_call conn_db]. split; [auto |]. split; [| auto].
    exists []. split; [exact Hsame | auto].
Qed.

(** X4: on an empty table whose columns are all generated by the server,
    seeding asks for the row count and the columns and stops there: no
    insert, no commit, nothing changed, result [None]. *)
Theorem seed_without_insertable_columns (table_name : string) (rows_to_insert : Z)
    (c : connection) (t : table)
    (found : conn_db c !! table_name = Some t)
    (empty : tbl_rows t = [])
    (none_insertable : insertable (tbl_columns t) = []) :
  seed_mock_data store table_name rows_to_insert c =
    (Ok VNone,
     mk_connection (conn_db c)
       (conn_calls c ++ [Execute (count_query table_name);
                         Execute (describe_query table_name)])%list).
Proof.
  rewrite seed_mock_data_paths. cbv zeta. rewrite found, empty, none_insertable.
  unfold record_call. cbn [conn_db conn_calls]. rewrite <- app_assoc. reflexivity.
Qed.

(** X5: asked for no rows, or for a negative number of them, seeding an
    empty table still sends the batch call, with no rows in it, and
    commits; the database is unchanged. *)
Theorem seed_no_rows (table_name : string) (rows_to_insert : Z) (c : connection) (t : table)
    (found : conn_db c !! table_name = Some t)
    (empty : tbl_rows t = [])
    (some_insertable : insertable (tbl_columns t) <> [])
    (none_asked : rows_to_insert <= 0) :
  seed_mock_data store table_name rows_to_insert c =
    (Ok VNone,
     mk_connection (conn_db c)
       (conn_calls c
        ++ [Execute (count_query table_name); Execute (describe_query table_name);
            ExecuteMany
              (insert_query table_name (List.map Field (insertable (tbl_columns t)))) [];
            Commit])%list).
Proof.
  rewrite seed_mock_data_paths. cbv zeta. rewrite found, empty.
  assert (build_mock_rows (insertable (tbl_columns t)) rows_to_insert = Ok []) as ->.
  { unfold build_mock_rows, range.
    replace (Z.to_nat rows_to_insert) with 0%nat by lia. reflexivity. }
  destruct (insertable (tbl_columns t)) as [|col cols] eqn:Hins; [congruence |].
  unfold insert_batch, executemany, record_call. cbn [conn_db conn_calls].
  rewrite Hins, <- !app_assoc. reflexivity.
Qed.

End SeedingEffects.

Lemma seed_without_insertable_columns_witness :
  seed_mock_data store_named "counter" 3 counter_connection =
    (Ok VNone,
     mk_connection (conn_db counter_connection)
       (conn_calls counter_connection
        ++ [Execute (count_query "counter"); Execute (describe_query "counter")])%list).
Proof.
  apply (seed_without_insertable_columns store_named "counter" 3 counter_connection
           counter_table); reflexivity.
Defined.

Lemma seed_no_rows_witness :
  seed_mock_data store_named "people" (-4) demo_connection =
    (Ok VNone,
     mk_connection (conn_db demo_connection)
       (conn_calls demo_connection
        ++ [Execute (count_query "people"); Execute (describe_query "people");
            ExecuteMany
              (insert_query "people" (List.map Field (insertable (tbl_columns demo_table))))
              [];
            Commit])%list).
Proof.
  apply (seed_no_rows store_named "people" (-4) demo_connection demo_table);
    [reflexivity | reflexivity | discriminate | lia].
Defined.

(** ** Seeding again, and reading what was seeded *)

Section SeedThenRead.

Variable store : table -> list string -> list value -> result (list value).

(** A seeding of an empty table that returns has stored one row per row
    asked for. *)
Lemma seed_success_rows (table_name : string) (rows_to_insert : Z) (c : connection)
    (t : table) (v : value) :
  conn_db c !! table_name = Some t ->
  tbl_rows t = [] ->
  insertable (tbl_columns t) <> [] ->
  fst (seed_mock_data store table_name rows_to_insert c) = Ok v ->
  exists stored,
    conn_db (snd (seed_mock_data store table_name rows_to_insert c)) !! table_name =
      Some (mk_table (tbl_columns t) stored)
    /\ length stored = Z.to_nat rows_to_insert.
Proof.
  intros Hfound Hempty Hins. rewrite seed_mock_data_paths. cbv zeta.
  rewrite Hfound, Hempty.
  destruct (insertable (tbl_columns t)) as [|col cols] eqn:Hcols; [congruence |].
  destruct (build_mock_rows (col :: cols) rows_to_insert) as [mock_rows | e] eqn:Hbuild;
    [| discriminate].
  destruct (build_mock_rows_rows _ _ _ Hbuild) as [Hlen _].
  unfold insert_batch. rewrite Hcols.
  set (c2 := record_call (Execute (describe_query table_name))
               (record_call (Execute (count_query table_name)) c)).
  pose proof (executemany_effect store table_name t (List.map Field (col :: cols))
                mock_rows c2 ltac:(discriminate) Hfound) as Heff.
  destruct (executemany store _ mock_rows c2) as [[u | e] c3]; [| discriminate].
  destruct Heff as (_ & stored & _ & Hstored & Hdb & _).
  intros _. exists stored. cbn [snd record_call conn_db].
  rewrite Hempty in Hdb. split; [exact Hdb | congruence].
Qed.

(** X6: once an empty table has been seeded with at least one row, a
    second seeding, whatever number of rows it is asked for, only asks for
    the row count: it inserts nothing and leaves the database as the first
    seeding left it. *)
Theorem seed_twice (table_name : string) (rows_to_insert again : Z) (c : connection)
    (t : table) (v : value)
    (found : conn_db c !! table_name = Some t)
    (empty : tbl_rows t = [])
    (some_insertable : insertable (tbl_columns t) <> [])
    (some_rows : 0 < rows_to_insert)
    (seeded : fst (seed_mock_data store table_name rows_to_insert c) = Ok v) :
  let c1 := snd (seed_mock_data store table_name rows_to_insert c) in
  seed_mock_data store table_name again c1 =
    (Ok VNone,
     mk_connection (conn_db c1) (conn_calls c1 ++ [Execute (count_query table_name)])).
Proof.
  cbv zeta.
  destruct (seed_success_rows table_name rows_to_insert c t v found empty some_insertable
              seeded) as (stored & Hdb & Hlen).
  rewrite (seed_mock_data_paths store table_name again). cbv zeta. rewrite Hdb.
  cbn [tbl_rows]. destruct stored as [|row stored]; [simpl in Hlen; lia | reflexivity].
Qed.

(** A comprehension that raises does so at one of its elements. *)
Lemma comprehension_raises_at {A B : Type} (f : A -> result B) (l : list A) (e : exn) :
  comprehension f l = Raise e -> exists x, In x l /\ f x = Raise e.
Proof.
  induction l as [|y l IH]; simpl; [discriminate |].
  destruct (f y) as [b | e1] eqn:Hy; cbn [bind].
  - destruct (comprehension f l) as [bs | e2]; cbn [bind]; [discriminate |].
    intros H. injection H as <-. destruct (IH eq_refl) as (x & Hx & Hfx).
    exists x. split; [right; exact Hx | exact Hfx].
  - intros H. injection H as <-. exists y. split; [left; reflexivity | exact Hy].
Qed.

(** X7: the rows of a batch are all generated before anything is sent: if
    the generator has no value for some insertable column at some row of
    the batch, seeding an empty table raises after its two queries, sends
    no insert and leaves the database unchanged.  The exception is the one
    of the generator, [OverflowError] or [ValueError], and it is
    [OverflowError] for every batch of fewer than [10^4300] rows. *)
Theorem seed_generation_failure (table_name : string) (rows_to_insert : Z)
    (c : connection) (t : table) (col : column) (row_index : Z)
    (found : conn_db c !! table_name = Some t)
    (empty : tbl_rows t = [])
    (is_insertable : In col (insertable (tbl_columns t)))
    (in_batch : 0 <= row_index < rows_to_insert)
    (no_value : is_ok (generate_mock_value (Type_ col) (Field col) row_index) = false) :
  exists e,
    seed_mock_data store table_name rows_to_insert c =
      (Raise e,
       mk_connection (conn_db c)
         (conn_calls c ++ [Execute (count_query table_name);
                           Execute (describe_query table_name)])%list)
    /\ (e = OverflowError \/ e = ValueError)
    /\ (rows_to_insert < INT_STR_LIMIT -> e = OverflowError).
Proof.
  destruct (build_mock_rows (insertable (tbl_columns t)) rows_to_insert)
    as [mock_rows | e] eqn:Hbuild.
  { exfalso. unfold build_mock_rows in Hbuild.
    apply comprehension_ok in Hbuild.
    assert (In row_index (range rows_to_insert)) as Hrow by (apply range_In; exact in_batch).
    apply list_elem_of_In, list_elem_of_lookup in Hrow as [i Hi].
    destruct (Forall2_lookup_l _ _ _ _ _ Hbuild Hi) as (row & _ & Hrow).
    apply comprehension_ok in Hrow.
    apply list_elem_of_In, list_elem_of_lookup in is_insertable as [j Hj].
    destruct (Forall2_lookup_l _ _ _ _ _ Hrow Hj) as (b & _ & Hb).
    rewrite Hb in no_value. discriminate no_value. }
  exists e. split.
  - apply (seed_mock_data_raises store table_name rows_to_insert c t e found empty);
      [| exact Hbuild].
    intros E. rewrite E in is_insertable. destruct is_insertable.
  - unfold build_mock_rows in Hbuild.
    apply comprehension_raises_at in Hbuild as (i & Hi & Hrow).
    apply comprehension_raises_at in Hrow as (col' & _ & Hcell).
    apply range_In in Hi.
    pose proof (generate_raises _ _ _ _ Hcell) as He.
    split.
    + rewrite He. destruct (classify (Type_ col')); cbn [raised_by]; auto.
    + intros Hsmall. rewrite generate_by_kind in Hcell.
      destruct (classify (Type_ col')); cbn [raised_by] in He; try exact He;
        rewrite py_str_int_ok in Hcell by lia; discriminate Hcell.
Qed.

(** X8: for every table name, backticks included, extraction sends one
    select and returns the names of all the columns of that very table, in
    schema order, with its rows as they are stored; it raises when the
    database has no table of that name, and changes nothing either way. *)
Theorem fetch_table_data_reads (table_name : string) (c : connection) :
  fetch_table_data table_name c =
    (match conn_db c !! table_name with
     | Some t => Ok (List.map Field (tbl_columns t), tbl_rows t)
     | None => Raise (MySQLError "unknown table")
     end,
     mk_connection (conn_db c) (conn_calls c ++ [Execute (select_query table_name)]))
  /\ MySQL.parse (select_query table_name) = Some (MySQL.SelectAll table_name).
Proof.
  split; [| apply parse_select_query].
  unfold fetch_table_data. cbv zeta. rewrite select_text.
  unfold bindM. rewrite execute_select.
  destruct (conn_db c !! table_name); reflexivity.
Qed.

(** X9: extraction after a seeding that returned, on a table that was
    empty, gives the names of all the columns, generated ones included,
    and exactly as many rows as were asked for. *)
Theorem seed_then_fetch (table_name : string) (rows_to_insert : Z) (c : connection)
    (t : table) (v : value)
    (found : conn_db c !! table_name = Some t)
    (empty : tbl_rows t = [])
    (some_insertable : insertable (tbl_columns t) <> [])
    (seeded : fst (seed_mock_data store table_name rows_to_insert c) = Ok v) :
  exists rows,
    fst (fetch_table_data table_name
           (snd (seed_mock_data store table_name rows_to_insert c))) =
      Ok (List.map Field (tbl_columns t), rows)
    /\ length rows = Z.to_nat rows_to_insert.
Proof.
  destruct (seed_success_rows table_name rows_to_insert c t v found empty some_insertable
              seeded) as (stored & Hdb & Hlen).
  exists stored. split; [| exact Hlen].
  unfold fetch_table_data. cbv zeta. rewrite select_text.
  unfold bindM. rewrite execute_select, Hdb. reflexivity.
Qed.

End SeedThenRead.

Lemma seed_twice_witness :
  let c1 := snd (seed_mock_data store_named "people" 3 demo_connection) in
  seed_mock_data store_named "people" 7 c1 =
    (Ok VNone,
     mk_connection (conn_db c1) (conn_calls c1 ++ [Execute (count_query "people")])).
Proof.
  apply (seed_twice store_named "people" 3 7 demo_connection demo_table VNone).
  - reflexivity.
  - reflexivity.
  - discriminate.
  - lia.
  - vm_compute. reflexivity.
Defined.

Lemma seed_generation_failure_witness :
  seed_mock_data store_named "events" 2913175 events_connection =
    (Raise OverflowError,
     mk_connection (conn_db events_connection)
       (conn_calls events_connection
        ++ [Execute (count_query "events"); Execute (describe_query "events")])%list).
Proof.
  destruct (seed_generation_failure store_named "events" 2913175 events_connection
              events_table (mk_column "day" "date" (Some "")) 2913174)
    as (e & Hseed & _ & Hsmall).
  - reflexivity.
  - reflexivity.
  - left. reflexivity.
  - lia.
  - vm_compute. reflexivity.
  - rewrite <- Hsmall; [exact Hseed |].
    pose proof DigitFacts.limit_large. lia.
Defined.

Lemma seed_then_fetch_witness :
  exists rows,
    fst (fetch_table_data "people"
           (snd (seed_mock_data store_named "people" 3 demo_connection))) =
      Ok (List.map Field (tbl_columns demo_table), rows)
    /\ length rows = Z.to_nat 3.
Proof.
  apply (seed_then_fetch store_named "people" 3 demo_connection demo_table VNone).
  - reflexivity.
  - reflexivity.
  - discriminate.
  - vm_compute. reflexivity.
Defined.

(** ** The run as a whole *)

Section RunFacts.

Variable store : table -> list string -> list value -> result (list value).

Variable float_repr : SpecFloat.spec_float -> string.

Lemma seed_calls_no_close (table_name : string) (rows_to_insert : Z) (c : connection) :
  exists new_calls,
    conn_calls (snd (seed_mock_data store table_name rows_to_insert c)) =
      (conn_calls c ++ new_calls)%list
    /\ ~ In Close new_calls.
Proof.
  rewrite seed_mock_data_paths. cbv zeta.
  assert (forall l : list call, Forall (fun x => x <> Close) l -> ~ In Close l) as Hno.
  { intros l Hl Hin. rewrite Forall_forall in Hl.
    apply list_elem_of_In in Hin. exact (Hl _ Hin eq_refl). }
  destruct (conn_db c !! table_name) as [t |].
  2: { exists [Execute (count_query table_name)]. split; [reflexivity |].
       apply Hno. repeat constructor; discriminate. }
  destruct (tbl_rows t).
  2: { exists [Execute (count_query table_name)]. split; [reflexivity |].
       apply Hno. repeat constructor; discriminate. }
  destruct (insertable (tbl_columns t)) as [|col cols] eqn:Hins.
  { exists [Execute (count_query table_name); Execute (describe_query table_name)].
    split; [| apply Hno; repeat constructor; discriminate ].
    unfold record_call. cbn [snd conn_calls]. rewrite <- app_assoc. reflexivity. }
  destruct (build_mock_rows (col :: cols) rows_to_insert) as [mock_rows | e].
  2: { exists [Execute (count_query table_name); Execute (describe_query table_name)].
       split; [| apply Hno; repeat constructor; discriminate ].
       unfold record_call. cbn [snd conn_calls]. rewrite <- app_assoc. reflexivity. }
  unfold insert_batch. rewrite Hins.
  set (q := insert_query table_name (List.map Field (col :: cols))).
  match goal with
  | |- context [executemany store q mock_rows ?c2] =>
      pose proof (executemany_calls store q mock_rows c2) as Hcalls;
      destruct (executemany store q mock_rows c2) as [[u | e] c3]
  end; cbn [snd] in Hcalls.
  - exists [Execute (count_query table_name); Execute (describe_query table_name);
            ExecuteMany q mock_rows; Commit].
    split; [| apply Hno; repeat constructor; discriminate ].
    unfold record_call in *. cbn [snd conn_calls] in *.
    rewrite Hcalls, <- !app_assoc. reflexivity.
  - exists [Execute (count_query table_name); Execute (describe_query table_name);
            ExecuteMany q mock_rows].
    split; [| apply Hno; repeat constructor; discriminate ].
    unfold record_call in *. cbn [snd conn_calls] in *.
    rewrite Hcalls, <- !app_assoc. reflexivity.
Qed.

(** Extraction, as one equation. *)
Lemma fetch_table_data_value (table_name : string) (c : connection) :
  fetch_table_data table_name c =
    (match conn_db c !! table_name with
     | Some t => Ok (List.map Field (tbl_columns t), tbl_rows t)
     | None => Raise (MySQLError "unknown table")
     end,
     mk_connection (conn_db c) (conn_calls c ++ [Execute (select_query table_name)])).
Proof.
  unfold fetch_table_data. cbv zeta. rewrite select_text.
  unfold bindM. rewrite execute_select.
  destruct (conn_db c !! table_name); reflexivity.
Qed.

(** The body of the run, path by path. *)
Lemma export_paths (w : world) (output_file s3_bucket s3_key : string) (c : connection) :
  export store float_repr w output_file s3_bucket s3_key c =
    match get_table_name (environ w) with
    | Raise e => (Raise e, c, [])
    | Ok table_name =>
        let c1 := snd (seeding_step store w table_name c) in
        let c2 := mk_connection (conn_db c1)
                    (conn_calls c1 ++ [Execute (select_query table_name)]) in
        match fst (seeding_step store w table_name c) with
        | Raise e => (Raise e, c1, [])
        | Ok _ =>
            match conn_db c1 !! table_name with
            | None => (Raise (MySQLError "unknown table"), c2, [])
            | Some t =>
                let written :=
                  WriteFile output_file
                    (Csv.writerow (List.map Field (tbl_columns t))
                     ++ fst (rows_records float_repr (tbl_rows t))) in
                if disk_ok w then
                  match snd (rows_records float_repr (tbl_rows t)) with
                  | Some e => (Raise e, c2, [written])
                  | None =>
                      if s3_ok w
                      then (Ok VNone, c2, [written; Upload output_file s3_bucket s3_key])
                      else (Raise (OSError "upload failed"), c2,
                            [written; Upload output_file s3_bucket s3_key])
                  end
                else (Raise (OSError "cannot open the output file"), c2, [])
            end
        end
    end.
Proof.
  unfold export, seeding_step.
  destruct (get_table_name (environ w)) as [table_name | e]; [| reflexivity].
  cbv zeta.
  destruct (if should_seed_mock_data (environ w) then _ else _) as [[v | e] c1];
    cbn [fst snd]; [| reflexivity].
  rewrite fetch_table_data_value.
  destruct (conn_db c1 !! table_name) as [t |]; [| reflexivity].
  unfold write_csv, upload_to_s3.
  destruct (disk_ok w); [| reflexivity].
  destruct (rows_records float_repr (tbl_rows t)) as [text [e |]]; cbn [fst snd];
    [reflexivity |].
  destruct (s3_ok w); reflexivity.
Qed.

(** When no row stops the writing, what is written is the text of every
    row. *)
Lemma rows_records_complete (rows : list (list value)) :
  snd (rows_records float_repr rows) = None ->
  fst (rows_records float_repr rows) =
    Csv.writerows (List.map (List.map (cell_text float_repr)) rows).
Proof.
  assert (forall row fields,
            comprehension (cell_str float_repr) row = Ok fields ->
            fields = List.map (cell_text float_repr) row) as Hrow.
  { induction row as [|v row IH]; simpl; intros fields H.
    - injection H as <-. reflexivity.
    - destruct (cell_str float_repr v) as [field |] eqn:Hv; [| discriminate H].
      cbn [bind] in H.
      destruct (comprehension _ row) as [rest |]; [| discriminate H].
      injection H as <-. rewrite <- (IH rest eq_refl). f_equal.
      destruct v; simpl in Hv; try (injection Hv as <-; reflexivity).
      unfold py_str_int in Hv. destruct (Nat.leb _ _); [| discriminate Hv].
      injection Hv as <-. reflexivity. }
  induction rows as [|row rows IH]; [reflexivity |].
  cbn [rows_records List.map Csv.writerows]. unfold row_record.
  destruct (comprehension _ row) as [fields |] eqn:Hfields; cbn [bind]; [| discriminate].
  destruct (rows_records float_repr rows) as [text stopped]. cbn [fst snd] in *.
  intros ->. rewrite (IH eq_refl), (Hrow _ _ Hfields). reflexivity.
Qed.

Lemma seeding_step_calls (w : world) (table_name : string) (c : connection) :
  exists new_calls,
    conn_calls (snd (seeding_step store w table_name c)) = (conn_calls c ++ new_calls)%list
    /\ ~ In Close new_calls.
Proof.
  unfold seeding_step. destruct (should_seed_mock_data (environ w)).
  - apply seed_calls_no_close.
  - exists []. split; [cbn [snd]; rewrite app_nil_r; reflexivity | intros []].
Qed.

End RunFacts.

Section RunProperties.

Variable store : table -> list string -> list value -> result (list value).

Variable float_repr : SpecFloat.spec_float -> string.

(** The calls and the outside events of the body of the run. *)
Lemma export_events (w : world) (output_file s3_bucket s3_key : string)
    (db : gmap string table) :
  let '(outcome, c, outside) :=
    export store float_repr w output_file s3_bucket s3_key (mk_connection db []) in
  Forall inner_event (List.map Called (conn_calls c) ++ outside)%list.
Proof.
  rewrite export_paths.
  assert (forall l : list call, ~ In Close l -> Forall inner_event (List.map Called l))
    as Hcalls.
  { induction l as [|x l IH]; intros Hno; constructor.
    - destruct x; try exact I. apply Hno. left. reflexivity.
    - apply IH. intros Hin. apply Hno. right. exact Hin. }
  destruct (get_table_name (environ w)) as [table_name | e]; [| constructor].
  cbv zeta.
  destruct (seeding_step_calls store w table_name (mk_connection db []))
    as (new_calls & Hnew & Hno).
  cbn [conn_calls app] in Hnew.
  destruct (fst (seeding_step store w table_name (mk_connection db []))) as [v | e].
  2: { rewrite app_nil_r, Hnew. apply Hcalls, Hno. }
  assert (~ In Close (new_calls ++ [Execute (select_query table_name)])%list) as Hno2.
  { rewrite in_app_iff. intros [Hin | [Hin | []]]; [exact (Hno Hin) | discriminate Hin]. }
  destruct (conn_db _ !! table_name) as [t |].
  2: { cbn [conn_calls]. rewrite app_nil_r, Hnew. apply Hcalls, Hno2. }
  destruct (disk_ok w);
    [destruct (snd (rows_records float_repr (tbl_rows t))); [| destruct (s3_ok w)] |];
    cbn [conn_calls]; rewrite Hnew;
    apply Forall_app; split; try (apply Hcalls, Hno2); repeat constructor.
Qed.

(** X10: the connection is closed exactly once on every path of a run that
    opened it, and closing is the last thing the run does: the events of a
    run are none when the connection settings are refused, the attempt to
    connect alone when the server refuses it, and otherwise the
    connection, events that neither open nor close a connection, and the
    closing. *)
Theorem main_closes_connection (w : world) :
  match snd (fst (main store float_repr w)) with
  | [] => is_ok (get_db_config (environ w)) = false
  | Connect config :: rest =>
      get_db_config (environ w) = Ok config
      /\ match server w with
         | None => rest = []
         | Some _ =>
             exists body, rest = (body ++ [Called Close])%list /\ Forall inner_event body
         end
  | _ => False
  end.
Proof.
  unfold main. cbv zeta.
  destruct (get_db_config (environ w)) as [config | e]; [| reflexivity].
  destruct (server w) as [db |]; [| split; reflexivity].
  pose proof (export_events w (environ_get (environ w) "OUTPUT_CSV" "ingesta_mysql.csv")
                (environ_get (environ w) "S3_BUCKET" "gcr-output-01")
                (environ_get (environ w) "S3_OBJECT_KEY"
                   (basename (environ_get (environ w) "OUTPUT_CSV" "ingesta_mysql.csv")))
                db) as Hev.
  destruct (export _ _ _ _ _ _ _) as [[outcome c] outside].
  cbn [fst snd]. split; [reflexivity |].
  exists (List.map Called (conn_calls c) ++ outside)%list.
  split; [rewrite <- app_assoc; reflexivity | exact Hev].
Qed.

(** X11: a run that returns has read the table named by [MYSQL_TABLE] as
    the database holds it at the end of the run, written the delimited
    text of its column names and rows to the output file, and then
    uploaded that file to the bucket under the key; between connecting and
    writing there are only calls on the connection, and the closing comes
    last. *)
Theorem main_success (w : world) (v : value)
    (returns : fst (fst (main store float_repr w)) = Ok v) :
  let output_file := environ_get (environ w) "OUTPUT_CSV" "ingesta_mysql.csv" in
  let s3_bucket := environ_get (environ w) "S3_BUCKET" "gcr-output-01" in
  let s3_key := environ_get (environ w) "S3_OBJECT_KEY" (basename output_file) in
  exists config table_name db t calls,
    get_db_config (environ w) = Ok config
    /\ environ w !! "MYSQL_TABLE" = Some table_name
    /\ snd (main store float_repr w) = Some db
    /\ db !! table_name = Some t
    /\ snd (fst (main store float_repr w)) =
         (Connect config :: List.map Called calls
          ++ [WriteFile output_file
                (csv_text float_repr (List.map Field (tbl_columns t)) (tbl_rows t));
              Upload output_file s3_bucket s3_key;
              Called Close])%list.
Proof.
  cbv zeta. revert returns. unfold main. cbv zeta.
  destruct (get_db_config (environ w)) as [config | e]; [| discriminate].
  destruct (server w) as [db0 |]; [| discriminate].
  rewrite export_paths. unfold get_table_name.
  destruct (environ w !! "MYSQL_TABLE") as [[|a name] |]; try discriminate.
  cbv zeta.
  destruct (fst (seeding_step store w (String a name) (mk_connection db0 [])))
    as [u | e]; [| discriminate].
  set (c1 := snd (seeding_step store w (String a name) (mk_connection db0 []))).
  destruct (conn_db c1 !! String a name) as [t |] eqn:Ht; [| discriminate].
  destruct (disk_ok w); [| discriminate].
  destruct (snd (rows_records float_repr (tbl_rows t))) eqn:Hrows; [discriminate |].
  destruct (s3_ok w); [| discriminate].
  intros _. cbn [fst snd conn_db conn_calls].
  rewrite (rows_records_complete float_repr _ Hrows).
  exists config, (String a name), (conn_db c1), t,
    (conn_calls c1 ++ [Execute (select_query (String a name))])%list.
  repeat split; try reflexivity; exact Ht.
Qed.

(** X12: when the output file cannot be written the run never returns and
    nothing is written or uploaded, yet the database ends as in the same
    run with a writable file: what seeding inserted stays committed. *)
Theorem main_unwritable_file (w : world) (unwritable : disk_ok w = false) :
  is_ok (fst (fst (main store float_repr w))) = false
  /\ Forall database_event (snd (fst (main store float_repr w)))
  /\ snd (main store float_repr w) =
       snd (main store float_repr (mk_world (environ w) (server w) true (s3_ok w))).
Proof.
  unfold main. cbv zeta. cbn [environ server].
  destruct (get_db_config (environ w)) as [config | e].
  2: { split; [reflexivity |]. split; [constructor | reflexivity]. }
  destruct (server w) as [db0 |].
  2: { split; [reflexivity |]. split; [repeat constructor | reflexivity]. }
  rewrite !export_paths. cbn [environ disk_ok s3_ok]. rewrite unwritable.
  assert (forall l : list call, Forall database_event (List.map Called l)) as Hcalls.
  { induction l; constructor; [exact I | assumption]. }
  assert (forall srv table_name c,
            seeding_step store (mk_world (environ w) srv true (s3_ok w))
              table_name c = seeding_step store w table_name c) as Hsame
    by reflexivity.
  destruct (get_table_name (environ w)) as [table_name | e].
  2: { split; [reflexivity |]. split; [repeat constructor | reflexivity]. }
  cbv zeta. rewrite !Hsame.
  destruct (fst (seeding_step store w table_name (mk_connection db0 []))) as [u | e].
  2: { split; [reflexivity |]. cbn [fst snd]. split; [| reflexivity].
       constructor; [exact I |]. rewrite app_nil_l.
       apply Forall_app. split; [apply Hcalls | repeat constructor]. }
  destruct (conn_db _ !! table_name) as [t |].
  2: { split; [reflexivity |]. cbn [fst snd]. split; [| reflexivity].
       constructor; [exact I |]. rewrite app_nil_l.
       apply Forall_app. split; [apply Hcalls | repeat constructor]. }
  split; [reflexivity |]. cbn [fst snd]. split.
  - constructor; [exact I |]. rewrite app_nil_l.
    apply Forall_app. split; [apply Hcalls | repeat constructor].
  - destruct (snd (rows_records float_repr (tbl_rows t)));
      [| destruct (s3_ok w)]; reflexivity.
Qed.

End RunProperties.

Lemma main_success_witness :
  exists config table_name db t calls,
    get_db_config (environ demo_world) = Ok config
    /\ environ demo_world !! "MYSQL_TABLE" = Some table_name
    /\ snd (main store_named (fun _ => EmptyString) demo_world) = Some db
    /\ db !! table_name = Some t
    /\ snd (fst (main store_named (fun _ => EmptyString) demo_world)) =
         (Connect config :: List.map Called calls
          ++ [WriteFile "ingesta_mysql.csv"
                (csv_text (fun _ => EmptyString) (List.map Field (tbl_columns t))
                   (tbl_rows t));
              Upload "ingesta_mysql.csv" "gcr-output-01" "ingesta_mysql.csv";
              Called Close])%list.
Proof.
  apply (main_success store_named (fun _ => EmptyString) demo_world VNone).
  vm_compute. reflexivity.
Defined.

Lemma main_unwritable_file_witness :
  is_ok (fst (fst (main store_named (fun _ => EmptyString) demo_world_full_disk))) = false
  /\ Forall database_event
       (snd (fst (main store_named (fun _ => EmptyString) demo_world_full_disk)))
  /\ snd (main store_named (fun _ => EmptyString) demo_world_full_disk) =
       snd (main store_named (fun _ => EmptyString)
              (mk_world (environ demo_world_full_disk) (server demo_world_full_disk)
                 true (s3_ok demo_world_full_disk))).
Proof.
  apply (main_unwritable_file store_named (fun _ => EmptyString) demo_world_full_disk).
  reflexivity.
Defined.

Section RunSettings.

Variable store : table -> list string -> list value -> result (list value).

Variable float_repr : SpecFloat.spec_float -> string.

(** X13: with seeding switched off, the only statement a run sends is the
    select on the named table, and the database ends as it began, whether
    the table is empty or not and whether the export then succeeds or
    not. *)
Theorem main_without_seeding (w : world) (config : db_config) (db : gmap string table)
    (table_name : string)
    (switched_off : should_seed_mock_data (environ w) = false)
    (settings : get_db_config (environ w) = Ok config)
    (connected : server w = Some db)
    (named : get_table_name (environ w) = Ok table_name) :
  snd (main store float_repr w) = Some db
  /\ exists outside,
       snd (fst (main store float_repr w)) =
         (Connect config :: Called (Execute (select_query table_name))
          :: outside ++ [Called Close])%list
       /\ Forall sink_event outside.
Proof.
  unfold main. cbv zeta. rewrite settings, connected, export_paths, named.
  unfold seeding_step. rewrite switched_off. cbn [fst snd conn_db conn_calls app].
  destruct (db !! table_name) as [t |].
  2: { split; [reflexivity |]. exists []. split; [reflexivity | constructor]. }
  destruct (disk_ok w);
    [destruct (snd (rows_records float_repr (tbl_rows t))); [| destruct (s3_ok w)] |];
    (split; [reflexivity |]).
  - eexists [_]. split; [reflexivity | repeat constructor].
  - eexists [_; _]. split; [reflexivity | repeat constructor].
  - eexists [_; _]. split; [reflexivity | repeat constructor].
  - exists []. split; [reflexivity | constructor].
Qed.

(** X14: a [MOCK_ROWS] setting that [int] refuses is not an error: the run
    is, event for event, the run with [MOCK_ROWS] set to 3. *)
Theorem main_mock_rows_fallback (w : world) (text : string)
    (set : environ w !! "MOCK_ROWS" = Some text)
    (refused : is_ok (PyInt.of_string text) = false) :
  main store float_repr w = main store float_repr (with_setting "MOCK_ROWS" "3" w).
Proof.
  assert (forall key, key <> "MOCK_ROWS" ->
            <[ "MOCK_ROWS" := "3" ]> (environ w) !! key = environ w !! key) as Hother
    by (intros key Hkey; apply lookup_insert_ne; congruence).
  assert (get_db_config (<[ "MOCK_ROWS" := "3" ]> (environ w)) = get_db_config (environ w))
    as Hconfig.
  { unfold get_db_config, environ_get. rewrite !Hother by discriminate. reflexivity. }
  assert (forall key default, key <> "MOCK_ROWS" ->
            environ_get (<[ "MOCK_ROWS" := "3" ]> (environ w)) key default =
              environ_get (environ w) key default) as Hget
    by (intros key default Hkey; unfold environ_get; rewrite Hother by exact Hkey;
        reflexivity).
  unfold main, with_setting. cbv zeta. cbn [environ server].
  rewrite Hconfig, !Hget by discriminate.
  destruct (get_db_config (environ w)) as [config | e]; [| reflexivity].
  destruct (server w) as [db |]; [| reflexivity].
  rewrite !export_paths. cbn [environ disk_ok s3_ok].
  unfold get_table_name, seeding_step, should_seed_mock_data.
  cbn [environ].
  rewrite !Hother, !Hget by discriminate.
  replace (environ_get (<[ "MOCK_ROWS" := "3" ]> (environ w)) "MOCK_ROWS" "3") with "3"
    by (unfold environ_get; rewrite lookup_insert_eq; reflexivity).
  replace (environ_get (environ w) "MOCK_ROWS" "3") with text
    by (unfold environ_get; rewrite set; reflexivity).
  destruct (PyInt.of_string text) as [n | e]; [discriminate refused |].
  reflexivity.
Qed.

End RunSettings.

Lemma main_without_seeding_witness :
  snd (main store_named (fun _ => EmptyString) demo_world_no_seeding) =
    Some {[ "people" := demo_table ]}
  /\ exists outside,
       snd (fst (main store_named (fun _ => EmptyString) demo_world_no_seeding)) =
         (Connect (mk_db_config "localhost" 3306 "u" "p" "d")
          :: Called (Execute (select_query "people"))
          :: outside ++ [Called Close])%list
       /\ Forall sink_event outside.
Proof.
  apply (main_without_seeding store_named (fun _ => EmptyString) demo_world_no_seeding).
  - vm_compute. reflexivity.
  - vm_compute. reflexivity.
  - reflexivity.
  - vm_compute. reflexivity.
Defined.

Lemma main_mock_rows_fallback_witness :
  main store_named (fun _ => EmptyString) demo_world_many =
    main store_named (fun _ => EmptyString) (with_setting "MOCK_ROWS" "3" demo_world_many).
Proof.
  apply (main_mock_rows_fallback store_named (fun _ => EmptyString) demo_world_many "many").
  - vm_compute. reflexivity.
  - reflexivity.
Defined.

Section RunAgain.

Variable store : table -> list string -> list value -> result (list value).

Variable float_repr : SpecFloat.spec_float -> string.





End RunAgain.


(** ** The connection settings *)

(** X16: the connection settings are the values of the three required
    variables as they are set, empty ones included, with [localhost] for
    an unset host and 3306 for an unset port; a required variable that is
    not set is reported first, as a [RuntimeError], also when the port is
    no number, and [ValueError] is raised only when the three are set. *)
Theorem get_db_config_result (environ : gmap string string) :
  match get_db_config environ with
  | Ok config =>
      environ !! "MYSQL_USER" = Some (user config)
      /\ environ !! "MYSQL_PASSWORD" = Some (password config)
      /\ environ !! "MYSQL_DATABASE" = Some (database config)
      /\ host config = default "localhost" (environ !! "MYSQL_HOST")
      /\ match environ !! "MYSQL_PORT" with
         | Some text => PyInt.of_string text = Ok (port config)
         | None => port config = 3306
         end
  | Raise (RuntimeError _) =>
      environ !! "MYSQL_USER" = None \/ environ !! "MYSQL_PASSWORD" = None
      \/ environ !! "MYSQL_DATABASE" = None
  | Raise e =>
      e = ValueError
      /\ is_Some (environ !! "MYSQL_USER") /\ is_Some (environ !! "MYSQL_PASSWORD")
      /\ is_Some (environ !! "MYSQL_DATABASE")
      /\ exists text,
           environ !! "MYSQL_PORT" = Some text /\ PyInt.of_string text = Raise ValueError
  end.
Proof.
  unfold get_db_config, environ_get.
  destruct (environ !! "MYSQL_USER") as [u |]; [| left; reflexivity].
  destruct (environ !! "MYSQL_PASSWORD") as [p |]; [| right; left; reflexivity].
  destruct (environ !! "MYSQL_DATABASE") as [d |]; [| right; right; reflexivity].
  cbv zeta.
  destruct (environ !! "MYSQL_PORT") as [text |].
  - destruct (PyInt.of_string text) as [n | e] eqn:Hp; cbn [bind].
    + repeat split; reflexivity.
    + assert (e = ValueError) as ->.
      { revert Hp. unfold PyInt.of_string. cbv zeta.
        destruct (match PyInt.strip text with EmptyString => _ | _ => _ end);
          [destruct (Nat.leb _ _) |]; congruence. }
      repeat split; eauto.
  - change (PyInt.of_string "3306") with (@Ok Z 3306). cbn [bind].
    repeat split; reflexivity.
Qed.
